(** * QlAccount: schema-driven record engine

    A shallow embedding of the record engine of the resource console:
    the permission helpers of [types.ts], the filter, the CSV export and
    import and the form validation of [views/DataManager.tsx], and the
    project save path of [views/SystemSettings.tsx] with
    [projectService] of [services/storage.ts]; and, around them, the
    form, deletion and paging handlers of the record view, the project
    list and board, the schema builder, the member and profile views,
    the menu and the pages of the application, and the dashboard.

    JavaScript strings are sequences of UTF-16 code units, modelled as
    [list N]; ASCII literals are written [str "..."], other literals are
    given by their code units. *)

From Stdlib Require Import String Ascii ZArith NArith Lia.
From stdpp Require Import gmap list pretty sorting.

Local Open Scope N_scope.

Set Warnings "-register-all".

(** ** Strings *)

Abbreviation jsstring := (list N).

Definition str (s : string) : jsstring :=
  (fun a => N_of_ascii a) <$> list_ascii_of_string s.
Arguments str : simpl never.

Definition DQUOTE : N := 34.
Definition COMMA : N := 44.
Definition LF : N := 10.
Definition BOM : N := 65279.

(** [s === t] on strings. *)
Definition str_eqb (s t : jsstring) : bool := bool_decide (s = t).

(** ECMAScript WhiteSpace and LineTerminator code units, the ones
    [String.prototype.trim] removes. *)
Definition isWhiteSpace (c : N) : bool :=
  (c =? 9) || (c =? 10) || (c =? 11) || (c =? 12) || (c =? 13) || (c =? 32)
  || (c =? 160) || (c =? 5760) || ((8192 <=? c) && (c <=? 8202))
  || (c =? 8232) || (c =? 8233) || (c =? 8239) || (c =? 8287)
  || (c =? 12288) || (c =? 65279).

Fixpoint trimStart (s : jsstring) : jsstring :=
  match s with
  | c :: s' => if isWhiteSpace c then trimStart s' else s
  | [] => []
  end.

Definition trimEnd (s : jsstring) : jsstring :=
  reverse (trimStart (reverse s)).

Definition trim (s : jsstring) : jsstring := trimEnd (trimStart s).

Fixpoint startsWith (s p : jsstring) : bool :=
  match p, s with
  | [], _ => true
  | _ :: _, [] => false
  | b :: p', a :: s' => (a =? b) && startsWith s' p'
  end.

(** [s.includes(sub)]: [sub] occurs in [s] at some position. *)
Fixpoint includes (s sub : jsstring) : bool :=
  startsWith s sub ||
  match s with
  | [] => false
  | _ :: s' => includes s' sub
  end.

(** [parts.join(sep)] on strings. *)
Fixpoint join (sep : jsstring) (parts : list jsstring) : jsstring :=
  match parts with
  | [] => []
  | [p] => p
  | p :: rest => p ++ sep ++ join sep rest
  end.

(** ** JavaScript values held in a record's data map

    [data: Record<string, any>] holds what the store's JSON column
    holds: scalars and arrays. A number is represented by the text
    [String(n)] gives for it, which determines the number up to the
    sign of zero. *)

Inductive JsVal : Type :=
| VUndefined
| VNull
| VBool (b : bool)
| VNum (repr : jsstring)
| VStr (s : jsstring)
| VArr (elems : list JsVal).

(** [String(v)]; on arrays this is [join(",")], where [undefined] and
    [null] elements give the empty string. *)
Fixpoint ToString (v : JsVal) : jsstring :=
  match v with
  | VUndefined => str "undefined"
  | VNull => str "null"
  | VBool true => str "true"
  | VBool false => str "false"
  | VNum r => r
  | VStr s => s
  | VArr l =>
      join [COMMA]
        ((fix elems (l : list JsVal) : list jsstring :=
            match l with
            | [] => []
            | VUndefined :: l' => [] :: elems l'
            | VNull :: l' => [] :: elems l'
            | e :: l' => ToString e :: elems l'
            end) l)
  end.

(** The element conversion of [Array.prototype.join]. *)
Definition joinElem (v : JsVal) : jsstring :=
  match v with
  | VUndefined | VNull => []
  | _ => ToString v
  end.

(** [cells.join(sep)] on an array of values. *)
Definition arrayJoin (sep : jsstring) (l : list JsVal) : jsstring :=
  join sep (joinElem <$> l).

(** Truthiness, as [if (v)], [!v] and [v ? a : b] use it. *)
Definition truthy (v : JsVal) : bool :=
  match v with
  | VUndefined | VNull => false
  | VBool b => b
  | VNum r => negb (str_eqb r (str "0") || str_eqb r (str "NaN"))
  | VStr s => negb (str_eqb s [])
  | VArr _ => true
  end.

(** [arr.includes(s)] for a string [s]: some element is that string. *)
Definition arrIncludes (l : list JsVal) (s : jsstring) : bool :=
  existsb (fun e => match e with VStr t => str_eqb t s | _ => false end) l.

(** Property read [o[k]] on a plain data object: a missing key reads
    as [undefined]. *)
Definition getProp (o : gmap jsstring JsVal) (k : jsstring) : JsVal :=
  default VUndefined (o !! k).

(** ** The data model of [types.ts] *)

Module Role.
Inductive t := admin | manager | user.
End Role.

Module FieldType.
Inductive t :=
| text | number | date | boolean | textarea | project | user | image | file.
End FieldType.

Module User.
Record t := mk {
  id : jsstring;
  username : jsstring;
  email : jsstring;
  fullName : option jsstring;
  avatarUrl : option jsstring;
  role : Role.t
}.
End User.

Module FieldDefinition.
Record t := mk {
  id : jsstring;
  name : jsstring;
  key : jsstring;
  type : FieldType.t;
  required : bool
}.
End FieldDefinition.

Inductive AccessLevel := public | restricted.

Module Category.
Record t := mk {
  id : jsstring;
  name : jsstring;
  description : jsstring;
  fields : list FieldDefinition.t;
  createdAt : Z;
  accessLevel : AccessLevel
}.
End Category.

Module ResourceItem.
(** [data] is [None] when the stored column is [null]; the code guards
    its reads with [r.data ? ... : null] and [resource.data?.[k]]. *)
Record t := mk {
  id : jsstring;
  categoryId : jsstring;
  data : option (gmap jsstring JsVal);
  createdBy : jsstring;
  createdAt : Z
}.
End ResourceItem.

Inductive ProjectStatus := active | completed | paused.

Module Project.
Record t := mk {
  id : jsstring;
  name : jsstring;
  code : jsstring;
  description : jsstring;
  status : ProjectStatus;
  createdAt : jsstring
}.
End Project.

(** ** Permission helpers ([PERMISSIONS] of [types.ts]) *)

Module PERMISSIONS.

Definition canManageSchema (u : User.t) : bool :=
  match User.role u with Role.admin => true | _ => false end.

Definition canManageProjects (u : User.t) : bool :=
  match User.role u with Role.admin | Role.manager => true | Role.user => false end.

Definition canCreateResource (u : User.t) : bool :=
  match User.role u with Role.admin | Role.manager => true | Role.user => false end.

Definition canViewCategory (u : User.t) (c : Category.t) : bool :=
  match User.role u with
  | Role.admin | Role.manager => true
  | Role.user => match Category.accessLevel c with public => true | restricted => false end
  end.

Definition canEditResource (u : User.t) (r : ResourceItem.t) : bool :=
  match User.role u with
  | Role.admin | Role.manager => true
  | Role.user => str_eqb (ResourceItem.createdBy r) (User.username u)
  end.

Definition canDeleteResource (u : User.t) (r : ResourceItem.t) : bool :=
  match User.role u with
  | Role.admin => true
  | Role.manager => true
  | Role.user => str_eqb (ResourceItem.createdBy r) (User.username u)
  end.

End PERMISSIONS.

(** ** Literals of the views *)

(** [Lỗi xác định danh mục] *)
Definition MSG_CATEGORY_ERROR : jsstring :=
  [76; 7895; 105; 32; 120; 225; 99; 32; 273; 7883; 110; 104; 32; 100; 97;
   110; 104; 32; 109; 7909; 99].

(** [Vui lòng nhập ] *)
Definition MSG_PLEASE_ENTER : jsstring :=
  [86; 117; 105; 32; 108; 242; 110; 103; 32; 110; 104; 7853; 112; 32].

(** [Lưu dữ liệu thành công] *)
Definition MSG_SAVE_OK : jsstring :=
  [76; 432; 117; 32; 100; 7919; 32; 108; 105; 7879; 117; 32; 116; 104; 224;
   110; 104; 32; 99; 244; 110; 103].

(** [Lỗi lưu dữ liệu] *)
Definition MSG_SAVE_ERROR : jsstring :=
  [76; 7895; 105; 32; 108; 432; 117; 32; 100; 7919; 32; 108; 105; 7879; 117].

(** [Lưu bản ghi trong danh mục ] *)
Definition MSG_AUDIT_SAVE_RESOURCE : jsstring :=
  [76; 432; 117; 32; 98; 7843; 110; 32; 103; 104; 105; 32; 116; 114; 111;
   110; 103; 32; 100; 97; 110; 104; 32; 109; 7909; 99; 32].

(** [Mã dự án không được để trống] *)
Definition MSG_CODE_EMPTY : jsstring :=
  [77; 227; 32; 100; 7921; 32; 225; 110; 32; 107; 104; 244; 110; 103; 32;
   273; 432; 7907; 99; 32; 273; 7875; 32; 116; 114; 7889; 110; 103].

(** [Tên dự án không được để trống] *)
Definition MSG_NAME_EMPTY : jsstring :=
  [84; 234; 110; 32; 100; 7921; 32; 225; 110; 32; 107; 104; 244; 110; 103;
   32; 273; 432; 7907; 99; 32; 273; 7875; 32; 116; 114; 7889; 110; 103].

(** [Mã dự án này đã tồn tại, vui lòng chọn mã khác] *)
Definition MSG_CODE_EXISTS : jsstring :=
  [77; 227; 32; 100; 7921; 32; 225; 110; 32; 110; 224; 121; 32; 273; 227;
   32; 116; 7891; 110; 32; 116; 7841; 105; 44; 32; 118; 117; 105; 32; 108;
   242; 110; 103; 32; 99; 104; 7885; 110; 32; 109; 227; 32; 107; 104; 225;
   99].

(** [Lưu dự án thành công] *)
Definition MSG_PROJECT_OK : jsstring :=
  [76; 432; 117; 32; 100; 7921; 32; 225; 110; 32; 116; 104; 224; 110; 104;
   32; 99; 244; 110; 103].

(** [Lỗi lưu dự án] *)
Definition MSG_PROJECT_ERROR : jsstring :=
  [76; 7895; 105; 32; 108; 432; 117; 32; 100; 7921; 32; 225; 110].

(** [Lưu dự án: ] *)
Definition MSG_AUDIT_SAVE_PROJECT : jsstring :=
  [76; 432; 117; 32; 100; 7921; 32; 225; 110; 58; 32].

(** [Tất cả (All)] *)
Definition LABEL_ALL : jsstring :=
  [84; 7845; 116; 32; 99; 7843; 32; 40; 65; 108; 108; 41].

(** [Người tạo] *)
Definition HDR_CREATOR : jsstring :=
  [78; 103; 432; 7901; 105; 32; 116; 7841; 111].

(** [Ngày tạo] *)
Definition HDR_CREATED : jsstring :=
  [78; 103; 224; 121; 32; 116; 7841; 111].

(** [Có] *)
Definition LABEL_YES : jsstring := [67; 243].

(** [Không] *)
Definition LABEL_NO : jsstring := [75; 104; 244; 110; 103].

(** [có] *)
Definition WORD_CO : jsstring := [99; 243].

(** [đúng] *)
Definition WORD_DUNG : jsstring := [273; 250; 110; 103].

(** ** Literals of the schema, member and profile views *)

(** [Vui lòng nhập tên danh mục] *)
Definition MSG_CATEGORY_NAME_EMPTY : jsstring :=
  [86; 117; 105; 32; 108; 242; 110; 103; 32; 110; 104; 7853; 112; 32; 116;
   234; 110; 32; 100; 97; 110; 104; 32; 109; 7909; 99]%N.

(** [Vui lòng thêm ít nhất một trường dữ liệu] *)
Definition MSG_NEED_FIELD : jsstring :=
  [86; 117; 105; 32; 108; 242; 110; 103; 32; 116; 104; 234; 109; 32; 237;
   116; 32; 110; 104; 7845; 116; 32; 109; 7897; 116; 32; 116; 114; 432;
   7901; 110; 103; 32; 100; 7919; 32; 108; 105; 7879; 117]%N.

(** [Tên trường dữ liệu không được để trống] *)
Definition MSG_FIELD_NAME_EMPTY : jsstring :=
  [84; 234; 110; 32; 116; 114; 432; 7901; 110; 103; 32; 100; 7919; 32; 108;
   105; 7879; 117; 32; 107; 104; 244; 110; 103; 32; 273; 432; 7907; 99; 32;
   273; 7875; 32; 116; 114; 7889; 110; 103]%N.

(** [Lưu cấu trúc thành công!] *)
Definition MSG_SCHEMA_OK : jsstring :=
  [76; 432; 117; 32; 99; 7845; 117; 32; 116; 114; 250; 99; 32; 116; 104;
   224; 110; 104; 32; 99; 244; 110; 103; 33]%N.

(** [Lỗi lưu cấu trúc] *)
Definition MSG_SCHEMA_ERROR : jsstring :=
  [76; 7895; 105; 32; 108; 432; 117; 32; 99; 7845; 117; 32; 116; 114; 250;
   99]%N.

(** [📁] *)
Definition ICON_FOLDER : jsstring :=
  [55357; 56513]%N.

(** [Lưu danh mục: ] *)
Definition MSG_AUDIT_SAVE_CATEGORY : jsstring :=
  [76; 432; 117; 32; 100; 97; 110; 104; 32; 109; 7909; 99; 58; 32]%N.

(** [Bạn không thể tự xóa tài khoản của chính mình!] *)
Definition MSG_NO_SELF_DELETE : jsstring :=
  [66; 7841; 110; 32; 107; 104; 244; 110; 103; 32; 116; 104; 7875; 32; 116;
   7921; 32; 120; 243; 97; 32; 116; 224; 105; 32; 107; 104; 111; 7843; 110;
   32; 99; 7911; 97; 32; 99; 104; 237; 110; 104; 32; 109; 236; 110; 104; 33]%N.

(** [Đã xóa người dùng ] *)
Definition MSG_DELETED_USER : jsstring :=
  [272; 227; 32; 120; 243; 97; 32; 110; 103; 432; 7901; 105; 32; 100; 249;
   110; 103; 32]%N.

(** [Có lỗi xảy ra khi xóa người dùng] *)
Definition MSG_DELETE_USER_ERROR : jsstring :=
  [67; 243; 32; 108; 7895; 105; 32; 120; 7843; 121; 32; 114; 97; 32; 107;
   104; 105; 32; 120; 243; 97; 32; 110; 103; 432; 7901; 105; 32; 100; 249;
   110; 103]%N.

(** [Xóa người dùng ID: ] *)
Definition MSG_AUDIT_DELETE_USER : jsstring :=
  [88; 243; 97; 32; 110; 103; 432; 7901; 105; 32; 100; 249; 110; 103; 32;
   73; 68; 58; 32]%N.

(** [Mật khẩu mới không khớp!] *)
Definition MSG_PASSWORD_MISMATCH : jsstring :=
  [77; 7853; 116; 32; 107; 104; 7849; 117; 32; 109; 7899; 105; 32; 107;
   104; 244; 110; 103; 32; 107; 104; 7899; 112; 33]%N.

(** [Mật khẩu mới phải có ít nhất 6 ký tự] *)
Definition MSG_PASSWORD_SHORT : jsstring :=
  [77; 7853; 116; 32; 107; 104; 7849; 117; 32; 109; 7899; 105; 32; 112;
   104; 7843; 105; 32; 99; 243; 32; 237; 116; 32; 110; 104; 7845; 116; 32;
   54; 32; 107; 253; 32; 116; 7921]%N.

(** [Đổi mật khẩu thành công!] *)
Definition MSG_PASSWORD_OK : jsstring :=
  [272; 7893; 105; 32; 109; 7853; 116; 32; 107; 104; 7849; 117; 32; 116;
   104; 224; 110; 104; 32; 99; 244; 110; 103; 33]%N.

(** [Lỗi đổi mật khẩu] *)
Definition MSG_PASSWORD_ERROR : jsstring :=
  [76; 7895; 105; 32; 273; 7893; 105; 32; 109; 7853; 116; 32; 107; 104;
   7849; 117]%N.

(** [Mật khẩu cũ không chính xác.] *)
Definition MSG_OLD_PASSWORD_WRONG : jsstring :=
  [77; 7853; 116; 32; 107; 104; 7849; 117; 32; 99; 361; 32; 107; 104; 244;
   110; 103; 32; 99; 104; 237; 110; 104; 32; 120; 225; 99; 46]%N.

(** [Lỗi khi cập nhật mật khẩu: ] *)
Definition MSG_UPDATE_PASSWORD_ERROR : jsstring :=
  [76; 7895; 105; 32; 107; 104; 105; 32; 99; 7853; 112; 32; 110; 104; 7853;
   116; 32; 109; 7853; 116; 32; 107; 104; 7849; 117; 58; 32]%N.

(** [Thay đổi mật khẩu] *)
Definition MSG_AUDIT_PASSWORD : jsstring :=
  [84; 104; 97; 121; 32; 273; 7893; 105; 32; 109; 7853; 116; 32; 107; 104;
   7849; 117]%N.


(** [Xóa bản ghi ID: ] *)
Definition MSG_AUDIT_DELETE_RESOURCE : jsstring :=
  [88; 243; 97; 32; 98; 7843; 110; 32; 103; 104; 105; 32; 73; 68; 58; 32]%N.

(** [Đã xóa bản ghi] *)
Definition MSG_RESOURCE_DELETED : jsstring :=
  [272; 227; 32; 120; 243; 97; 32; 98; 7843; 110; 32; 103; 104; 105]%N.

(** [Lỗi xóa dữ liệu] *)
Definition MSG_RESOURCE_DELETE_ERROR : jsstring :=
  [76; 7895; 105; 32; 120; 243; 97; 32; 100; 7919; 32; 108; 105; 7879; 117]%N.

(** ** The host

    What the views take from the JavaScript engine and its locale, and
    do not compute themselves. The local time zone has a fixed offset
    [LocalTZA] (milliseconds east of UTC); daylight saving is not
    modelled. *)

Class Host := {
  (** [s.toLowerCase()] *)
  toLowerCase : jsstring -> jsstring;
  (** [Number(s)] on a string, as the text of the resulting number *)
  StringToNumber : jsstring -> jsstring;
  (** [Date.parse(s)]; [None] is [NaN] *)
  Date_parse : jsstring -> option Z;
  (** local time minus UTC, in milliseconds *)
  LocalTZA : Z;
  (** [new Date(v).toLocaleDateString('vi-VN')] on a stored value *)
  toLocaleDateString : JsVal -> jsstring;
  (** [new Date(t).toLocaleString('vi-VN')] on epoch milliseconds *)
  toLocaleString : Z -> jsstring
}.

(** ** Dates

    A [Date] is its time value: [Some t] milliseconds since the epoch,
    or [None] for an invalid date. *)

Local Open Scope Z_scope.

Definition msPerDay : Z := 86400000.

Definition TimeClip (t : Z) : option Z :=
  if Z.abs t <=? 8640000000000000 then Some t else None.

(** [new Date(n)] on a number. *)
Definition newDate (t : Z) : option Z := TimeClip t.

(** [a < b] on dates: [false] as soon as one side is invalid. *)
Definition date_lt (a b : option Z) : bool :=
  match a, b with
  | Some x, Some y => x <? y
  | _, _ => false
  end.

(** The filter state of the view. [fieldFilters] lists the entries of
    the filter object in the order [for (const key in fieldFilters)]
    visits them. *)
Record Filters := {
  filterCreator : jsstring;
  filterDateFrom : jsstring;
  filterDateTo : jsstring;
  fieldFilters : list (jsstring * jsstring);
  selectedCategory : option Category.t
}.

(** How one turn of the loop over [fieldFilters] ends. *)
Inductive Outcome := Continue | ReturnFalse | ReturnTrue.

Section HostDates.
Context {host : Host}.

(** [new Date(s)] on a string. *)
Definition newDateOfString (s : jsstring) : option Z :=
  match Date_parse s with
  | Some t => TimeClip t
  | None => None
  end.

(** [d.setHours(h, m, s, ms)]: the same local day, at the given local
    time of day. *)
Definition setHours (d : option Z) (h m s ms : Z) : option Z :=
  match d with
  | None => None
  | Some t =>
      let day := (t + LocalTZA) / msPerDay in
      let time := h * 3600000 + m * 60000 + s * 1000 + ms in
      TimeClip (day * msPerDay + time - LocalTZA)
  end.

(** [Number(v)], as the text of the number. *)
Definition ToNumber (v : JsVal) : jsstring :=
  match v with
  | VUndefined => str "NaN"
  | VNull => str "0"
  | VBool true => str "1"
  | VBool false => str "0"
  | VNum r => r
  | VStr s => StringToNumber s
  | VArr _ => StringToNumber (ToString v)
  end.

(** [a === b] on numbers: [NaN] equals nothing. *)
Definition num_strict_eq (a b : jsstring) : bool :=
  negb (str_eqb a (str "NaN")) && str_eqb a b.

End HostDates.

(** ** The remote store and the effects of the views

    A handler's run is the list of the events it causes, in order,
    ending in a result or in a thrown [Error] (its message). The
    store's answers are those of [Store]. *)

Inductive ToastType := success | error.

Inductive AuditAction := LOGIN | CREATE | UPDATE | DELETE.

Module PartialProject.
(** [Partial<Project>]: the project form. *)
Record t := mk {
  id : option jsstring;
  name : option jsstring;
  code : option jsstring;
  description : option jsstring;
  status : option ProjectStatus
}.
End PartialProject.

Module PartialResource.
(** [Partial<ResourceItem>]: the record being edited, [{}] for a new one. *)
Record t := mk {
  id : option jsstring;
  categoryId : option jsstring;
  createdBy : option jsstring;
  createdAt : option Z
}.
End PartialResource.

Inductive Event :=
| ProjectsSelectId (code : jsstring) (neqId : option jsstring)
| ProjectsUpsert (p : PartialProject.t)
| ResourcesUpsert (r : ResourceItem.t)
| AuditLog (action : AuditAction) (target details : jsstring)
| ShowToast (msg : jsstring) (type : ToastType)
| SetIsModalOpen (open : bool).

(** The [{ data, error }] answer of a query. *)
Module Response.
Record t (A : Type) := mk {
  data : option A;
  error : option jsstring
}.
Arguments mk {A} _ _.
Arguments data {A} _.
Arguments error {A} _.
End Response.

Class Store := {
  (** [from('projects').select('id').eq('code', code)], with
      [.neq('id', x)] when the second argument is [Some x] *)
  projects_select_id : jsstring -> option jsstring -> Response.t (list jsstring);
  (** the [error.message] of [from('projects').upsert(p)], if any *)
  projects_upsert : PartialProject.t -> option jsstring;
  (** the [error.message] of [from('resources').upsert(r)], if any *)
  resources_upsert : ResourceItem.t -> option jsstring
}.

Definition Eff (A : Type) : Type := (list Event * (jsstring + A))%type.

Definition trace {A} (m : Eff A) : list Event := fst m.
Definition outcome {A} (m : Eff A) : jsstring + A := snd m.

#[export] Instance Eff_ret : MRet Eff := fun A a => ([], inr a).

#[export] Instance Eff_bind : MBind Eff := fun A B f m =>
  match m with
  | (t, inl e) => (t, inl e)
  | (t, inr a) => let '(t', r) := f a in (t ++ t', r)
  end.

Definition emit (e : Event) : Eff unit := ([e], inr tt).

(** [throw new Error(msg)] *)
Definition throw {A} (msg : jsstring) : Eff A := ([], inl msg).

(** [try { m } catch (e) { h e }] *)
Definition try_catch {A} (m : Eff A) (h : jsstring -> Eff A) : Eff A :=
  match m with
  | (t, inl e) => let '(t', r) := h e in (t ++ t', r)
  | (t, inr a) => (t, inr a)
  end.

Definition showToast (msg : jsstring) (type : ToastType) : Eff unit :=
  emit (ShowToast msg type).

Definition setIsModalOpen (b : bool) : Eff unit := emit (SetIsModalOpen b).

(** [x || d] on an optional string: [undefined] and [''] give [d]. *)
Definition orString (x : option jsstring) (d : jsstring) : jsstring :=
  match x with
  | Some (c :: s) => c :: s
  | _ => d
  end.

(** ** The store calls and the effects of the other views

    The schema, member and profile views talk to other tables and to
    the sign-in service. Their runs are lists of [Call]s, with the
    answers of [Backend]. *)

Inductive Call :=
| CategoriesUpsert (c : Category.t) (icon : jsstring)
| ResourcesDelete (id : jsstring)
| ProfilesDelete (userId : jsstring)
| SignInWithPassword (email password : jsstring)
| UpdateUserPassword (password : jsstring)
| Audit (action : AuditAction) (target details : jsstring)
| Toast (msg : jsstring) (type : ToastType).

Class Backend := {
  (** the [error.message] of [from('categories').upsert(payload)], if any *)
  categories_upsert : Category.t -> jsstring -> option jsstring;
  (** the [error.message] of [from('resources').delete().eq('id', id)] *)
  resources_delete : jsstring -> option jsstring;
  (** the [error.message] of [from('profiles').delete().eq('id', id)] *)
  profiles_delete : jsstring -> option jsstring;
  (** the [error.message] of [auth.signInWithPassword], if any *)
  sign_in_with_password : jsstring -> jsstring -> option jsstring;
  (** the [error.message] of [auth.updateUser({ password })], if any *)
  update_user_password : jsstring -> option jsstring
}.

Definition Run (A : Type) : Type := (list Call * (jsstring + A))%type.

Definition calls {A} (m : Run A) : list Call := fst m.
Definition result {A} (m : Run A) : jsstring + A := snd m.

#[export] Instance Run_ret : MRet Run := fun A a => ([], inr a).

#[export] Instance Run_bind : MBind Run := fun A B f m =>
  match m with
  | (t, inl e) => (t, inl e)
  | (t, inr a) => let '(t', r) := f a in (t ++ t', r)
  end.

Definition perform (c : Call) : Run unit := ([c], inr tt).

(** [throw new Error(msg)] *)
Definition raise {A} (msg : jsstring) : Run A := ([], inl msg).

(** [try { m } catch (e) { h e }] *)
Definition try_run {A} (m : Run A) (h : jsstring -> Run A) : Run A :=
  match m with
  | (t, inl e) => let '(t', r) := h e in (t ++ t', r)
  | (t, inr a) => (t, inr a)
  end.

Definition toast (msg : jsstring) (type : ToastType) : Run unit :=
  perform (Toast msg type).

(** [auditService.log] from these views. *)
Definition audit (action : AuditAction) (target details : jsstring) : Run unit :=
  perform (Audit action target details).

Module PartialCategory.
(** [Partial<Category>]: the category being built. *)
Record t := mk {
  id : option jsstring;
  name : option jsstring;
  description : option jsstring;
  fields : option (list FieldDefinition.t);
  createdAt : option Z;
  accessLevel : option AccessLevel;
  icon : option jsstring
}.
End PartialCategory.

Module PartialField.
(** [Partial<FieldDefinition>]: the updates of a field. *)
Record t := mk {
  id : option jsstring;
  name : option jsstring;
  key : option jsstring;
  type : option FieldType.t;
  required : option bool
}.
End PartialField.

(** ** [services/storage.ts] *)

Module auditService.
(** [auditService.log] is not awaited and swallows its own failures. *)
Definition log (action : AuditAction) (target details : jsstring) : Eff unit :=
  emit (AuditLog action target details).
End auditService.

Module dataService.
Section WithStore.
Context {store : Store}.

Definition saveResource (resource : ResourceItem.t) : Eff unit :=
  emit (ResourcesUpsert resource) ;;
  match resources_upsert resource with
  | Some message => throw message
  | None =>
      auditService.log UPDATE (str "Resource")
        (MSG_AUDIT_SAVE_RESOURCE ++ ResourceItem.categoryId resource)
  end.

End WithStore.
Section WithBackend.
Context {backend : Backend}.

Definition saveCategory (category : Category.t) (icon : jsstring) : Run unit :=
  let isNew := str_eqb (Category.id category) [] in
  perform (CategoriesUpsert category icon) ;;
  match categories_upsert category icon with
  | Some message => raise message
  | None =>
      audit (if isNew then CREATE else UPDATE) (str "Schema")
            (MSG_AUDIT_SAVE_CATEGORY ++ Category.name category)
  end.

Definition deleteResource (id : jsstring) : Run unit :=
  perform (ResourcesDelete id) ;;
  match resources_delete id with
  | Some message => raise message
  | None => audit DELETE (str "Resource") (MSG_AUDIT_DELETE_RESOURCE ++ id)
  end.

End WithBackend.

End dataService.

Module authService.
Section WithBackend.
Context {backend : Backend}.

Definition changePassword (email oldPassword newPassword : jsstring)
  : Run unit :=
  perform (SignInWithPassword email oldPassword) ;;
  match sign_in_with_password email oldPassword with
  | Some _ => raise MSG_OLD_PASSWORD_WRONG
  | None =>
      perform (UpdateUserPassword newPassword) ;;
      match update_user_password newPassword with
      | Some message => raise (MSG_UPDATE_PASSWORD_ERROR ++ message)
      | None => audit UPDATE (str "Profile") MSG_AUDIT_PASSWORD
      end
  end.

Definition deleteUser (userId : jsstring) : Run unit :=
  perform (ProfilesDelete userId) ;;
  match profiles_delete userId with
  | Some message => raise message
  | None => audit DELETE (str "User") (MSG_AUDIT_DELETE_USER ++ userId)
  end.

End WithBackend.
End authService.

Module projectService.
Section WithStore.
Context {store : Store}.

(** [if (excludeId) query = query.neq('id', excludeId)]: the id the
    query excludes, if any. *)
Definition neqFilter (excludeId : option jsstring) : option jsstring :=
  match excludeId with
  | Some (c :: s) => Some (c :: s)
  | _ => None
  end.

Definition checkCodeExists (code : jsstring) (excludeId : option jsstring)
  : Eff bool :=
  emit (ProjectsSelectId code (neqFilter excludeId)) ;;
  let r := projects_select_id code (neqFilter excludeId) in
  match Response.error r with
  | Some _ => mret false
  | None =>
      match Response.data r with
      | Some rows => mret (0 <? length rows)%nat
      | None => mret false
      end
  end.

Definition save (project : PartialProject.t) : Eff unit :=
  emit (ProjectsUpsert project) ;;
  match projects_upsert project with
  | Some message => throw message
  | None =>
      auditService.log
        (match PartialProject.id project with
         | Some (_ :: _) => UPDATE
         | _ => CREATE
         end)
        (str "Project")
        (MSG_AUDIT_SAVE_PROJECT ++ default (str "undefined") (PartialProject.code project))
  end.

End WithStore.
End projectService.

(** ** [views/SystemSettings.tsx]: saving a project *)

Module SystemSettings.
Section WithStore.
Context {store : Store}.

Definition handleSave (currentProject : PartialProject.t) : Eff unit :=
  match PartialProject.code currentProject with
  | None => showToast MSG_CODE_EMPTY error
  | Some code =>
      if str_eqb (trim code) [] then showToast MSG_CODE_EMPTY error
      else if str_eqb (trim (default [] (PartialProject.name currentProject))) []
      then showToast MSG_NAME_EMPTY error
      else
        try_catch
          (exists_ ← projectService.checkCodeExists code
                       (PartialProject.id currentProject);
           if (exists_ : bool) then showToast MSG_CODE_EXISTS error
           else
             projectService.save currentProject ;;
             setIsModalOpen false ;;
             showToast MSG_PROJECT_OK success)
          (fun _ => showToast MSG_PROJECT_ERROR error)
  end.

End WithStore.
(** *** The project list and the board ([filteredProjects], [kanbanColumns]) *)

Definition statusText (s : ProjectStatus) : jsstring :=
  match s with
  | active => str "active"
  | completed => str "completed"
  | paused => str "paused"
  end.

Section WithHost.
Context {host : Host}.

Definition filteredProjects (projects : list Project.t)
    (searchTerm filterStatus : jsstring) : list Project.t :=
  List.filter
    (fun project =>
       let term := toLowerCase searchTerm in
       let name := toLowerCase (Project.name project) in
       let code := toLowerCase (Project.code project) in
       let matchesSearch := includes name term || includes code term in
       let matchesStatus :=
         str_eqb filterStatus (str "all")
         || str_eqb (statusText (Project.status project)) filterStatus in
       matchesSearch && matchesStatus)
    projects.

End WithHost.

(** The ids of [kanbanColumns], in the order of the board. *)
Definition kanbanColumns : list jsstring :=
  [str "active"; str "paused"; str "completed"].

(** [filteredProjects.filter(p => p.status === col.id)] *)
Definition colProjects (filteredProjects : list Project.t) (col : jsstring)
  : list Project.t :=
  List.filter (fun p => str_eqb (statusText (Project.status p)) col)
              filteredProjects.


End SystemSettings.

(** ** Literals of the form and import handlers *)

(** [Bạn không có quyền chỉnh sửa dữ liệu này] *)
Definition MSG_NO_EDIT_RIGHT : jsstring :=
  [66; 7841; 110; 32; 107; 104; 244; 110; 103; 32; 99; 243; 32; 113; 117;
   121; 7873; 110; 32; 99; 104; 7881; 110; 104; 32; 115; 7917; 97; 32; 100;
   7919; 32; 108; 105; 7879; 117; 32; 110; 224; 121]%N.

(** [Không tìm thấy cấu trúc dữ liệu cho bản ghi này] *)
Definition MSG_NO_SCHEMA_FOR_RECORD : jsstring :=
  [75; 104; 244; 110; 103; 32; 116; 236; 109; 32; 116; 104; 7845; 121; 32;
   99; 7845; 117; 32; 116; 114; 250; 99; 32; 100; 7919; 32; 108; 105; 7879;
   117; 32; 99; 104; 111; 32; 98; 7843; 110; 32; 103; 104; 105; 32; 110;
   224; 121]%N.

(** [Vui lòng chọn một danh mục cụ thể để thêm dữ liệu] *)
Definition MSG_PICK_CATEGORY : jsstring :=
  [86; 117; 105; 32; 108; 242; 110; 103; 32; 99; 104; 7885; 110; 32; 109;
   7897; 116; 32; 100; 97; 110; 104; 32; 109; 7909; 99; 32; 99; 7909; 32;
   116; 104; 7875; 32; 273; 7875; 32; 116; 104; 234; 109; 32; 100; 7919;
   32; 108; 105; 7879; 117]%N.

(** [Bạn không có quyền thêm dữ liệu mới] *)
Definition MSG_NO_CREATE_RIGHT : jsstring :=
  [66; 7841; 110; 32; 107; 104; 244; 110; 103; 32; 99; 243; 32; 113; 117;
   121; 7873; 110; 32; 116; 104; 234; 109; 32; 100; 7919; 32; 108; 105;
   7879; 117; 32; 109; 7899; 105]%N.

(** [Không tìm thấy cấu trúc dữ liệu] *)
Definition MSG_NO_SCHEMA : jsstring :=
  [75; 104; 244; 110; 103; 32; 116; 236; 109; 32; 116; 104; 7845; 121; 32;
   99; 7845; 117; 32; 116; 114; 250; 99; 32; 100; 7919; 32; 108; 105; 7879;
   117]%N.

(** [Đã sao chép dữ liệu vào form thêm mới] *)
Definition MSG_COPIED : jsstring :=
  [272; 227; 32; 115; 97; 111; 32; 99; 104; 233; 112; 32; 100; 7919; 32;
   108; 105; 7879; 117; 32; 118; 224; 111; 32; 102; 111; 114; 109; 32; 116;
   104; 234; 109; 32; 109; 7899; 105]%N.

(** [Bạn không có quyền xóa dữ liệu này] *)
Definition MSG_NO_DELETE_RIGHT : jsstring :=
  [66; 7841; 110; 32; 107; 104; 244; 110; 103; 32; 99; 243; 32; 113; 117;
   121; 7873; 110; 32; 120; 243; 97; 32; 100; 7919; 32; 108; 105; 7879;
   117; 32; 110; 224; 121]%N.

(** [Vui lòng chọn danh mục cần nhập dữ liệu trước] *)
Definition MSG_PICK_IMPORT_CATEGORY : jsstring :=
  [86; 117; 105; 32; 108; 242; 110; 103; 32; 99; 104; 7885; 110; 32; 100;
   97; 110; 104; 32; 109; 7909; 99; 32; 99; 7847; 110; 32; 110; 104; 7853;
   112; 32; 100; 7919; 32; 108; 105; 7879; 117; 32; 116; 114; 432; 7899; 99]%N.

(** [Bạn không có quyền thêm dữ liệu] *)
Definition MSG_NO_IMPORT_RIGHT : jsstring :=
  [66; 7841; 110; 32; 107; 104; 244; 110; 103; 32; 99; 243; 32; 113; 117;
   121; 7873; 110; 32; 116; 104; 234; 109; 32; 100; 7919; 32; 108; 105;
   7879; 117]%N.

(** [File không có dữ liệu] *)
Definition MSG_FILE_EMPTY : jsstring :=
  [70; 105; 108; 101; 32; 107; 104; 244; 110; 103; 32; 99; 243; 32; 100;
   7919; 32; 108; 105; 7879; 117]%N.

(** [Không tìm thấy cột nào khớp với cấu trúc dữ liệu] *)
Definition MSG_NO_COLUMNS : jsstring :=
  [75; 104; 244; 110; 103; 32; 116; 236; 109; 32; 116; 104; 7845; 121; 32;
   99; 7897; 116; 32; 110; 224; 111; 32; 107; 104; 7899; 112; 32; 118;
   7899; 105; 32; 99; 7845; 117; 32; 116; 114; 250; 99; 32; 100; 7919; 32;
   108; 105; 7879; 117]%N.

(** [Đã nhập thành công ] *)
Definition MSG_IMPORTED : jsstring :=
  [272; 227; 32; 110; 104; 7853; 112; 32; 116; 104; 224; 110; 104; 32; 99;
   244; 110; 103; 32]%N.

(** [ dòng.] *)
Definition MSG_ROWS : jsstring :=
  [32; 100; 242; 110; 103; 46]%N.

(** [Lỗi khi xử lý file: ] *)
Definition MSG_IMPORT_ERROR : jsstring :=
  [76; 7895; 105; 32; 107; 104; 105; 32; 120; 7917; 32; 108; 253; 32; 102;
   105; 108; 101; 58; 32]%N.

(** ** Arrays *)

(** The relative index of [Array.prototype.slice]: counted from the end
    when negative, and kept inside the array. *)
Definition sliceIndex (len k : Z) : Z :=
  if k <? 0 then Z.max (len + k) 0 else Z.min k len.

(** [l.slice(start, end)] *)
Definition slice {A : Type} (l : list A) (start end_ : Z) : list A :=
  let len := Z.of_nat (length l) in
  let k := sliceIndex len start in
  let final := sliceIndex len end_ in
  take (Z.to_nat (Z.max (final - k) 0)) (drop (Z.to_nat k) l).

(** ** [views/DataManager.tsx] *)

Module DataManager.

(** *** Saving a record from the form ([handleSave]) *)

(** [val === undefined || val === '' || (Array.isArray(val) && val.length === 0)] *)
Definition isMissing (val : JsVal) : bool :=
  match val with
  | VUndefined => true
  | VStr [] => true
  | VArr [] => true
  | _ => false
  end.

(** The loop over [catToUse.fields]: the field at which it shows the
    toast and returns, if any. *)
Fixpoint requiredLoop (fields : list FieldDefinition.t)
    (formData : gmap jsstring JsVal) : option FieldDefinition.t :=
  match fields with
  | [] => None
  | field :: rest =>
      if FieldDefinition.required field
         && isMissing (getProp formData (FieldDefinition.key field))
      then Some field
      else requiredLoop rest formData
  end.

(** [selectedCategory || categories.find(c => c.id === currentResource.categoryId)] *)
Definition catToUse (selectedCategory : option Category.t)
    (categories : list Category.t) (currentResource : PartialResource.t)
  : option Category.t :=
  match selectedCategory with
  | Some c => Some c
  | None =>
      List.find (fun c => match PartialResource.categoryId currentResource with
                          | Some i => str_eqb (Category.id c) i
                          | None => false
                          end) categories
  end.

(** [resourceToSave]. [uuid] is what [generateUUID()] gives and [now]
    what [Date.now()] gives when the handler runs. *)
Definition resourceToSave (catToUse : Category.t)
    (currentResource : PartialResource.t) (formData : gmap jsstring JsVal)
    (currentUser : User.t) (uuid : jsstring) (now : Z) : ResourceItem.t :=
  ResourceItem.mk
    (orString (PartialResource.id currentResource) uuid)
    (Category.id catToUse)
    (Some formData)
    (match PartialResource.id currentResource with
     | Some (_ :: _) =>
         orString (PartialResource.createdBy currentResource)
                  (User.username currentUser)
     | _ => User.username currentUser
     end)
    (match PartialResource.createdAt currentResource with
     | Some t => if (t =? 0)%Z then now else t
     | None => now
     end).

Section WithStore.
Context {store : Store}.

Definition handleSave (selectedCategory : option Category.t)
    (categories : list Category.t) (currentResource : PartialResource.t)
    (formData : gmap jsstring JsVal) (currentUser : User.t)
    (uuid : jsstring) (now : Z) : Eff unit :=
  match catToUse selectedCategory categories currentResource with
  | None => showToast MSG_CATEGORY_ERROR error
  | Some catToUse =>
      match requiredLoop (Category.fields catToUse) formData with
      | Some field =>
          showToast (MSG_PLEASE_ENTER ++ FieldDefinition.name field) error
      | None =>
          try_catch
            (dataService.saveResource
               (resourceToSave catToUse currentResource formData currentUser
                  uuid now) ;;
             setIsModalOpen false ;;
             showToast MSG_SAVE_OK success)
            (fun _ => showToast MSG_SAVE_ERROR error)
      end
  end.

End WithStore.

(** *** The filter of the record list ([filteredResources]) *)

Section WithHost.
Context {host : Host}.

Definition findFieldByKey (fields : list FieldDefinition.t) (key : jsstring)
  : option FieldDefinition.t :=
  List.find (fun f => str_eqb (FieldDefinition.key f) key) fields.

(** [r.data ? r.data[key] : null] *)
Definition itemValue (r : ResourceItem.t) (key : jsstring) : JsVal :=
  match ResourceItem.data r with
  | Some d => getProp d key
  | None => VNull
  end.

(** The check of a user or project field. *)
Definition relationStep (itemVal : JsVal) (filterVal : jsstring) : Outcome :=
  match itemVal with
  | VArr l =>
      if arrIncludes l (str "all") then ReturnTrue
      else if negb (arrIncludes l filterVal) then ReturnFalse
      else Continue
  | _ =>
      if negb (str_eqb (ToString itemVal) (str "all"))
         && negb (str_eqb (ToString itemVal) filterVal)
      then ReturnFalse else Continue
  end.

(** The body of the loop over [fieldFilters], for one key. *)
Definition fieldFilterStep (cat : Category.t) (r : ResourceItem.t)
    (key filterVal : jsstring) : Outcome :=
  if str_eqb filterVal [] then Continue
  else
    let itemVal := itemValue r key in
    match itemVal with
    | VUndefined | VNull => ReturnFalse
    | _ =>
        match findFieldByKey (Category.fields cat) key with
        | None => Continue
        | Some fieldDef =>
            match FieldDefinition.type fieldDef with
            | FieldType.text | FieldType.textarea =>
                if negb (includes (toLowerCase (ToString itemVal))
                                  (toLowerCase filterVal))
                then ReturnFalse else Continue
            | FieldType.boolean =>
                if negb (str_eqb (ToString itemVal) filterVal)
                then ReturnFalse else Continue
            | FieldType.user | FieldType.project =>
                relationStep itemVal filterVal
            | FieldType.number =>
                if negb (num_strict_eq (ToNumber itemVal)
                                       (ToNumber (VStr filterVal)))
                then ReturnFalse else Continue
            | FieldType.date =>
                if negb (str_eqb (ToString itemVal) filterVal)
                then ReturnFalse else Continue
            | FieldType.image | FieldType.file => Continue
            end
        end
    end.

(** The loop over [fieldFilters]; falling out of it reaches the final
    [return true] of the callback. *)
Fixpoint fieldFiltersLoop (cat : Category.t) (r : ResourceItem.t)
    (entries : list (jsstring * jsstring)) : bool :=
  match entries with
  | [] => true
  | (key, filterVal) :: rest =>
      match fieldFilterStep cat r key filterVal with
      | Continue => fieldFiltersLoop cat r rest
      | ReturnFalse => false
      | ReturnTrue => true
      end
  end.

(** The callback of [resources.filter]. *)
Definition filterCallback (F : Filters) (r : ResourceItem.t) : bool :=
  if negb (str_eqb (filterCreator F) [])
     && negb (includes (toLowerCase (ResourceItem.createdBy r))
                       (toLowerCase (filterCreator F)))
  then false
  else
    let itemDate := newDate (ResourceItem.createdAt r) in
    if negb (str_eqb (filterDateFrom F) [])
       && date_lt itemDate
                  (setHours (newDateOfString (filterDateFrom F)) 0 0 0 0)
    then false
    else if negb (str_eqb (filterDateTo F) [])
            && date_lt (setHours (newDateOfString (filterDateTo F))
                                 23 59 59 999)
                       itemDate
    then false
    else
      match selectedCategory F with
      | Some cat => fieldFiltersLoop cat r (fieldFilters F)
      | None => true
      end.

Definition filteredResources (F : Filters) (resources : list ResourceItem.t)
  : list ResourceItem.t :=
  List.filter (filterCallback F) resources.

End WithHost.

(** *** CSV import ([parseCSVLine], [handleFileUpload]) *)

(** The loop of [parseCSVLine] over the characters left, with its three
    variables. The loop visits code points; a quote and a comma are
    single code units and never half of a pair, so visiting code units
    gives the same fields. *)
Fixpoint parseCSVLoop (rest : jsstring) (quote : bool) (col : jsstring)
    (arr : list jsstring) : list jsstring :=
  match rest with
  | [] => arr ++ [col]
  | c :: rest' =>
      if (c =? DQUOTE)%N then parseCSVLoop rest' (negb quote) col arr
      else if (c =? COMMA)%N && negb quote
      then parseCSVLoop rest' quote [] (arr ++ [col])
      else parseCSVLoop rest' quote (col ++ [c]) arr
  end.

Definition parseCSVLine (s : jsstring) : list jsstring :=
  parseCSVLoop s false [] [].

(** [text.split('\n')] *)
Fixpoint splitLines (text : jsstring) : list jsstring :=
  match text with
  | [] => [[]]
  | c :: text' =>
      if (c =? LF)%N then [] :: splitLines text'
      else
        match splitLines text' with
        | l :: ls => (c :: l) :: ls
        | [] => [[c]]
        end
  end.

(** The [replace] of the quote pattern (a quote at the start or a quote
    at the end, global) by the empty string: drops a quote at the start,
    and a quote at the end of what is left. *)
Definition stripQuotes (s : jsstring) : jsstring :=
  let s1 := match s with
            | c :: s' => if (c =? DQUOTE)%N then s' else s
            | [] => []
            end in
  match reverse s1 with
  | c :: r => if (c =? DQUOTE)%N then reverse r else s1
  | [] => s1
  end.

(** What the import does with the file's text. *)
Inductive ImportResult :=
| ImportNoData
| ImportNoColumns
| ImportRows (rows : list (gmap jsstring JsVal)).

Section CSV.
Context {host : Host}.
Variable projects : list Project.t.
Variable users : list User.t.

(** [headers.forEach((header, index) => ...)], from column [index] on:
    the entries of [fieldMap], by increasing column. *)
Fixpoint mapHeaders (fields : list FieldDefinition.t) (index : nat)
    (headers : list jsstring) : list (nat * jsstring) :=
  match headers with
  | [] => []
  | header :: rest =>
      match List.find (fun f => str_eqb (toLowerCase (FieldDefinition.name f))
                                        (toLowerCase header)) fields with
      | Some field =>
          (index, FieldDefinition.key field) :: mapHeaders fields (S index) rest
      | None => mapHeaders fields (S index) rest
      end
  end.

(** The value stored for a cell, by the type of its field. *)
Definition importValue (fieldDef : FieldDefinition.t) (rawValue : jsstring)
  : JsVal :=
  match FieldDefinition.type fieldDef with
  | FieldType.boolean =>
      let lower := toLowerCase rawValue in
      if str_eqb lower (str "true") || str_eqb lower WORD_CO
         || str_eqb lower WORD_DUNG || str_eqb lower (str "1")
      then VStr (str "true") else VStr (str "false")
  | FieldType.project =>
      match List.find (fun proj => str_eqb (Project.code proj) rawValue
                                   || str_eqb (Project.name proj) rawValue
                                   || str_eqb (Project.id proj) rawValue)
                      projects with
      | Some p => VArr [VStr (Project.id p)]
      | None => if str_eqb rawValue [] then VArr [] else VArr [VStr rawValue]
      end
  | FieldType.user =>
      match List.find (fun usr => str_eqb (User.username usr) rawValue
                                  || bool_decide (User.fullName usr = Some rawValue)
                                  || str_eqb (User.email usr) rawValue
                                  || str_eqb (User.id usr) rawValue)
                      users with
      | Some u => VArr [VStr (User.id u)]
      | None => if str_eqb rawValue [] then VArr [] else VArr [VStr rawValue]
      end
  | _ => VStr rawValue
  end.

(** The loop over [fieldMap] for one row: [resourceData] after it. *)
Fixpoint importCells (fields : list FieldDefinition.t) (values : list jsstring)
    (fieldMap : list (nat * jsstring)) (resourceData : gmap jsstring JsVal)
  : gmap jsstring JsVal :=
  match fieldMap with
  | [] => resourceData
  | (colIndex, key) :: rest =>
      let rawValue := stripQuotes (trim (default [] (values !! colIndex))) in
      match List.find (fun f => str_eqb (FieldDefinition.key f) key) fields with
      | None => importCells fields values rest resourceData
      | Some fieldDef =>
          importCells fields values rest
            (<[key := importValue fieldDef rawValue]> resourceData)
      end
  end.

(** The reading of the uploaded text: the [data] of the records the
    import saves, one per data line, in order. *)
Definition importCSV (selectedCategory : Category.t) (text : jsstring)
  : ImportResult :=
  let lines := List.filter (fun l => negb (str_eqb l []))
                           (trim <$> splitLines text) in
  match lines with
  | [] | [_] => ImportNoData
  | line0 :: dataLines =>
      let headers := (fun h => stripQuotes (trim h)) <$> parseCSVLine line0 in
      let fieldMap := mapHeaders (Category.fields selectedCategory) 0 headers in
      match fieldMap with
      | [] => ImportNoColumns
      | _ =>
          ImportRows
            ((fun line => importCells (Category.fields selectedCategory)
                                      (parseCSVLine line) fieldMap ∅)
               <$> dataLines)
      end
  end.

(** *** CSV export ([handleExportCSV]) *)

Definition getProjectName (value : JsVal) : JsVal :=
  match value with
  | VArr ids =>
      VStr (arrayJoin (str ", ")
        ((fun id =>
            match id with
            | VStr s =>
                if str_eqb s (str "all") then VStr LABEL_ALL
                else match List.find (fun proj => str_eqb (Project.id proj) s)
                                     projects with
                     | Some p => VStr (Project.code p)
                     | None => id
                     end
            | _ => id
            end) <$> ids))
  | VStr s =>
      if str_eqb s (str "all") then VStr LABEL_ALL
      else match List.find (fun proj => str_eqb (Project.id proj) s) projects with
           | Some p => VStr (Project.code p ++ str " - " ++ Project.name p)
           | None => value
           end
  | _ => value
  end.

(** [u.fullName || u.username] *)
Definition displayName (u : User.t) : jsstring :=
  orString (User.fullName u) (User.username u).

Definition getUserName (value : JsVal) : JsVal :=
  match value with
  | VArr ids =>
      VStr (arrayJoin (str ", ")
        ((fun id =>
            match id with
            | VStr s =>
                if str_eqb s (str "all") then VStr LABEL_ALL
                else match List.find (fun usr => str_eqb (User.id usr) s) users with
                     | Some u => VStr (displayName u)
                     | None => id
                     end
            | _ => id
            end) <$> ids))
  | VStr s =>
      if str_eqb s (str "all") then VStr LABEL_ALL
      else match List.find (fun usr => str_eqb (User.id usr) s) users with
           | Some u => VStr (displayName u)
           | None => value
           end
  | _ => value
  end.

(** The [replace] of every quote by two quotes. *)
Definition doubleQuotes (val : jsstring) : jsstring :=
  flat_map (fun c => if (c =? DQUOTE)%N then [DQUOTE; DQUOTE] else [c]) val.

(** [resource.data?.[f.key]] *)
Definition dataValue (resource : ResourceItem.t) (key : jsstring) : JsVal :=
  match ResourceItem.data resource with
  | Some d => getProp d key
  | None => VUndefined
  end.

(** The cell of field [f] in the row of [resource]. *)
Definition exportCell (resource : ResourceItem.t) (f : FieldDefinition.t)
  : JsVal :=
  let val := dataValue resource (FieldDefinition.key f) in
  match FieldDefinition.type f with
  | FieldType.boolean =>
      match val with
      | VStr s => if str_eqb s (str "true") then VStr LABEL_YES else VStr LABEL_NO
      | _ => VStr LABEL_NO
      end
  | FieldType.date =>
      if truthy val then VStr (toLocaleDateString val) else VStr []
  | FieldType.user => getUserName val
  | FieldType.project => getProjectName val
  | _ =>
      match val with
      | VStr s => VStr ([DQUOTE] ++ doubleQuotes s ++ [DQUOTE])
      | VUndefined | VNull => VStr []
      | _ => val
      end
  end.

Definition exportRow (fields : list FieldDefinition.t)
    (resource : ResourceItem.t) : jsstring :=
  arrayJoin [COMMA]
    ([VStr (ResourceItem.id resource)]
     ++ (exportCell resource <$> fields)
     ++ [VStr (ResourceItem.createdBy resource);
         VStr (toLocaleString (ResourceItem.createdAt resource))]).

Definition exportHeaders (fields : list FieldDefinition.t) : list jsstring :=
  [str "ID"] ++ (FieldDefinition.name <$> fields) ++ [HDR_CREATOR; HDR_CREATED].

(** [csvContent], the text of the exported file. *)
Definition exportCSV (selectedCategory : Category.t)
    (filteredResources : list ResourceItem.t) : jsstring :=
  let fields := Category.fields selectedCategory in
  [BOM] ++ join [LF] (join [COMMA] (exportHeaders fields)
                      :: (exportRow fields <$> filteredResources)).

End CSV.

(** *** The multi-selects ([UserMultiSelect], [ProjectMultiSelect]) *)

(** [Array.isArray(value) ? value : (value ? [value] : [])] *)
Definition selectedIds (value : JsVal) : list JsVal :=
  match value with
  | VArr l => l
  | _ => if truthy value then [value] else []
  end.

(** [v !== id] for a string [id]. *)
Definition notStrictEq (v : JsVal) (id : jsstring) : bool :=
  match v with
  | VStr t => negb (str_eqb t id)
  | _ => true
  end.

(** [toggleOption(id)]: the selection it passes to [onChange]. *)
Definition toggleOption (value : JsVal) (id : jsstring) : JsVal :=
  let newSelection := selectedIds value in
  if arrIncludes newSelection id
  then VArr (List.filter (fun v => notStrictEq v id) newSelection)
  else VArr (newSelection ++ [VStr id]).

(** [formData[field.key] || ''], the value [renderFieldInput] hands to
    the input of a field. *)
Definition fieldInputValue (formData : gmap jsstring JsVal) (key : jsstring)
  : JsVal :=
  let v := getProp formData key in
  if truthy v then v else VStr [].

(** The form after a click on option [id] of the multi-select of the
    field [key]: [setFormData(prev => ({ ...prev, [key]: val }))]. *)
Definition toggleField (formData : gmap jsstring JsVal) (key id : jsstring)
  : gmap jsstring JsVal :=
  <[key := toggleOption (fieldInputValue formData key) id]> formData.

(** *** Resetting the filters ([resetFilters]) *)

Definition resetFilters (F : Filters) : Filters := {|
  filterCreator := [];
  filterDateFrom := [];
  filterDateTo := [];
  fieldFilters := [];
  selectedCategory := selectedCategory F
|}.

(** *** Pages of the list

    The same lines page the records here, the projects of
    [SystemSettings.tsx] and the users of the member view.
    [itemsPerPage] is one of the options of the page-size select. *)

(** [Math.ceil(length / itemsPerPage)], for a page size other than 0. *)
Definition totalPages (length : nat) (itemsPerPage : Z) : Z :=
  - ((- Z.of_nat length) / itemsPerPage).

(** [list.slice(indexOfFirstItem, indexOfLastItem)] *)
Definition currentItems {A : Type} (list_ : list A)
    (currentPage itemsPerPage : Z) : list A :=
  let indexOfLastItem := currentPage * itemsPerPage in
  let indexOfFirstItem := indexOfLastItem - itemsPerPage in
  slice list_ indexOfFirstItem indexOfLastItem.

(** The effect that follows a change of the list's length or of the
    page size: [currentPage] after it. *)
Definition clampPage (length : nat) (currentPage itemsPerPage : Z) : Z :=
  let totalPages := totalPages length itemsPerPage in
  if (currentPage >? totalPages) && (totalPages >? 0) then totalPages
  else currentPage.

(** The previous and next buttons, disabled on the first and on the
    last page, and the numbered buttons. *)
Definition clickPrevious (currentPage : Z) : Z :=
  if currentPage =? 1 then currentPage else currentPage - 1.

Definition clickNext (length : nat) (currentPage itemsPerPage : Z) : Z :=
  if currentPage =? totalPages length itemsPerPage then currentPage
  else currentPage + 1.

(** *** Opening the form ([handleOpenModal], [handleDuplicate]) and
    arming a deletion ([handleDeleteClick]) *)

(** The state of the view that these handlers read and set. *)
Record FormState := {
  selectedCategoryId : jsstring;
  currentResource : PartialResource.t;
  formData : gmap jsstring JsVal;
  resourceToDelete : option ResourceItem.t
}.

(** [categories.find(c => c.id === id)] *)
Definition findCategory (categories : list Category.t) (id : jsstring)
  : option Category.t :=
  List.find (fun c => str_eqb (Category.id c) id) categories.

(** [selectedCategoryId] after
    [if (!selectedCategoryId) setSelectedCategoryId(resource.categoryId)]. *)
Definition categoryIdAfter (st : FormState) (resource : ResourceItem.t)
  : jsstring :=
  if str_eqb (selectedCategoryId st) [] then ResourceItem.categoryId resource
  else selectedCategoryId st.

(** A record as the [Partial<ResourceItem>] the form keeps. *)
Definition asPartial (resource : ResourceItem.t) : PartialResource.t :=
  PartialResource.mk (Some (ResourceItem.id resource))
                     (Some (ResourceItem.categoryId resource))
                     (Some (ResourceItem.createdBy resource))
                     (Some (ResourceItem.createdAt resource)).

(** [{ ...resource.data }] *)
Definition copyData (resource : ResourceItem.t) : gmap jsstring JsVal :=
  default ∅ (ResourceItem.data resource).

Definition handleOpenModal (currentUser : User.t) (categories : list Category.t)
    (resource : option ResourceItem.t) (st : FormState) : Eff FormState :=
  match resource with
  | Some resource =>
      if negb (PERMISSIONS.canEditResource currentUser resource)
      then showToast MSG_NO_EDIT_RIGHT error ;; mret st
      else
        match findCategory categories (ResourceItem.categoryId resource) with
        | None => showToast MSG_NO_SCHEMA_FOR_RECORD error ;; mret st
        | Some _ =>
            setIsModalOpen true ;;
            mret {| selectedCategoryId := categoryIdAfter st resource;
                    currentResource := asPartial resource;
                    formData := copyData resource;
                    resourceToDelete := resourceToDelete st |}
        end
  | None =>
      if str_eqb (selectedCategoryId st) []
      then showToast MSG_PICK_CATEGORY error ;; mret st
      else if negb (PERMISSIONS.canCreateResource currentUser)
      then showToast MSG_NO_CREATE_RIGHT error ;; mret st
      else
        setIsModalOpen true ;;
        mret {| selectedCategoryId := selectedCategoryId st;
                currentResource := PartialResource.mk None None None None;
                formData := ∅;
                resourceToDelete := resourceToDelete st |}
  end.

Definition handleDuplicate (currentUser : User.t) (categories : list Category.t)
    (resource : ResourceItem.t) (st : FormState) : Eff FormState :=
  if negb (PERMISSIONS.canCreateResource currentUser)
  then showToast MSG_NO_CREATE_RIGHT error ;; mret st
  else
    match findCategory categories (ResourceItem.categoryId resource) with
    | None => showToast MSG_NO_SCHEMA error ;; mret st
    | Some _ =>
        setIsModalOpen true ;;
        showToast MSG_COPIED success ;;
        mret {| selectedCategoryId := categoryIdAfter st resource;
                currentResource :=
                  PartialResource.mk None
                    (Some (ResourceItem.categoryId resource)) None None;
                formData := copyData resource;
                resourceToDelete := resourceToDelete st |}
    end.

Definition handleDeleteClick (currentUser : User.t) (resource : ResourceItem.t)
    (st : FormState) : Run FormState :=
  if negb (PERMISSIONS.canDeleteResource currentUser resource)
  then toast MSG_NO_DELETE_RIGHT error ;; mret st
  else mret {| selectedCategoryId := selectedCategoryId st;
               currentResource := currentResource st;
               formData := formData st;
               resourceToDelete := Some resource |}.

(** The form after the user has changed its inputs to [formData']. *)
Definition withFormData (st : FormState) (formData' : gmap jsstring JsVal)
  : FormState :=
  {| selectedCategoryId := selectedCategoryId st;
     currentResource := currentResource st;
     formData := formData';
     resourceToDelete := resourceToDelete st |}.

(** [handleSave] run in the state [st], where [selectedCategory] is
    [categories.find(c => c.id === selectedCategoryId)]. *)
Definition submitForm {store : Store} (categories : list Category.t)
    (currentUser : User.t) (uuid : jsstring) (now : Z) (st : FormState)
  : Eff unit :=
  handleSave (findCategory categories (selectedCategoryId st)) categories
    (currentResource st) (formData st) currentUser uuid now.

(** The categories [fetchData] keeps:
    [allCats.filter(c => PERMISSIONS.canViewCategory(currentUser, c))]. *)
Definition visibleCategories (currentUser : User.t) (allCats : list Category.t)
  : list Category.t :=
  List.filter (PERMISSIONS.canViewCategory currentUser) allCats.

(** *** Saving the imported rows ([handleImportClick], [handleFileUpload]) *)

(** [handleImportClick]: whether it opens the file dialog. *)
Definition handleImportClick (currentUser : User.t)
    (selectedCategoryId : jsstring) : Eff bool :=
  if str_eqb selectedCategoryId []
  then showToast MSG_PICK_IMPORT_CATEGORY error ;; mret false
  else if negb (PERMISSIONS.canCreateResource currentUser)
  then showToast MSG_NO_IMPORT_RIGHT error ;; mret false
  else mret true.

(** [String(n)] on a count. *)
Definition countText (n : nat) : jsstring := str (pretty n).

(** The [resourceToSave] of the line [i] of the file. [uuid i] and
    [now i] are what [generateUUID()] and [Date.now()] give in the turn
    of the loop for that line. *)
Definition importedResource (selectedCategory : Category.t)
    (currentUser : User.t) (uuid : nat -> jsstring) (now : nat -> Z)
    (i : nat) (resourceData : gmap jsstring JsVal) : ResourceItem.t :=
  ResourceItem.mk (uuid i) (Category.id selectedCategory) (Some resourceData)
                  (User.username currentUser) (now i).

Section Upload.
Context {host : Host} {store : Store}.
Variable projects : list Project.t.
Variable users : list User.t.

(** The loop [for (let i = 1; i < lines.length; i++)] from line [i]
    on, over the row data still to save: [successCount] after it.
    Reading a row touches nothing and cannot throw, so the rows are read
    by [importCSV] before the first is saved. *)
Fixpoint saveRows (selectedCategory : Category.t) (currentUser : User.t)
    (uuid : nat -> jsstring) (now : nat -> Z) (i : nat)
    (rows : list (gmap jsstring JsVal)) (successCount : nat) : Eff nat :=
  match rows with
  | [] => mret successCount
  | resourceData :: rest =>
      dataService.saveResource
        (importedResource selectedCategory currentUser uuid now i resourceData) ;;
      saveRows selectedCategory currentUser uuid now (S i) rest (S successCount)
  end.

(** The [onload] callback of [handleFileUpload] on the text of the
    chosen file. *)
Definition handleFileUpload (selectedCategory : option Category.t)
    (currentUser : User.t) (uuid : nat -> jsstring) (now : nat -> Z)
    (text : jsstring) : Eff unit :=
  match selectedCategory with
  | None => mret tt
  | Some selectedCategory =>
      try_catch
        (match importCSV projects users selectedCategory text with
         | ImportNoData => showToast MSG_FILE_EMPTY error
         | ImportNoColumns => showToast MSG_NO_COLUMNS error
         | ImportRows rows =>
             let totalRows := length rows in
             successCount ← saveRows selectedCategory currentUser uuid now 1
                              rows 0;
             showToast (MSG_IMPORTED ++ countText successCount ++ str "/"
                        ++ countText totalRows ++ MSG_ROWS) success
         end)
        (fun message => showToast (MSG_IMPORT_ERROR ++ message) error)
  end.

End Upload.

(** *** Deleting the armed record ([confirmDelete]) *)

Definition confirmDelete {backend : Backend} (st : FormState) : Run FormState :=
  match resourceToDelete st with
  | None => mret st
  | Some resource =>
      try_run
        (dataService.deleteResource (ResourceItem.id resource) ;;
         toast MSG_RESOURCE_DELETED success ;;
         mret {| selectedCategoryId := selectedCategoryId st;
                 currentResource := currentResource st;
                 formData := formData st;
                 resourceToDelete := None |})
        (fun _ => toast MSG_RESOURCE_DELETE_ERROR error ;; mret st)
  end.

End DataManager.

(** ** [views/SchemaBuilder.tsx] *)

Module SchemaBuilder.

(** The state of the builder that its handlers read and set. *)
Record State := {
  currentCategory : PartialCategory.t;
  isEditing : bool
}.

(** [setCurrentCategory(prev => ({ ...prev, fields }))] *)
Definition withFields (prev : PartialCategory.t)
    (fields : option (list FieldDefinition.t)) : PartialCategory.t :=
  PartialCategory.mk (PartialCategory.id prev) (PartialCategory.name prev)
    (PartialCategory.description prev) fields (PartialCategory.createdAt prev)
    (PartialCategory.accessLevel prev) (PartialCategory.icon prev).

(** The [newField] of [handleAddField]; [uuid] is what [generateUUID()]
    gives and [now] what [Date.now()] gives. *)
Definition newField (uuid : jsstring) (now : Z) : FieldDefinition.t :=
  FieldDefinition.mk uuid [] (str "field_" ++ str (pretty now))
                     FieldType.text false.

Definition handleAddField (uuid : jsstring) (now : Z)
    (prev : PartialCategory.t) : PartialCategory.t :=
  withFields prev
    (Some (default [] (PartialCategory.fields prev) ++ [newField uuid now])).

(** [{ ...f, ...updates }] *)
Definition merge (f : FieldDefinition.t) (updates : PartialField.t)
  : FieldDefinition.t :=
  FieldDefinition.mk
    (default (FieldDefinition.id f) (PartialField.id updates))
    (default (FieldDefinition.name f) (PartialField.name updates))
    (default (FieldDefinition.key f) (PartialField.key updates))
    (default (FieldDefinition.type f) (PartialField.type updates))
    (default (FieldDefinition.required f) (PartialField.required updates)).

Definition handleUpdateField (id : jsstring) (updates : PartialField.t)
    (prev : PartialCategory.t) : PartialCategory.t :=
  withFields prev
    ((fun fields : list FieldDefinition.t =>
        (fun f => if str_eqb (FieldDefinition.id f) id then merge f updates
                  else f) <$> fields)
       <$> PartialCategory.fields prev).

Definition handleRemoveField (id : jsstring) (prev : PartialCategory.t)
  : PartialCategory.t :=
  withFields prev
    (List.filter (fun f => negb (str_eqb (FieldDefinition.id f) id))
       <$> PartialCategory.fields prev).

(** The category an emptied builder holds. *)
Definition blankCategory : PartialCategory.t :=
  PartialCategory.mk None (Some []) (Some []) (Some []) None (Some public)
                     (Some ICON_FOLDER).

(** [categoryToSave], without its icon. *)
Definition categoryToSave (currentCategory : PartialCategory.t)
    (fields : list FieldDefinition.t) (uuid : jsstring) (now : Z)
  : Category.t :=
  Category.mk
    (orString (PartialCategory.id currentCategory) uuid)
    (default [] (PartialCategory.name currentCategory))
    (orString (PartialCategory.description currentCategory) [])
    fields
    (match PartialCategory.createdAt currentCategory with
     | Some t => if (t =? 0)%Z then now else t
     | None => now
     end)
    (default public (PartialCategory.accessLevel currentCategory)).

Section WithBackend.
Context {backend : Backend}.

Definition handleSaveCategory (uuid : jsstring) (now : Z) (st : State)
  : Run State :=
  let currentCategory := currentCategory st in
  if str_eqb (trim (default [] (PartialCategory.name currentCategory))) []
  then toast MSG_CATEGORY_NAME_EMPTY error ;; mret st
  else
    match PartialCategory.fields currentCategory with
    | None | Some [] => toast MSG_NEED_FIELD error ;; mret st
    | Some fields =>
        if existsb (fun f => str_eqb (trim (FieldDefinition.name f)) []) fields
        then toast MSG_FIELD_NAME_EMPTY error ;; mret st
        else
          try_run
            (dataService.saveCategory
               (categoryToSave currentCategory fields uuid now)
               (orString (PartialCategory.icon currentCategory) ICON_FOLDER) ;;
             toast MSG_SCHEMA_OK success ;;
             mret {| currentCategory := blankCategory; isEditing := false |})
            (fun _ => toast MSG_SCHEMA_ERROR error ;; mret st)
    end.

End WithBackend.
End SchemaBuilder.

(** ** The member view ([UserManager]) *)

Module UserManager.

Definition handleDeleteClick (currentUser user : User.t)
    (userToDelete : option User.t) : Run (option User.t) :=
  if str_eqb (User.id user) (User.id currentUser)
  then toast MSG_NO_SELF_DELETE error ;; mret userToDelete
  else mret (Some user).

Definition confirmDelete {backend : Backend} (userToDelete : option User.t)
  : Run (option User.t) :=
  match userToDelete with
  | None => mret userToDelete
  | Some user =>
      try_run
        (authService.deleteUser (User.id user) ;;
         toast (MSG_DELETED_USER ++ User.username user) success ;;
         mret None)
        (fun _ => toast MSG_DELETE_USER_ERROR error ;; mret userToDelete)
  end.

End UserManager.

(** ** The profile view ([UserProfile]) *)

Module UserProfile.

(** The three inputs of the password form. *)
Record PasswordForm := {
  oldPassword : jsstring;
  newPassword : jsstring;
  confirmPassword : jsstring
}.

(** [err.message || d] *)
Definition messageOr (message d : jsstring) : jsstring :=
  match message with
  | [] => d
  | _ => message
  end.

Definition handleChangePassword {backend : Backend} (currentUser : User.t)
    (form : PasswordForm) : Run PasswordForm :=
  if negb (str_eqb (newPassword form) (confirmPassword form))
  then toast MSG_PASSWORD_MISMATCH error ;; mret form
  else if (length (newPassword form) <? 6)%nat
  then toast MSG_PASSWORD_SHORT error ;; mret form
  else
    try_run
      (authService.changePassword (User.email currentUser) (oldPassword form)
         (newPassword form) ;;
       toast MSG_PASSWORD_OK success ;;
       mret {| oldPassword := []; newPassword := []; confirmPassword := [] |})
      (fun message =>
         toast (messageOr message MSG_PASSWORD_ERROR) error ;; mret form).

End UserProfile.

(** ** The menu of [components/Layout.tsx] and the pages of [App.tsx] *)

Module Layout.

(** The ids of [menuItems], in order. *)
Definition menuItems (user : User.t) : list jsstring :=
  [str "dashboard"; str "projects"; str "data"]
  ++ (if PERMISSIONS.canManageSchema user then [str "schema"] else [])
  ++ (match User.role user with
      | Role.admin => [str "users"; str "activity"; str "settings"]
      | _ => []
      end).

End Layout.

Module App.

(** What [renderContent] returns: a view, the notice that the page is
    not for this user, or nothing. *)
Inductive Content :=
| Dashboard | SchemaBuilder | UserManager | ActivityLogs | SystemSettings
| DataManager | ProjectManager | UserProfile | NoAccess | Nothing.

(** [user?.role === 'admin' ? view : notice] *)
Definition adminOnly (user : option User.t) (view : Content) : Content :=
  match user with
  | Some u => match User.role u with Role.admin => view | _ => NoAccess end
  | None => NoAccess
  end.

Definition renderContent (user : option User.t) (currentPage : jsstring)
  : Content :=
  if str_eqb currentPage (str "dashboard") then Dashboard
  else if str_eqb currentPage (str "schema") then adminOnly user SchemaBuilder
  else if str_eqb currentPage (str "users") then adminOnly user UserManager
  else if str_eqb currentPage (str "activity") then adminOnly user ActivityLogs
  else if str_eqb currentPage (str "settings") then adminOnly user SystemSettings
  else if str_eqb currentPage (str "data")
  then match user with Some _ => DataManager | None => Nothing end
  else if str_eqb currentPage (str "projects") then ProjectManager
  else if str_eqb currentPage (str "profile")
  then match user with Some _ => UserProfile | None => Nothing end
  else Dashboard.

End App.

(** ** The dashboard ([Dashboard]) *)

Module Dashboard.

(** The [value]s of [categoryCounts] before the empty ones are dropped,
    with the names of their categories. *)
Definition countsByCategory (cats : list Category.t)
    (res : list ResourceItem.t) : list (jsstring * nat) :=
  (fun c =>
     (Category.name c,
      length (List.filter
                (fun r => str_eqb (ResourceItem.categoryId r) (Category.id c))
                res)))
    <$> cats.

Definition categoryCounts (cats : list Category.t) (res : list ResourceItem.t)
  : list (jsstring * nat) :=
  List.filter (fun item => (0 <? item.2)%nat) (countsByCategory cats res).

(** [projects.filter(p => p.status === status).length] *)
Definition countStatus (projects : list Project.t) (status : ProjectStatus)
  : nat :=
  length (List.filter
            (fun p => str_eqb (SystemSettings.statusText (Project.status p))
                              (SystemSettings.statusText status))
            projects).

(** [projectStatusData]: the status of each slice and its [value]. *)
Definition projectStatusData (projects : list Project.t)
  : list (ProjectStatus * nat) :=
  List.filter (fun item => (0 <? item.2)%nat)
    [(active, countStatus projects active);
     (completed, countStatus projects completed);
     (paused, countStatus projects paused)].

(** [sort((a, b) => b.createdAt - a.createdAt)]: the sort is stable and
    the comparison a total preorder, so the result is the one list that
    holds the records by falling creation time, records of the same
    time in their order in [res]. [insertRecent] puts a record in front
    of such a list. *)
Fixpoint insertRecent (a : ResourceItem.t) (sorted : list ResourceItem.t)
  : list ResourceItem.t :=
  match sorted with
  | [] => [a]
  | b :: rest =>
      if (ResourceItem.createdAt b <=? ResourceItem.createdAt a)%Z
      then a :: b :: rest
      else b :: insertRecent a rest
  end.

Definition sortRecent (res : list ResourceItem.t) : list ResourceItem.t :=
  foldr insertRecent [] res.

(** [[...res].sort(...).slice(0, 5)] *)
Definition recentActivity (res : list ResourceItem.t) : list ResourceItem.t :=
  slice (sortRecent res) 0 5.

End Dashboard.

(** ** A reference host

    A host to run the model on: ASCII letters are lowered, a number's
    text is taken as it is, and a date is read in the date-only ISO form
    [YYYY-MM-DD], which ECMAScript places at midnight UTC. *)

Definition asciiLower (c : N) : N :=
  if ((65 <=? c) && (c <=? 90))%N then (c + 32)%N else c.

Definition digit (c : N) : option Z :=
  if ((48 <=? c) && (c <=? 57))%N then Some (Z.of_N c - 48) else None.

(** Days from 1970-01-01 to the given day of the proleptic Gregorian
    calendar. *)
Definition daysFromCivil (y m d : Z) : Z :=
  let y' := if m <=? 2 then y - 1 else y in
  let era := y' / 400 in
  let yoe := y' - era * 400 in
  let mp := (m + 9) mod 12 in
  let doy := (153 * mp + 2) / 5 + d - 1 in
  let doe := yoe * 365 + yoe / 4 - yoe / 100 + doy in
  era * 146097 + doe - 719468.

Definition daysInMonth (y m : Z) : Z :=
  if m =? 2 then
    if ((y mod 4 =? 0) && negb (y mod 100 =? 0)) || (y mod 400 =? 0)
    then 29 else 28
  else if (m =? 4) || (m =? 6) || (m =? 9) || (m =? 11) then 30 else 31.

Definition parseIsoDate (s : jsstring) : option Z :=
  match s with
  | [y1; y2; y3; y4; 45%N; m1; m2; 45%N; d1; d2] =>
      match digit y1, digit y2, digit y3, digit y4,
            digit m1, digit m2, digit d1, digit d2 with
      | Some a, Some b, Some c, Some e, Some f, Some g, Some h, Some i =>
          let y := a * 1000 + b * 100 + c * 10 + e in
          let m := f * 10 + g in
          let d := h * 10 + i in
          if (1 <=? m) && (m <=? 12) && (1 <=? d) && (d <=? daysInMonth y m)
          then Some (daysFromCivil y m d * msPerDay)
          else None
      | _, _, _, _, _, _, _, _ => None
      end
  | _ => None
  end.

(** The reference host in the time zone [tza] milliseconds east of UTC. *)
Definition refHost (tza : Z) : Host := {|
  toLowerCase := fun s => asciiLower <$> s;
  StringToNumber := fun s => s;
  Date_parse := parseIsoDate;
  LocalTZA := tza;
  toLocaleDateString := fun v => ToString v;
  toLocaleString := fun t => if (0 <=? t) then str "t" else str "-t"
|}.

(** A store that accepts every write and knows no project. *)
Definition emptyStore : Store := {|
  projects_select_id := fun _ _ => Response.mk (Some []) None;
  projects_upsert := fun _ => None;
  resources_upsert := fun _ => None
|}.

(** A store whose project query fails, and which accepts every write. *)
Definition failingQueryStore : Store := {|
  projects_select_id := fun _ _ => Response.mk None (Some (str "timeout"));
  projects_upsert := fun _ => None;
  resources_upsert := fun _ => None
|}.

(** A store that holds a project with code [PRJ-001], of id [p1]. *)
Definition onePrjStore : Store := {|
  projects_select_id := fun code neq =>
    if str_eqb code (str "PRJ-001") && negb (bool_decide (neq = Some (str "p1")))
    then Response.mk (Some [str "p1"]) None
    else Response.mk (Some []) None;
  projects_upsert := fun _ => None;
  resources_upsert := fun _ => None
|}.

(** A store that rejects the record of id [bad] and accepts every other
    write. *)
Definition rejectingStore (bad : jsstring) : Store := {|
  projects_select_id := fun _ _ => Response.mk (Some []) None;
  projects_upsert := fun _ => None;
  resources_upsert := fun r =>
    if str_eqb (ResourceItem.id r) bad then Some (str "row rejected") else None
|}.

(** A backend that accepts every call. *)
Definition okBackend : Backend := {|
  categories_upsert := fun _ _ => None;
  resources_delete := fun _ => None;
  profiles_delete := fun _ => None;
  sign_in_with_password := fun _ _ => None;
  update_user_password := fun _ => None
|}.

(** A backend that knows one password, [secret], for every account. *)
Definition onePasswordBackend : Backend := {|
  categories_upsert := fun _ _ => None;
  resources_delete := fun _ => None;
  profiles_delete := fun _ => None;
  sign_in_with_password := fun _ password =>
    if str_eqb password (str "secret") then None
    else Some (str "Invalid login credentials");
  update_user_password := fun _ => None
|}.

(** ** Definitions of the properties *)

(** What a run writes: a store write, the audit entry that follows one,
    or a change of the view's state. *)
Definition is_write (e : Event) : bool :=
  match e with
  | ProjectsUpsert _ | ResourcesUpsert _ | AuditLog _ _ _ | SetIsModalOpen _ => true
  | ProjectsSelectId _ _ | ShowToast _ _ => false
  end.

(** The spec's reading of a missing or empty candidate value: absent,
    the empty string, or an array of length zero. *)
Definition missing_or_empty (v : JsVal) : Prop :=
  v = VUndefined \/ v = VStr [] \/ v = VArr [].

(** The spec's quote state after reading [pre]: on exactly when an odd
    number of quotes has been read. *)
Definition insideQuotes (pre : jsstring) : bool :=
  Nat.odd (length (List.filter (fun c => (c =? DQUOTE)%N) pre)).

(** [s] without its quotes. *)
Definition dropQuotes (s : jsstring) : jsstring :=
  List.filter (fun c => negb (c =? DQUOTE)%N) s.

(** The fields the loop of [parseCSVLine] still produces from [s] when
    it is in quote state [q], the first of them being the rest of the
    field in progress. *)
Fixpoint fieldsFrom (s : jsstring) (q : bool) : list jsstring :=
  match s with
  | [] => [[]]
  | c :: s' =>
      if (c =? DQUOTE)%N then fieldsFrom s' (negb q)
      else if (c =? COMMA)%N && negb q then [] :: fieldsFrom s' q
      else match fieldsFrom s' q with
           | f :: fs => (c :: f) :: fs
           | [] => [[c]]
           end
  end.

(** [col] put in front of the first of [fields]. *)
Definition prependCol (col : jsstring) (fields : list jsstring) : list jsstring :=
  match fields with
  | f :: fs => (col ++ f) :: fs
  | [] => [col]
  end.

(** The record matches the filter of one key when the turn of the loop
    for that key does not reject it. *)
Definition matches (o : Outcome) : Prop := o <> ReturnFalse.

(** The spec's reading of the filter: the record passes the creator
    filter, both bounds of the creation-date filter, and, when a
    category is selected, the filter of every key. *)
Definition creator_ok {host : Host} (F : Filters) (r : ResourceItem.t) : Prop :=
  filterCreator F = []
  \/ includes (toLowerCase (ResourceItem.createdBy r))
              (toLowerCase (filterCreator F)) = true.

Definition date_from_ok {host : Host} (F : Filters) (r : ResourceItem.t) : Prop :=
  filterDateFrom F = []
  \/ date_lt (newDate (ResourceItem.createdAt r))
             (setHours (newDateOfString (filterDateFrom F)) 0 0 0 0) = false.

Definition date_to_ok {host : Host} (F : Filters) (r : ResourceItem.t) : Prop :=
  filterDateTo F = []
  \/ date_lt (setHours (newDateOfString (filterDateTo F)) 23 59 59 999)
             (newDate (ResourceItem.createdAt r)) = false.

Definition field_filters_ok {host : Host} (F : Filters) (r : ResourceItem.t) : Prop :=
  forall cat, selectedCategory F = Some cat ->
    forall key filterVal, (key, filterVal) ∈ fieldFilters F ->
      matches (DataManager.fieldFilterStep cat r key filterVal).

Definition satisfies_all {host : Host} (F : Filters) (r : ResourceItem.t) : Prop :=
  creator_ok F r /\ date_from_ok F r /\ date_to_ok F r /\ field_filters_ok F r.

(** The first and the last millisecond of the local calendar day
    numbered [d] (days since 1970-01-01), as epoch milliseconds. *)
Definition startOfLocalDay {host : Host} (d : Z) : Z :=
  d * msPerDay - LocalTZA.

Definition endOfLocalDay {host : Host} (d : Z) : Z :=
  d * msPerDay + (msPerDay - 1) - LocalTZA.

(** The first and the last millisecond of the UTC calendar day [d]. *)
Definition startOfUtcDay (d : Z) : Z := d * msPerDay.
Definition endOfUtcDay (d : Z) : Z := d * msPerDay + (msPerDay - 1).

(** *** The round trip through CSV, as the spec words it *)

(** The records an import saves. *)
Definition importedRows (res : DataManager.ImportResult)
  : list (gmap jsstring JsVal) :=
  match res with
  | DataManager.ImportRows rows => rows
  | DataManager.ImportNoData | DataManager.ImportNoColumns => []
  end.

(** The stored value [orig] of field [f] is reconstructed as [back]: a
    stored boolean text and a stored string of a text or number field
    come back as they were; a stored date comes back as the same date
    in the format of the locale, the text [toLocaleDateString] gives
    for it, and an empty date as the empty string; relation fields are
    not compared. *)
Definition round_trips {host : Host} (f : FieldDefinition.t) (orig : JsVal)
    (back : option JsVal) : Prop :=
  match FieldDefinition.type f with
  | FieldType.boolean =>
      orig = VStr (str "true") \/ orig = VStr (str "false") -> back = Some orig
  | FieldType.text | FieldType.textarea | FieldType.number =>
      forall v, orig = VStr v -> back = Some (VStr v)
  | FieldType.date =>
      (truthy orig = true -> back = Some (VStr (toLocaleDateString orig)))
      /\ (orig = VStr [] -> back = Some (VStr []))
  | FieldType.user | FieldType.project
  | FieldType.image | FieldType.file => True
  end.

(** The fields whose stored strings are compared as text. *)
Definition compared_as_text (f : FieldDefinition.t) : bool :=
  match FieldDefinition.type f with
  | FieldType.text | FieldType.textarea | FieldType.number => true
  | _ => false
  end.

(** The text of a stored date in the exported file: the date in the
    format of the locale, and nothing for a value that is not truthy. *)
Definition dateText {host : Host} (orig : JsVal) : jsstring :=
  if truthy orig then toLocaleDateString orig else [].

(** What the import does give back for [orig]: a stored boolean text as
    it was; a stored string of a text, number, image or file field
    without its quotes and without the white space at its ends; and for
    a date field, whatever is stored, the text of the date in the
    format of the locale without the white space at its ends. *)
Definition reads_back {host : Host} (f : FieldDefinition.t) (orig : JsVal)
    (back : option JsVal) : Prop :=
  match FieldDefinition.type f with
  | FieldType.boolean =>
      orig = VStr (str "true") \/ orig = VStr (str "false") -> back = Some orig
  | FieldType.text | FieldType.textarea | FieldType.number
  | FieldType.image | FieldType.file =>
      forall v, orig = VStr v -> back = Some (VStr (trim (dropQuotes v)))
  | FieldType.date => back = Some (VStr (trim (dateText orig)))
  | FieldType.user | FieldType.project => True
  end.

(** Exporting [rs] and importing the text back gives, row by row and
    field by field, a value related by [R] to the stored one. *)
Definition round_trip_with {host : Host}
    (R : FieldDefinition.t -> JsVal -> option JsVal -> Prop)
    (projects : list Project.t) (users : list User.t) (cat : Category.t)
    (rs : list ResourceItem.t) : Prop :=
  let back := importedRows
                (DataManager.importCSV projects users cat
                   (DataManager.exportCSV projects users cat rs)) in
  forall (i : nat) (r : ResourceItem.t) (f : FieldDefinition.t),
    rs !! i = Some r -> f ∈ Category.fields cat ->
    R f (DataManager.dataValue r (FieldDefinition.key f))
      ((back !! i) ≫= (fun d => d !! FieldDefinition.key f)).

(** The round trip as the spec claims it. *)
Definition round_trip_at {host : Host} (projects : list Project.t)
    (users : list User.t) (cat : Category.t) (rs : list ResourceItem.t) : Prop :=
  round_trip_with round_trips projects users cat rs.

(** No comma, no quote and no line feed. *)
Definition plain (s : jsstring) : Prop :=
  (COMMA ∉ s) /\ (DQUOTE ∉ s) /\ (LF ∉ s).

(** A cell that [parseCSVLine] reads as the one field [v], and that
    leaves the quote state off. *)
Definition atomic (cell v : jsstring) : Prop :=
  insideQuotes cell = false /\ fieldsFrom cell false = [v].

(** The cells of a row, each followed by a comma, in front of [rest]. *)
Definition cellsThen (cells : list jsstring) (rest : jsstring) : jsstring :=
  foldr (fun c acc => c ++ COMMA :: acc) rest cells.

(** The columns [fieldMap] holds when every field has its own column,
    the first of them at column [i]. *)
Fixpoint indexedKeys (i : nat) (fs : list FieldDefinition.t)
  : list (nat * jsstring) :=
  match fs with
  | [] => []
  | f :: fs' => (i, FieldDefinition.key f) :: indexedKeys (S i) fs'
  end.

(** The text of the cell of field [f] in the row of [r]. *)
Definition cellText {host : Host} (projects : list Project.t)
    (users : list User.t) (r : ResourceItem.t) (f : FieldDefinition.t)
  : jsstring :=
  joinElem (DataManager.exportCell projects users r f).

(** A category whose header line reads back as its fields: the field
    names hold no comma, quote or line feed and no white space at
    either end, differ from each other and from the two fixed headers
    that follow them when case is ignored, and the keys are distinct. *)
Record csv_safe_category {host : Host} (cat : Category.t) : Prop := {
  names_plain :
    forall f, f ∈ Category.fields cat ->
      plain (FieldDefinition.name f)
      /\ trim (FieldDefinition.name f) = FieldDefinition.name f;
  names_distinct :
    NoDup ((fun f => toLowerCase (FieldDefinition.name f))
             <$> Category.fields cat);
  keys_distinct : NoDup (FieldDefinition.key <$> Category.fields cat);
  names_not_fixed :
    forall f, f ∈ Category.fields cat ->
      toLowerCase (FieldDefinition.name f) <> toLowerCase HDR_CREATOR
      /\ toLowerCase (FieldDefinition.name f) <> toLowerCase HDR_CREATED
}.

(** A stored value whose cell does not disturb its row: a string of a
    text, number, image or file field holds no line feed (the export
    wraps it in quotes); any other cell holds no comma, quote or line
    feed as exported. The cell of a boolean field is one of two fixed
    labels. *)
Definition csv_safe_cell {host : Host} (projects : list Project.t)
    (users : list User.t) (r : ResourceItem.t) (f : FieldDefinition.t) : Prop :=
  match FieldDefinition.type f,
        DataManager.dataValue r (FieldDefinition.key f) with
  | FieldType.boolean, _ => True
  | (FieldType.text | FieldType.textarea | FieldType.number
     | FieldType.image | FieldType.file), VStr v => LF ∉ v
  | _, _ => plain (cellText projects users r f)
  end.

Definition csv_safe_resource {host : Host} (projects : list Project.t)
    (users : list User.t) (cat : Category.t) (r : ResourceItem.t) : Prop :=
  plain (ResourceItem.id r)
  /\ (LF ∉ ResourceItem.createdBy r)
  /\ (LF ∉ toLocaleString (ResourceItem.createdAt r))
  /\ forall f, f ∈ Category.fields cat -> csv_safe_cell projects users r f.

(** The lines the import keeps, and from them the headers it reads and
    the keys of the columns it maps. *)
Definition importLines (text : jsstring) : list jsstring :=
  List.filter (fun l => negb (str_eqb l []))
              (trim <$> DataManager.splitLines text).

Definition importHeaders (text : jsstring) : list jsstring :=
  match importLines text with
  | line0 :: _ =>
      (fun h => DataManager.stripQuotes (trim h))
        <$> DataManager.parseCSVLine line0
  | [] => []
  end.

Definition mappedKeys {host : Host} (cat : Category.t) (text : jsstring)
  : list jsstring :=
  snd <$> DataManager.mapHeaders (Category.fields cat) 0 (importHeaders text).

(** The value read back for field [f] of the [i]-th record after an
    export of [rs] and an import of the text. *)
Definition readBack {host : Host} (projects : list Project.t)
    (users : list User.t) (cat : Category.t) (rs : list ResourceItem.t)
    (i : nat) (f : FieldDefinition.t) : option JsVal :=
  (importedRows
     (DataManager.importCSV projects users cat
        (DataManager.exportCSV projects users cat rs)) !! i)
    ≫= (fun d => d !! FieldDefinition.key f).

(** What an accepted save of [r] leaves in the run: the write and its
    audit entry. *)
Definition savedEvents (r : ResourceItem.t) : list Event :=
  [ResourcesUpsert r;
   AuditLog UPDATE (str "Resource")
     (MSG_AUDIT_SAVE_RESOURCE ++ ResourceItem.categoryId r)].

(** The accepted saves of the rows [rows] of an import, the first of
    them read from line [i]. *)
Fixpoint savedFrom (cat : Category.t) (u : User.t) (uuid : nat -> jsstring)
    (now : nat -> Z) (i : nat) (rows : list (gmap jsstring JsVal))
  : list Event :=
  match rows with
  | [] => []
  | d :: rest =>
      savedEvents (DataManager.importedResource cat u uuid now i d)
      ++ savedFrom cat u uuid now (S i) rest
  end.

(** The user armed for deletion after clicks on the delete buttons of
    [clicked], in order. *)
Fixpoint afterUserClicks (currentUser : User.t) (clicked : list User.t)
    (userToDelete : option User.t) : option User.t :=
  match clicked with
  | [] => userToDelete
  | user :: rest =>
      match result (UserManager.handleDeleteClick currentUser user userToDelete) with
      | inr s => afterUserClicks currentUser rest s
      | inl _ => userToDelete
      end
  end.

(** The state of the record view after clicks on the delete buttons of
    [clicked], in order. *)
Fixpoint afterDeleteClicks (currentUser : User.t) (clicked : list ResourceItem.t)
    (st : DataManager.FormState) : DataManager.FormState :=
  match clicked with
  | [] => st
  | r :: rest =>
      match result (DataManager.handleDeleteClick currentUser r st) with
      | inr s => afterDeleteClicks currentUser rest s
      | inl _ => st
      end
  end.

(** The sum of the [value]s of a chart. *)
Definition chartTotal {A : Type} (items : list (A * nat)) : nat :=
  sum_list (snd <$> items).

(** By falling creation time. *)
Definition newestFirst (l : list ResourceItem.t) : Prop :=
  Sorted (fun a b => ResourceItem.createdAt b <= ResourceItem.createdAt a) l.

(** ** Sample data *)

Definition prj_dup : PartialProject.t :=
  PartialProject.mk None (Some (str "Beta")) (Some (str "PRJ-001")) None None.

Definition fld_name : FieldDefinition.t :=
  FieldDefinition.mk (str "f1") (str "Name") (str "field_1") FieldType.text true.

Definition fld_owner : FieldDefinition.t :=
  FieldDefinition.mk (str "f2") (str "Owner") (str "field_2") FieldType.user true.

Definition fld_done : FieldDefinition.t :=
  FieldDefinition.mk (str "f3") (str "Done") (str "field_3") FieldType.boolean false.

Definition cat_equipment : Category.t :=
  Category.mk (str "c1") (str "Equipment") [] [fld_name; fld_owner; fld_done]
              0 public.

Definition usr_manager : User.t :=
  User.mk (str "u1") (str "lan") (str "lan@example.org") None None Role.manager.

Definition new_resource : PartialResource.t :=
  PartialResource.mk None None None None.

Definition prj_new : PartialProject.t :=
  PartialProject.mk None (Some (str "Alpha")) (Some (str "PRJ-001")) (Some [])
                    (Some active).

Definition fld_count : FieldDefinition.t :=
  FieldDefinition.mk (str "f4") (str "Count") (str "field_4") FieldType.number true.

Definition fld_flag : FieldDefinition.t :=
  FieldDefinition.mk (str "f5") (str "Flag") (str "field_5") FieldType.boolean true.

Definition cat_strict : Category.t :=
  Category.mk (str "c2") (str "Strict") [] [fld_name; fld_count; fld_flag]
              0 public.

Definition form_null_zero_false : gmap jsstring JsVal :=
  {[ str "field_1" := VNull;
     str "field_4" := VNum (str "0");
     str "field_5" := VBool false ]}.

Definition res_with (d : gmap jsstring JsVal) : ResourceItem.t :=
  ResourceItem.mk (str "r1") (str "c1") (Some d) (str "lan") 0.

(** Two field filters, the one on the user field set first. *)
Definition filters_owner_then_done : Filters := {|
  filterCreator := [];
  filterDateFrom := [];
  filterDateTo := [];
  fieldFilters := [(str "field_2", str "u1"); (str "field_3", str "false")];
  selectedCategory := Some cat_equipment
|}.

(** The same two filters, the one on the boolean field set first. *)
Definition filters_done_then_owner : Filters := {|
  filterCreator := [];
  filterDateFrom := [];
  filterDateTo := [];
  fieldFilters := [(str "field_3", str "false"); (str "field_2", str "u1")];
  selectedCategory := Some cat_equipment
|}.

(** A record open to every user, and done. *)
Definition res_all_done : ResourceItem.t :=
  res_with {[ str "field_1" := VStr (str "Laptop");
              str "field_2" := VArr [VStr (str "all")];
              str "field_3" := VStr (str "true") ]}.

(** The same record with the wildcard stored as a scalar. *)
Definition res_scalar_all_done : ResourceItem.t :=
  res_with {[ str "field_1" := VStr (str "Laptop");
              str "field_2" := VStr (str "all");
              str "field_3" := VStr (str "true") ]}.

(** The creation-date filter set to the single day 2024-01-15. *)
Definition filters_one_day : Filters := {|
  filterCreator := [];
  filterDateFrom := str "2024-01-15";
  filterDateTo := str "2024-01-15";
  fieldFilters := [];
  selectedCategory := None
|}.

Definition res_created_at (t : Z) : ResourceItem.t :=
  ResourceItem.mk (str "r2") (str "c1") (Some ∅) (str "lan") t.

(** Five hours west of UTC. *)
Definition tza_minus5 : Z := -18000000.

(** Seven hours east of UTC. *)
Definition tza_plus7 : Z := 25200000.

Definition fld_note : FieldDefinition.t :=
  FieldDefinition.mk (str "f6") (str "Note") (str "field_6") FieldType.text false.

Definition cat_notes : Category.t :=
  Category.mk (str "c3") (str "Notes") [] [fld_note; fld_done] 0 public.

(** A note that holds a comma. *)
Definition res_note_comma : ResourceItem.t :=
  res_with {[ str "field_6" := VStr (str "red, blue");
              str "field_3" := VStr (str "true") ]}.

(** A note that holds a quote: [say ] followed by a quoted [hi]. *)
Definition note_quoted : jsstring :=
  str "say " ++ [DQUOTE] ++ str "hi" ++ [DQUOTE].

Definition res_note_quote : ResourceItem.t :=
  res_with {[ str "field_6" := VStr note_quoted;
              str "field_3" := VStr (str "false") ]}.

(** A note of two lines. *)
Definition res_note_lines : ResourceItem.t :=
  res_with {[ str "field_6" := VStr (str "one" ++ [LF] ++ str "two");
              str "field_3" := VStr (str "false") ]}.

(** A note with a space at either end. *)
Definition res_note_spaces : ResourceItem.t :=
  res_with {[ str "field_6" := VStr (str " spare ");
              str "field_3" := VStr (str "false") ]}.

Definition cat_owned_notes : Category.t :=
  Category.mk (str "c4") (str "Owned notes") [] [fld_owner; fld_note] 0 public.

(** A note owned by two users. *)
Definition res_two_owners : ResourceItem.t :=
  res_with {[ str "field_2" := VArr [VStr (str "u1"); VStr (str "u2")];
              str "field_6" := VStr (str "shared") ]}.

Definition fld_due : FieldDefinition.t :=
  FieldDefinition.mk (str "f7") (str "Due") (str "field_7") FieldType.date false.

Definition cat_dated_notes : Category.t :=
  Category.mk (str "c5") (str "Dated notes") [] [fld_note; fld_done; fld_due]
              0 public.

(** A note that holds a comma, done, and due on 2024-01-15. *)
Definition res_dated_note : ResourceItem.t :=
  res_with {[ str "field_6" := VStr (str "red, blue");
              str "field_3" := VStr (str "true");
              str "field_7" := VStr (str "2024-01-15") ]}.

(** A file whose header names no field of the sample categories. *)
Definition csv_no_match : jsstring :=
  str "Foo" ++ [LF] ++ str "bar" ++ [LF] ++ str "baz".

(** The view on all categories, with no form open. *)
Definition st_all : DataManager.FormState := {|
  DataManager.selectedCategoryId := [];
  DataManager.currentResource := new_resource;
  DataManager.formData := ∅;
  DataManager.resourceToDelete := None
|}.

(** A record of the category [c1] that another user created. *)
Definition res_laptop : ResourceItem.t :=
  ResourceItem.mk (str "r7") (str "c1")
    (Some {[ str "field_1" := VStr (str "Laptop");
             str "field_2" := VArr [VStr (str "u1")] ]})
    (str "binh") 1700000000000.

Definition usr_binh : User.t :=
  User.mk (str "u2") (str "binh") (str "binh@example.org") None None Role.user.

(** A file of a header line and two data lines. *)
Definition csv_two_notes : jsstring :=
  str "Note" ++ [LF] ++ str "first" ++ [LF] ++ str "second".

(** The ids [id-1], [id-2], ... in the order of the lines. *)
Definition uuid_by_line (i : nat) : jsstring := str "id-" ++ DataManager.countText i.

Definition now_by_line (i : nat) : Z := 1700000000000 + Z.of_nat i.

Definition prj_alpha : Project.t :=
  Project.mk (str "p1") (str "Alpha") (str "PRJ-001") [] active (str "2024-01-01").

Definition prj_beta : Project.t :=
  Project.mk (str "p2") (str "Beta") (str "PRJ-002") [] paused (str "2024-02-01").

(** A note owned by one known user. *)
Definition res_one_owner : ResourceItem.t :=
  res_with {[ str "field_2" := VArr [VStr (str "u1")];
              str "field_6" := VStr (str "mine") ]}.

(** A note open to every user. *)
Definition res_open_note : ResourceItem.t :=
  res_with {[ str "field_2" := VArr [VStr (str "all")];
              str "field_6" := VStr (str "open") ]}.

Definition usr_admin : User.t :=
  User.mk (str "u0") (str "admin") (str "admin@example.org") None None Role.admin.

(** A category being built, with one named field. *)
Definition draft_category : PartialCategory.t :=
  PartialCategory.mk None (Some (str "Assets")) None (Some [fld_name]) None None
                     None.

Definition res_at (id : string) (t : Z) : ResourceItem.t :=
  ResourceItem.mk (str id) (str "c1") None (str "lan") t.

(** * Properties *)

(** ** Permissions *)

(** C7. [canEditResource] is a total function of the user and the
    resource: it is [true] for every admin and every manager, and for a
    plain user it is [true] exactly when the resource's [createdBy] is
    the user's [username]. *)
Theorem canEditResource_by_role (u : User.t) (r : ResourceItem.t) :
  match User.role u with
  | Role.admin | Role.manager => PERMISSIONS.canEditResource u r = true
  | Role.user =>
      PERMISSIONS.canEditResource u r = true
      <-> ResourceItem.createdBy r = User.username u
  end.
Proof.
  unfold PERMISSIONS.canEditResource.
  destruct (User.role u); try reflexivity.
  unfold str_eqb. apply bool_decide_eq_true.
Qed.

(** ** Saving a project *)

Ltac eff_simpl :=
  cbv [mbind mret Eff_bind Eff_ret emit throw try_catch showToast
       setIsModalOpen auditService.log trace outcome fst snd] in *.

(** C9. The existence check fails open: when the store answers the
    query with an error, [checkCodeExists] returns [false], and the
    save of a project with a code and a name then goes on to the
    upsert. *)
Theorem checkCodeExists_fails_open {store : Store}
    (code : jsstring) (excludeId : option jsstring) :
  is_Some (Response.error
             (projects_select_id code (projectService.neqFilter excludeId))) ->
  outcome (projectService.checkCodeExists code excludeId) = inr false
  /\ forall p : PartialProject.t,
       PartialProject.code p = Some code ->
       PartialProject.id p = excludeId ->
       trim code <> [] ->
       trim (default [] (PartialProject.name p)) <> [] ->
       ProjectsUpsert p ∈ trace (SystemSettings.handleSave p).
Proof.
  intros [msg Herr]. split.
  - unfold projectService.checkCodeExists. rewrite Herr. reflexivity.
  - intros p Hcode Hid Hc Hn.
    unfold SystemSettings.handleSave, projectService.checkCodeExists,
      projectService.save.
    rewrite Hcode, Hid, Herr. unfold str_eqb.
    rewrite !bool_decide_eq_false_2 by assumption.
    eff_simpl.
    destruct (projects_upsert p); cbn; set_solver.
Qed.

Lemma checkCodeExists_fails_open_witness :
  outcome (projectService.checkCodeExists (store := failingQueryStore)
             (str "PRJ-001") None) = inr false
  /\ ProjectsUpsert prj_new
       ∈ trace (SystemSettings.handleSave (store := failingQueryStore) prj_new).
Proof.
  destruct (checkCodeExists_fails_open (store := failingQueryStore)
              (str "PRJ-001") None) as [H1 H2].
  - eexists. reflexivity.
  - split; [exact H1 |].
    apply H2; [reflexivity | reflexivity | vm_compute; discriminate
              | vm_compute; discriminate].
Defined.

(** C8. When the existence check reports that the code is taken, the
    save of the project writes nothing: no upsert, no audit entry, no
    change of the form's state; the run is the query followed by the
    toast that reports the duplicate. *)
Theorem duplicate_code_aborts_save {store : Store}
    (p : PartialProject.t) (code : jsstring) :
  PartialProject.code p = Some code ->
  outcome (projectService.checkCodeExists code (PartialProject.id p)) = inr true ->
  Forall (fun e => is_write e = false) (trace (SystemSettings.handleSave p))
  /\ (trim code <> [] ->
      trim (default [] (PartialProject.name p)) <> [] ->
      trace (SystemSettings.handleSave p)
      = [ProjectsSelectId code (projectService.neqFilter (PartialProject.id p));
         ShowToast MSG_CODE_EXISTS error]).
Proof.
  intros Hcode Hex.
  assert (Hrun : trim code <> [] ->
                 trim (default [] (PartialProject.name p)) <> [] ->
                 trace (SystemSettings.handleSave p)
                 = [ProjectsSelectId code
                      (projectService.neqFilter (PartialProject.id p));
                    ShowToast MSG_CODE_EXISTS error]).
  { intros Hc Hn. unfold SystemSettings.handleSave. rewrite Hcode.
    unfold str_eqb. rewrite !bool_decide_eq_false_2 by assumption.
    revert Hex. unfold projectService.checkCodeExists.
    destruct (Response.error _); [eff_simpl; discriminate |].
    destruct (Response.data _) as [rows|]; [| eff_simpl; discriminate].
    eff_simpl. intros Hex. injection Hex as ->. reflexivity. }
  split; [| exact Hrun].
  destruct (decide (trim code = [])) as [Hc|Hc].
  - unfold SystemSettings.handleSave. rewrite Hcode.
    unfold str_eqb. rewrite bool_decide_eq_true_2 by assumption.
    repeat constructor.
  - destruct (decide (trim (default [] (PartialProject.name p)) = [])) as [Hn|Hn].
    + unfold SystemSettings.handleSave. rewrite Hcode. unfold str_eqb.
      rewrite bool_decide_eq_false_2 by assumption.
      rewrite bool_decide_eq_true_2 by assumption.
      repeat constructor.
    + rewrite (Hrun Hc Hn). repeat constructor.
Qed.

Lemma duplicate_code_aborts_save_witness :
  Forall (fun e => is_write e = false)
         (trace (SystemSettings.handleSave (store := onePrjStore) prj_dup))
  /\ trace (SystemSettings.handleSave (store := onePrjStore) prj_dup)
     = [ProjectsSelectId (str "PRJ-001") None; ShowToast MSG_CODE_EXISTS error].
Proof.
  destruct (duplicate_code_aborts_save (store := onePrjStore) prj_dup
              (str "PRJ-001") eq_refl eq_refl) as [H1 H2].
  split; [exact H1 |].
  apply H2; vm_compute; discriminate.
Defined.

(** ** Saving a record from the form *)

Lemma isMissing_spec (v : JsVal) :
  DataManager.isMissing v = true <-> missing_or_empty v.
Proof.
  unfold missing_or_empty.
  destruct v as [| | b | r | [|c s] | [|e l]]; cbn;
    intuition (discriminate || eauto).
Qed.

Lemma isMissing_false (v : JsVal) :
  DataManager.isMissing v = false <-> ~ missing_or_empty v.
Proof.
  rewrite <- isMissing_spec. destruct (DataManager.isMissing v); intuition congruence.
Qed.

Lemma requiredLoop_none (fields : list FieldDefinition.t)
    (formData : gmap jsstring JsVal) :
  (forall f, f ∈ fields -> FieldDefinition.required f = true ->
             ~ missing_or_empty (getProp formData (FieldDefinition.key f))) ->
  DataManager.requiredLoop fields formData = None.
Proof.
  induction fields as [|g fields IH]; intros Hall; [reflexivity |].
  cbn. destruct (FieldDefinition.required g) eqn:Hreq; cbn.
  - assert (Hg : DataManager.isMissing
                   (getProp formData (FieldDefinition.key g)) = false).
    { apply isMissing_false, Hall; [left | exact Hreq]. }
    rewrite Hg. apply IH. intros f Hf. apply Hall. now right.
  - apply IH. intros f Hf. apply Hall. now right.
Qed.

Lemma requiredLoop_first (pre post : list FieldDefinition.t)
    (f : FieldDefinition.t) (formData : gmap jsstring JsVal) :
  FieldDefinition.required f = true ->
  missing_or_empty (getProp formData (FieldDefinition.key f)) ->
  (forall g, g ∈ pre -> FieldDefinition.required g = true ->
             ~ missing_or_empty (getProp formData (FieldDefinition.key g))) ->
  DataManager.requiredLoop (pre ++ f :: post) formData = Some f.
Proof.
  intros Hreq Hmiss. induction pre as [|g pre IH]; intros Hpre; cbn.
  - apply isMissing_spec in Hmiss. now rewrite Hreq, Hmiss.
  - destruct (FieldDefinition.required g) eqn:Hg; cbn.
    + assert (Hm : DataManager.isMissing
                     (getProp formData (FieldDefinition.key g)) = false).
      { apply isMissing_false, Hpre; [left | exact Hg]. }
      rewrite Hm. apply IH. intros g' Hg'. apply Hpre. now right.
    + apply IH. intros g' Hg'. apply Hpre. now right.
Qed.

Lemma handleSave_proceeds {store : Store} selectedCategory categories
    currentResource formData currentUser uuid now cat :
  DataManager.catToUse selectedCategory categories currentResource = Some cat ->
  DataManager.requiredLoop (Category.fields cat) formData = None ->
  exists rest,
    trace (DataManager.handleSave selectedCategory categories currentResource
             formData currentUser uuid now)
    = ResourcesUpsert
        (DataManager.resourceToSave cat currentResource formData currentUser uuid now)
      :: rest.
Proof.
  intros Hcat Hloop. unfold DataManager.handleSave. rewrite Hcat, Hloop.
  unfold dataService.saveResource.
  destruct (resources_upsert _); eff_simpl; cbn; eauto.
Qed.

(** C4. On the form path, when some required field of the category has
    a missing or empty value, the save shows the toast naming the first
    such field in schema order and does nothing else, whatever the other
    fields hold; when no required field is missing, the save goes on to
    the upsert of the record built from the form. *)
Theorem handleSave_required_fields {store : Store}
    (selectedCategory : option Category.t) (categories : list Category.t)
    (currentResource : PartialResource.t) (formData : gmap jsstring JsVal)
    (currentUser : User.t) (uuid : jsstring) (now : Z) (cat : Category.t) :
  DataManager.catToUse selectedCategory categories currentResource = Some cat ->
  (forall pre f post,
      Category.fields cat = pre ++ f :: post ->
      FieldDefinition.required f = true ->
      missing_or_empty (getProp formData (FieldDefinition.key f)) ->
      (forall g, g ∈ pre -> FieldDefinition.required g = true ->
                 ~ missing_or_empty (getProp formData (FieldDefinition.key g))) ->
      trace (DataManager.handleSave selectedCategory categories currentResource
               formData currentUser uuid now)
      = [ShowToast (MSG_PLEASE_ENTER ++ FieldDefinition.name f) error])
  /\ ((forall f, f ∈ Category.fields cat -> FieldDefinition.required f = true ->
                 ~ missing_or_empty (getProp formData (FieldDefinition.key f))) ->
      exists rest,
        trace (DataManager.handleSave selectedCategory categories currentResource
                 formData currentUser uuid now)
        = ResourcesUpsert
            (DataManager.resourceToSave cat currentResource formData currentUser uuid now)
          :: rest).
Proof.
  intros Hcat. split.
  - intros pre f post Hfields Hreq Hmiss Hpre.
    unfold DataManager.handleSave. rewrite Hcat, Hfields.
    now rewrite (requiredLoop_first pre post f formData Hreq Hmiss Hpre).
  - intros Hall. apply handleSave_proceeds; [exact Hcat |].
    now apply requiredLoop_none.
Qed.

Lemma handleSave_required_fields_witness :
  trace (DataManager.handleSave (store := emptyStore) (Some cat_equipment) []
           new_resource {[ str "field_1" := VStr (str "Laptop") ]}
           usr_manager (str "id-1") 1700000000000)
  = [ShowToast (MSG_PLEASE_ENTER ++ str "Owner") error]
  /\ exists rest,
       trace (DataManager.handleSave (store := emptyStore) (Some cat_equipment) []
                new_resource
                {[ str "field_1" := VStr (str "Laptop");
                   str "field_2" := VArr [VStr (str "all")] ]}
                usr_manager (str "id-1") 1700000000000)
       = ResourcesUpsert
           (DataManager.resourceToSave cat_equipment new_resource
              {[ str "field_1" := VStr (str "Laptop");
                 str "field_2" := VArr [VStr (str "all")] ]}
              usr_manager (str "id-1") 1700000000000)
         :: rest.
Proof.
  split.
  - refine (proj1 (handleSave_required_fields (store := emptyStore)
              (Some cat_equipment) [] new_resource _ usr_manager (str "id-1")
              1700000000000 cat_equipment eq_refl)
              [fld_name] fld_owner [fld_done] eq_refl eq_refl _ _).
    + left. reflexivity.
    + intros g Hg _ Hm. apply list_elem_of_singleton in Hg as ->.
      apply isMissing_spec in Hm. vm_compute in Hm. discriminate.
  - refine (proj2 (handleSave_required_fields (store := emptyStore)
              (Some cat_equipment) [] new_resource _ usr_manager (str "id-1")
              1700000000000 cat_equipment eq_refl) _).
    intros f Hf Hreq Hm. apply isMissing_spec in Hm.
    cbn in Hf. rewrite !elem_of_cons in Hf.
    destruct Hf as [-> | [-> | [-> | Hf]]].
    + vm_compute in Hm. discriminate.
    + vm_compute in Hm. discriminate.
    + vm_compute in Hreq. discriminate.
    + inversion Hf.
Defined.

(** C10. The required-field check of the form path rejects exactly
    [undefined], the empty string and the empty array. A form whose
    required fields all hold other values, [null], [0] and [false]
    among them, passes the check and the save goes on to the upsert. *)
Theorem required_check_rejects_only_three {store : Store}
    (selectedCategory : option Category.t) (categories : list Category.t)
    (currentResource : PartialResource.t) (formData : gmap jsstring JsVal)
    (currentUser : User.t) (uuid : jsstring) (now : Z) (cat : Category.t) :
  (forall v, DataManager.isMissing v = true
             <-> v = VUndefined \/ v = VStr [] \/ v = VArr [])
  /\ DataManager.isMissing VNull = false
  /\ (DataManager.catToUse selectedCategory categories currentResource = Some cat ->
      (forall f, f ∈ Category.fields cat -> FieldDefinition.required f = true ->
         let v := getProp formData (FieldDefinition.key f) in
         v <> VUndefined /\ v <> VStr [] /\ v <> VArr []) ->
      exists rest,
        trace (DataManager.handleSave selectedCategory categories currentResource
                 formData currentUser uuid now)
        = ResourcesUpsert
            (DataManager.resourceToSave cat currentResource formData currentUser uuid now)
          :: rest).
Proof.
  split; [exact isMissing_spec |]. split; [reflexivity |].
  intros Hcat Hall. apply handleSave_proceeds; [exact Hcat |].
  apply requiredLoop_none. intros f Hf Hreq [Hm | [Hm | Hm]];
    destruct (Hall f Hf Hreq) as (H1 & H2 & H3); contradiction.
Qed.

Lemma required_check_rejects_only_three_witness :
  exists rest,
    trace (DataManager.handleSave (store := emptyStore) (Some cat_strict) []
             new_resource form_null_zero_false usr_manager (str "id-2") 5)
    = ResourcesUpsert
        (DataManager.resourceToSave cat_strict new_resource form_null_zero_false
           usr_manager (str "id-2") 5)
      :: rest.
Proof.
  refine (proj2 (proj2 (required_check_rejects_only_three (store := emptyStore)
            (Some cat_strict) [] new_resource form_null_zero_false usr_manager
            (str "id-2") 5 cat_strict)) eq_refl _).
  intros f Hf _. cbn in Hf. rewrite !elem_of_cons in Hf.
  destruct Hf as [-> | [-> | [-> | Hf]]]; [| | | inversion Hf];
    vm_compute; repeat split; discriminate.
Defined.

(** ** The CSV line parser *)

Lemma fieldsFrom_nonempty (s : jsstring) (q : bool) : fieldsFrom s q <> [].
Proof.
  revert q. induction s as [|c s IH]; intros q; cbn; [discriminate |].
  destruct (c =? DQUOTE)%N; [apply IH |].
  destruct ((c =? COMMA)%N && negb q); [discriminate |].
  destruct (fieldsFrom s q); discriminate.
Qed.

Lemma parseCSVLoop_fieldsFrom (s : jsstring) (q : bool) (col : jsstring)
    (arr : list jsstring) :
  DataManager.parseCSVLoop s q col arr = arr ++ prependCol col (fieldsFrom s q).
Proof.
  revert q col arr. induction s as [|c s IH]; intros q col arr; cbn.
  - now rewrite app_nil_r.
  - destruct (c =? DQUOTE)%N; [apply IH |].
    destruct ((c =? COMMA)%N && negb q).
    + rewrite IH. cbn. rewrite app_nil_r.
      pose proof (fieldsFrom_nonempty s q) as Hne.
      destruct (fieldsFrom s q) as [|f fs]; [congruence |].
      cbn. now rewrite <- app_assoc.
    + rewrite IH.
      pose proof (fieldsFrom_nonempty s q) as Hne.
      destruct (fieldsFrom s q) as [|f fs]; [congruence |].
      cbn. now rewrite <- app_assoc.
Qed.

Lemma parseCSVLine_fieldsFrom (s : jsstring) :
  DataManager.parseCSVLine s = fieldsFrom s false.
Proof.
  unfold DataManager.parseCSVLine. rewrite parseCSVLoop_fieldsFrom. cbn.
  pose proof (fieldsFrom_nonempty s false).
  now destruct (fieldsFrom s false).
Qed.

Lemma insideQuotes_cons (c : N) (s : jsstring) :
  insideQuotes (c :: s)
  = if (c =? DQUOTE)%N then negb (insideQuotes s) else insideQuotes s.
Proof.
  unfold insideQuotes. cbn. destruct (c =? DQUOTE)%N; [| reflexivity].
  cbn [length]. now rewrite Nat.odd_succ, <- Nat.negb_odd.
Qed.

Lemma fieldsFrom_no_quote (s : jsstring) (q : bool) :
  Forall (fun f => DQUOTE ∉ f) (fieldsFrom s q).
Proof.
  revert q. induction s as [|c s IH]; intros q; cbn.
  - repeat constructor. apply not_elem_of_nil.
  - destruct (c =? DQUOTE)%N eqn:Hc; [apply IH |].
    destruct ((c =? COMMA)%N && negb q).
    + constructor; [apply not_elem_of_nil | apply IH].
    + specialize (IH q). destruct (fieldsFrom s q) as [|f fs].
      * apply N.eqb_neq in Hc. repeat constructor.
        rewrite not_elem_of_cons. split; [congruence | apply not_elem_of_nil].
      * apply N.eqb_neq in Hc. inversion IH; subst.
        constructor; [| assumption].
        rewrite not_elem_of_cons. split; [congruence | assumption].
Qed.

Lemma fieldsFrom_split (a b : jsstring) (q : bool) :
  xorb q (insideQuotes a) = false ->
  fieldsFrom (a ++ COMMA :: b) q = fieldsFrom a q ++ fieldsFrom b false.
Proof.
  revert q. induction a as [|c a IH]; intros q Hq.
  - cbn in Hq. destruct q; [discriminate |]. reflexivity.
  - rewrite insideQuotes_cons in Hq. cbn.
    destruct (c =? DQUOTE)%N.
    + apply IH. now destruct q, (insideQuotes a).
    + rewrite (IH q Hq).
      destruct ((c =? COMMA)%N && negb q); [reflexivity |].
      pose proof (fieldsFrom_nonempty a q).
      now destruct (fieldsFrom a q).
Qed.

Lemma fieldsFrom_one (s : jsstring) (q : bool) :
  (forall a b, s = a ++ COMMA :: b -> xorb q (insideQuotes a) = true) ->
  fieldsFrom s q = [dropQuotes s].
Proof.
  revert q. induction s as [|c s IH]; intros q Hs; [reflexivity |].
  cbn. unfold dropQuotes. cbn [List.filter].
  destruct (c =? DQUOTE)%N eqn:Hc; cbn [negb].
  - apply IH. intros a b ->.
    specialize (Hs (c :: a) b eq_refl). rewrite insideQuotes_cons, Hc in Hs.
    now destruct q, (insideQuotes a).
  - destruct (c =? COMMA)%N eqn:Hcomma; cbn [andb].
    + apply N.eqb_eq in Hcomma. subst c.
      pose proof (Hs [] s eq_refl) as Hq. cbn in Hq.
      destruct q; [| discriminate]. cbn [negb].
      rewrite IH; [reflexivity |].
      intros a b ->. specialize (Hs (COMMA :: a) b eq_refl).
      now rewrite insideQuotes_cons in Hs.
    + rewrite IH; [reflexivity |].
      intros a b ->. specialize (Hs (c :: a) b eq_refl).
      now rewrite insideQuotes_cons, Hc in Hs.
Qed.

(** C6. [parseCSVLine] treats every quote as a toggle of the quote
    state: it splits the line at each comma read while the state is off,
    never at a comma read while it is on (a line with no comma outside
    quotes is one field, its quoted commas kept), and no quote ever
    reaches a field; so a doubled quote inside a quoted field is lost
    and not read as an escaped quote. *)
Theorem parseCSVLine_quote_toggle :
  (forall s, Forall (fun f => DQUOTE ∉ f) (DataManager.parseCSVLine s))
  /\ (forall a b,
        insideQuotes a = false ->
        DataManager.parseCSVLine (a ++ COMMA :: b)
        = DataManager.parseCSVLine a ++ DataManager.parseCSVLine b)
  /\ (forall s,
        (forall a b, s = a ++ COMMA :: b -> insideQuotes a = true) ->
        DataManager.parseCSVLine s = [dropQuotes s])
  /\ DataManager.parseCSVLine ([DQUOTE] ++ str "a" ++ [DQUOTE; DQUOTE] ++ str "b" ++ [DQUOTE])
     = [str "ab"].
Proof.
  repeat split.
  - intros s. rewrite parseCSVLine_fieldsFrom. apply fieldsFrom_no_quote.
  - intros a b Ha. rewrite !parseCSVLine_fieldsFrom.
    apply fieldsFrom_split. now rewrite Ha.
  - intros s Hs. rewrite parseCSVLine_fieldsFrom. apply fieldsFrom_one.
    intros a b Hab. now rewrite (Hs a b Hab).
Qed.

Lemma parseCSVLine_quote_toggle_witness :
  DataManager.parseCSVLine (str "x,y" ++ COMMA :: [DQUOTE; COMMA; DQUOTE])
  = DataManager.parseCSVLine (str "x,y")
    ++ DataManager.parseCSVLine [DQUOTE; COMMA; DQUOTE]
  /\ DataManager.parseCSVLine [DQUOTE; COMMA; DQUOTE] = [[COMMA]].
Proof.
  destruct parseCSVLine_quote_toggle as (_ & Hsplit & Hone & _).
  split.
  - apply (Hsplit (str "x,y")). reflexivity.
  - apply (Hone [DQUOTE; COMMA; DQUOTE]).
    intros a b Hab.
    destruct a as [|c0 [|c1 [|c2 a]]]; cbn in Hab.
    + discriminate.
    + injection Hab as <- _. reflexivity.
    + injection Hab as _ _ Hab. discriminate.
    + injection Hab as _ _ _ Hab. destruct a; discriminate.
Defined.

(** ** The filter *)

Lemma arrIncludes_elem (l : list JsVal) (s : jsstring) :
  arrIncludes l s = true <-> VStr s ∈ l.
Proof.
  unfold arrIncludes. rewrite existsb_exists. split.
  - intros (e & Hin & He). destruct e; try discriminate.
    apply bool_decide_eq_true in He. subst. now apply list_elem_of_In.
  - intros Hin. exists (VStr s). split; [now apply list_elem_of_In |].
    now apply bool_decide_eq_true.
Qed.

Lemma str_eqb_eq (s t : jsstring) : str_eqb s t = true <-> s = t.
Proof. apply bool_decide_eq_true. Qed.

Lemma relationStep_array (l : list JsVal) (filterVal : jsstring) :
  DataManager.relationStep (VArr l) filterVal
  = if arrIncludes l (str "all") then ReturnTrue
    else if arrIncludes l filterVal then Continue else ReturnFalse.
Proof.
  unfold DataManager.relationStep.
  destruct (arrIncludes l (str "all")); [reflexivity |].
  now destruct (arrIncludes l filterVal).
Qed.

Lemma relationStep_scalar (v : JsVal) (filterVal : jsstring) :
  (forall l, v <> VArr l) ->
  matches (DataManager.relationStep v filterVal)
  <-> ToString v = str "all" \/ ToString v = filterVal.
Proof.
  intros Hv. unfold matches.
  assert (Hstep : DataManager.relationStep v filterVal
                  = if negb (str_eqb (ToString v) (str "all"))
                       && negb (str_eqb (ToString v) filterVal)
                    then ReturnFalse else Continue).
  { destruct v; try reflexivity. now destruct (Hv elems). }
  rewrite Hstep. rewrite <- !str_eqb_eq.
  destruct (str_eqb (ToString v) (str "all")),
           (str_eqb (ToString v) filterVal); cbn; intuition congruence.
Qed.

(** C2. On a user or project field with a non-empty filter value: a
    stored array that holds the wildcard [all] matches whatever the
    filter value; a stored array without it matches exactly when the
    filter value is one of its elements; a stored scalar matches exactly
    when it is [all] or the filter value (compared as [String] gives
    them). *)
Theorem relation_filter_match {host : Host} (cat : Category.t)
    (r : ResourceItem.t) (key filterVal : jsstring)
    (fieldDef : FieldDefinition.t) :
  filterVal <> [] ->
  DataManager.findFieldByKey (Category.fields cat) key = Some fieldDef ->
  FieldDefinition.type fieldDef = FieldType.user
  \/ FieldDefinition.type fieldDef = FieldType.project ->
  let step := DataManager.fieldFilterStep cat r key filterVal in
  (forall l, DataManager.itemValue r key = VArr l ->
             VStr (str "all") ∈ l -> matches step)
  /\ (forall l, DataManager.itemValue r key = VArr l ->
                VStr (str "all") ∉ l ->
                (matches step <-> VStr filterVal ∈ l))
  /\ (forall s, DataManager.itemValue r key = VStr s ->
                (matches step <-> s = str "all" \/ s = filterVal))
  /\ (forall v, DataManager.itemValue r key = v ->
                (forall l, v <> VArr l) -> v <> VUndefined -> v <> VNull ->
                (matches step
                 <-> ToString v = str "all" \/ ToString v = filterVal)).
Proof.
  intros Hf Hfind Htype step.
  assert (Hstep : forall v, DataManager.itemValue r key = v ->
                    v <> VUndefined -> v <> VNull ->
                    step = DataManager.relationStep v filterVal).
  { intros v Hv Hu Hn. subst step. unfold DataManager.fieldFilterStep.
    unfold str_eqb. rewrite bool_decide_eq_false_2 by assumption.
    rewrite Hv, Hfind.
    destruct Htype as [-> | ->]; destruct v; congruence. }
  repeat split.
  - intros l Hv Hall. rewrite (Hstep _ Hv) by discriminate.
    rewrite relationStep_array.
    apply arrIncludes_elem in Hall. rewrite Hall. discriminate.
  - rewrite (Hstep _ H) by discriminate. rewrite relationStep_array.
    destruct (arrIncludes l (str "all")) eqn:Hall.
    { apply arrIncludes_elem in Hall. contradiction. }
    destruct (arrIncludes l filterVal) eqn:Hin.
    + intros _. now apply arrIncludes_elem.
    + intros Hm. now destruct Hm.
  - rewrite (Hstep _ H) by discriminate. rewrite relationStep_array.
    destruct (arrIncludes l (str "all")) eqn:Hall.
    { apply arrIncludes_elem in Hall. contradiction. }
    intros Hin. apply arrIncludes_elem in Hin. rewrite Hin. discriminate.
  - rewrite (Hstep _ H) by discriminate.
    intros Hm. apply (relationStep_scalar (VStr s)) in Hm; [exact Hm | discriminate].
  - rewrite (Hstep _ H) by discriminate.
    intros Hs. apply (relationStep_scalar (VStr s)); [discriminate | exact Hs].
  - rewrite (Hstep _ H) by assumption. now apply relationStep_scalar.
  - rewrite (Hstep _ H) by assumption. now apply relationStep_scalar.
Qed.

Lemma relation_filter_match_witness :
  matches (DataManager.fieldFilterStep (host := refHost 0) cat_equipment
             (res_with {[ str "field_2" := VArr [VStr (str "u7"); VStr (str "all")] ]})
             (str "field_2") (str "u1"))
  /\ ~ matches (DataManager.fieldFilterStep (host := refHost 0) cat_equipment
                  (res_with {[ str "field_2" := VArr [VStr (str "u7")] ]})
                  (str "field_2") (str "u1")).
Proof.
  split.
  - refine (proj1 (relation_filter_match (host := refHost 0) cat_equipment
              (res_with {[ str "field_2" := VArr [VStr (str "u7"); VStr (str "all")] ]})
              (str "field_2") (str "u1") fld_owner _ eq_refl (or_introl eq_refl))
              _ eq_refl _).
    + discriminate.
    + right. left.
  - intros Hm.
    apply (proj1 (proj2 (relation_filter_match (host := refHost 0) cat_equipment
              (res_with {[ str "field_2" := VArr [VStr (str "u7")] ]})
              (str "field_2") (str "u1") fld_owner ltac:(discriminate) eq_refl
              (or_introl eq_refl))) _ eq_refl) in Hm.
    + apply list_elem_of_singleton in Hm. discriminate.
    + intros Hin. apply list_elem_of_singleton in Hin. discriminate.
Defined.

Lemma fieldFiltersLoop_all {host : Host} (cat : Category.t)
    (r : ResourceItem.t) (entries : list (jsstring * jsstring)) :
  (forall key filterVal, (key, filterVal) ∈ entries ->
     DataManager.fieldFilterStep cat r key filterVal <> ReturnTrue) ->
  DataManager.fieldFiltersLoop cat r entries = true
  <-> (forall key filterVal, (key, filterVal) ∈ entries ->
         matches (DataManager.fieldFilterStep cat r key filterVal)).
Proof.
  unfold matches.
  induction entries as [|[k v] rest IH]; intros Hnt; cbn.
  - split; [| reflexivity]. intros _ key filterVal Hin. inversion Hin.
  - assert (Hrest : forall key filterVal, (key, filterVal) ∈ rest ->
              DataManager.fieldFilterStep cat r key filterVal <> ReturnTrue).
    { intros key filterVal Hin. apply Hnt. now right. }
    specialize (IH Hrest).
    pose proof (Hnt k v ltac:(left)) as Hkv.
    destruct (DataManager.fieldFilterStep cat r k v) eqn:Hstep.
    + rewrite IH. split.
      * intros Hall key filterVal Hin.
        apply elem_of_cons in Hin as [[= -> ->] | Hin];
          [rewrite Hstep; discriminate | now apply Hall].
      * intros Hall key filterVal Hin. apply Hall. now right.
    + split; [discriminate |]. intros Hall.
      now specialize (Hall k v ltac:(left)).
    + contradiction.
Qed.

(** Where no turn of the loop takes the early [return true], the
    callback keeps exactly the records that satisfy every active
    filter. *)
Lemma filterCallback_conjunction {host : Host} (F : Filters)
    (r : ResourceItem.t) :
  (forall cat key filterVal,
     selectedCategory F = Some cat -> (key, filterVal) ∈ fieldFilters F ->
     DataManager.fieldFilterStep cat r key filterVal <> ReturnTrue) ->
  DataManager.filterCallback F r = true <-> satisfies_all F r.
Proof.
  intros Hnt.
  unfold DataManager.filterCallback, satisfies_all, creator_ok, date_from_ok,
    date_to_ok, field_filters_ok.
  rewrite <- !str_eqb_eq.
  destruct (str_eqb (filterCreator F) []) eqn:Hc; cbn [negb andb].
  2: destruct (includes _ _) eqn:Hinc; cbn [negb];
       [| intuition discriminate].
  all: destruct (str_eqb (filterDateFrom F) []) eqn:Hfrom; cbn [negb andb].
  all: try (destruct (date_lt (newDate (ResourceItem.createdAt r))
              (setHours (newDateOfString (filterDateFrom F)) 0 0 0 0)) eqn:Hlt1;
            [intuition discriminate |]).
  all: destruct (str_eqb (filterDateTo F) []) eqn:Hto; cbn [negb andb].
  all: try (destruct (date_lt
              (setHours (newDateOfString (filterDateTo F)) 23 59 59 999)
              (newDate (ResourceItem.createdAt r))) eqn:Hlt2;
            [intuition discriminate |]).
  all: destruct (selectedCategory F) as [cat|] eqn:Hsel.
  all: first
    [ rewrite (fieldFiltersLoop_all cat r (fieldFilters F))
        by (intros key filterVal Hin; now apply (Hnt cat));
      split;
      [ intros Hall; split; [| split; [| split]];
        [ auto | auto | auto | intros cat' [= <-]; exact Hall ]
      | intros (_ & _ & _ & Hall); now apply Hall ]
    | split; [| reflexivity];
      intros _; split; [| split; [| split]];
      [ auto | auto | auto | intros cat' [=] ] ].
Qed.

(** C1 (the code departs from it). A record whose user field holds an
    array with the wildcard is kept as soon as the loop reaches the
    filter of that field: the turn returns [true] from the whole
    callback, and the filters of the keys after it are not looked at.
    Here the record fails the filter of the boolean field and is kept
    all the same; with the two filters in the other order, or with the
    wildcard stored as a scalar, it is left out. *)
Theorem wildcard_array_skips_later_filters {host : Host} :
  DataManager.fieldFilterStep cat_equipment res_all_done
    (str "field_3") (str "false") = ReturnFalse
  /\ ~ satisfies_all filters_owner_then_done res_all_done
  /\ DataManager.filteredResources filters_owner_then_done [res_all_done]
     = [res_all_done]
  /\ DataManager.filteredResources filters_done_then_owner [res_all_done] = []
  /\ DataManager.filteredResources filters_owner_then_done [res_scalar_all_done]
     = [].
Proof.
  assert (Hstep : DataManager.fieldFilterStep cat_equipment res_all_done
                    (str "field_3") (str "false") = ReturnFalse)
    by reflexivity.
  split; [exact Hstep |]. split.
  - intros (_ & _ & _ & Hall).
    apply (Hall cat_equipment eq_refl (str "field_3") (str "false"));
      [right; left | exact Hstep].
  - repeat split; reflexivity.
Qed.

(** ** The creation-date filter *)

Lemma TimeClip_in_range (t : Z) :
  Z.abs t <= 8640000000000000 -> TimeClip t = Some t.
Proof.
  intros Ht. unfold TimeClip. now rewrite (proj2 (Z.leb_le _ _) Ht).
Qed.

Lemma setHours_day {host : Host} (d time : Z) :
  0 <= LocalTZA < msPerDay ->
  forall h m s ms, time = h * 3600000 + m * 60000 + s * 1000 + ms ->
  setHours (Some (d * msPerDay)) h m s ms
  = TimeClip (d * msPerDay + time - LocalTZA).
Proof.
  intros Htz h m s ms ->. unfold setHours.
  replace ((d * msPerDay + LocalTZA) / msPerDay) with d; [reflexivity |].
  unfold msPerDay in *.
  rewrite Z.add_comm, Z.div_add by discriminate.
  rewrite Z.div_small by lia. reflexivity.
Qed.

(** In a time zone at or east of UTC (less than a day ahead), a date
    filter whose two bounds are read as the days [dFrom] and [dTo] keeps
    exactly the records created from the first millisecond of local day
    [dFrom] to the last millisecond of local day [dTo]. *)
Lemma date_filter_east_of_utc {host : Host} (F : Filters)
    (r : ResourceItem.t) (dFrom dTo : Z) :
  0 <= LocalTZA < msPerDay ->
  filterCreator F = [] -> selectedCategory F = None ->
  filterDateFrom F <> [] -> filterDateTo F <> [] ->
  Date_parse (filterDateFrom F) = Some (dFrom * msPerDay) ->
  Date_parse (filterDateTo F) = Some (dTo * msPerDay) ->
  Z.abs dFrom <= 99999999 -> Z.abs dTo <= 99999999 ->
  Z.abs (ResourceItem.createdAt r) <= 8640000000000000 ->
  DataManager.filterCallback F r = true
  <-> startOfLocalDay dFrom <= ResourceItem.createdAt r <= endOfLocalDay dTo.
Proof.
  intros Htz Hc Hsel Hfrom Hto Hpf Hpt Hdf Hdt Hcr.
  unfold DataManager.filterCallback, newDateOfString, newDate.
  rewrite Hc, Hsel, Hpf, Hpt. unfold str_eqb at 1.
  rewrite bool_decide_eq_true_2 by reflexivity. cbn [negb andb].
  unfold str_eqb. rewrite !bool_decide_eq_false_2 by assumption.
  cbn [negb andb].
  rewrite !TimeClip_in_range by (unfold msPerDay; lia).
  rewrite (setHours_day dFrom 0 Htz 0 0 0 0 eq_refl).
  rewrite (setHours_day dTo 86399999 Htz 23 59 59 999 eq_refl).
  unfold startOfLocalDay, endOfLocalDay, msPerDay in *.
  rewrite !TimeClip_in_range by lia.
  cbn [date_lt].
  destruct (Z.ltb_spec (ResourceItem.createdAt r) (dFrom * 86400000 + 0 - LocalTZA));
    [split; [discriminate | lia] |].
  destruct (Z.ltb_spec (dTo * 86400000 + 86399999 - LocalTZA) (ResourceItem.createdAt r));
    [split; [discriminate | lia] |].
  split; [lia | reflexivity].
Qed.

Lemma setHours_day_before {host : Host} (d time : Z) :
  - msPerDay <= LocalTZA < 0 ->
  forall h m s ms, time = h * 3600000 + m * 60000 + s * 1000 + ms ->
  setHours (Some (d * msPerDay)) h m s ms
  = TimeClip ((d - 1) * msPerDay + time - LocalTZA).
Proof.
  intros Htz h m s ms ->. unfold setHours.
  replace ((d * msPerDay + LocalTZA) / msPerDay) with (d - 1); [reflexivity |].
  unfold msPerDay in *.
  replace (d * 86400000 + LocalTZA)
    with ((LocalTZA + 86400000) + (d - 1) * 86400000) by lia.
  rewrite Z.div_add by discriminate.
  rewrite Z.div_small by lia. reflexivity.
Qed.

(** West of UTC (by at most a day) the same filter keeps exactly the
    records of the local days before [dFrom] and [dTo]. *)
Lemma date_filter_west_of_utc {host : Host} (F : Filters)
    (r : ResourceItem.t) (dFrom dTo : Z) :
  - msPerDay <= LocalTZA < 0 ->
  filterCreator F = [] -> selectedCategory F = None ->
  filterDateFrom F <> [] -> filterDateTo F <> [] ->
  Date_parse (filterDateFrom F) = Some (dFrom * msPerDay) ->
  Date_parse (filterDateTo F) = Some (dTo * msPerDay) ->
  Z.abs dFrom <= 99999998 -> Z.abs dTo <= 99999998 ->
  Z.abs (ResourceItem.createdAt r) <= 8640000000000000 ->
  DataManager.filterCallback F r = true
  <-> startOfLocalDay (dFrom - 1) <= ResourceItem.createdAt r
      <= endOfLocalDay (dTo - 1).
Proof.
  intros Htz Hc Hsel Hfrom Hto Hpf Hpt Hdf Hdt Hcr.
  unfold DataManager.filterCallback, newDateOfString, newDate.
  rewrite Hc, Hsel, Hpf, Hpt. unfold str_eqb at 1.
  rewrite bool_decide_eq_true_2 by reflexivity. cbn [negb andb].
  unfold str_eqb. rewrite !bool_decide_eq_false_2 by assumption.
  cbn [negb andb].
  rewrite !TimeClip_in_range by (unfold msPerDay; lia).
  rewrite (setHours_day_before dFrom 0 Htz 0 0 0 0 eq_refl).
  rewrite (setHours_day_before dTo 86399999 Htz 23 59 59 999 eq_refl).
  unfold startOfLocalDay, endOfLocalDay, msPerDay in *.
  rewrite !TimeClip_in_range by lia.
  cbn [date_lt].
  destruct (Z.ltb_spec (ResourceItem.createdAt r)
              ((dFrom - 1) * 86400000 + 0 - LocalTZA));
    [split; [discriminate | lia] |].
  destruct (Z.ltb_spec ((dTo - 1) * 86400000 + 86399999 - LocalTZA)
              (ResourceItem.createdAt r));
    [split; [discriminate | lia] |].
  split; [lia | reflexivity].
Qed.

(** C5 (the code departs from it). The bounds of the date filter are
    read as midnight UTC of the chosen days and then moved to the start
    and end of the local day holding that instant. West of UTC that is
    the day before: five hours west, with both bounds set to
    2024-01-15, a record created at local noon of 2024-01-15 (which is
    also inside that day in UTC) is left out, and a record created at
    local noon of 2024-01-14 is kept. Seven hours east the same filter
    keeps exactly the records of local 2024-01-15, both ends included. *)
Theorem single_day_filter_west_of_utc :
  let noon15 := 1705338000000 in
  let noon14 := 1705251600000 in
  parseIsoDate (filterDateFrom filters_one_day) = Some (19737 * msPerDay)
  /\ parseIsoDate (filterDateTo filters_one_day) = Some (19737 * msPerDay)
  /\ (startOfLocalDay (host := refHost tza_minus5) 19737 <= noon15
      <= endOfLocalDay (host := refHost tza_minus5) 19737)
  /\ (startOfUtcDay 19737 <= noon15 <= endOfUtcDay 19737)
  /\ DataManager.filteredResources (host := refHost tza_minus5) filters_one_day
       [res_created_at noon15] = []
  /\ ~ (startOfLocalDay (host := refHost tza_minus5) 19737 <= noon14)
  /\ DataManager.filteredResources (host := refHost tza_minus5) filters_one_day
       [res_created_at noon14] = [res_created_at noon14]
  /\ DataManager.filteredResources (host := refHost tza_plus7) filters_one_day
       [res_created_at (startOfLocalDay (host := refHost tza_plus7) 19737 - 1);
        res_created_at (startOfLocalDay (host := refHost tza_plus7) 19737);
        res_created_at (endOfLocalDay (host := refHost tza_plus7) 19737);
        res_created_at (endOfLocalDay (host := refHost tza_plus7) 19737 + 1)]
     = [res_created_at (startOfLocalDay (host := refHost tza_plus7) 19737);
        res_created_at (endOfLocalDay (host := refHost tza_plus7) 19737)].
Proof.
  cbv zeta. repeat split;
    vm_compute;
    first [ reflexivity | discriminate
          | let H := fresh in intros H; apply H; reflexivity ].
Qed.

(** ** The CSV round trip *)

(** C3 (as stated, it fails). A text value that holds a quote does not
    come back: the export doubles the quote and the line parser of the
    import drops every quote, so the note [say ] followed by a quoted
    [hi] is imported as [say hi]. *)
Lemma csv_round_trip_loses_quotes :
  ~ round_trip_at (host := refHost 0) [] [] cat_notes [res_note_quote].
Proof.
  intros Hrt.
  specialize (Hrt 0%nat res_note_quote fld_note eq_refl ltac:(left)).
  vm_compute in Hrt. specialize (Hrt _ eq_refl). discriminate.
Qed.

(** What else the import does to a text value: a line feed inside it
    ends the row, white space at its ends is trimmed, and the unquoted
    cell of a relation field with two ids holds a comma that moves the
    columns after it. *)
Example csv_round_trip_breaks_lines :
  ~ round_trip_at (host := refHost 0) [] [] cat_notes [res_note_lines].
Proof.
  intros Hrt.
  specialize (Hrt 0%nat res_note_lines fld_note eq_refl ltac:(left)).
  vm_compute in Hrt. specialize (Hrt _ eq_refl). discriminate.
Qed.

Example csv_round_trip_trims :
  ~ round_trip_at (host := refHost 0) [] [] cat_notes [res_note_spaces].
Proof.
  intros Hrt.
  specialize (Hrt 0%nat res_note_spaces fld_note eq_refl ltac:(left)).
  vm_compute in Hrt. specialize (Hrt _ eq_refl). discriminate.
Qed.

Example csv_round_trip_shifted_columns :
  ~ round_trip_at (host := refHost 0) [] [] cat_owned_notes [res_two_owners].
Proof.
  intros Hrt.
  specialize (Hrt 0%nat res_two_owners fld_note eq_refl ltac:(right; left)).
  vm_compute in Hrt. specialize (Hrt _ eq_refl). discriminate.
Qed.

Lemma trimStart_app_stop (x y : jsstring) (c : N) :
  isWhiteSpace c = false ->
  trimStart (x ++ c :: y) = trimStart x ++ c :: y.
Proof.
  intros Hc. induction x as [|a x IH]; cbn [trimStart app].
  - now rewrite Hc.
  - destruct (isWhiteSpace a); [exact IH | reflexivity].
Qed.

Lemma trimEnd_app_stop (x y : jsstring) (c : N) :
  isWhiteSpace c = false ->
  trimEnd (x ++ c :: y) = x ++ c :: trimEnd y.
Proof.
  intros Hc. unfold trimEnd.
  rewrite reverse_app, reverse_cons, <- app_assoc. cbn [app].
  rewrite trimStart_app_stop by exact Hc.
  rewrite reverse_app, reverse_cons, reverse_involutive.
  now rewrite <- app_assoc.
Qed.

Lemma trim_row (a m z : jsstring) :
  trim (a ++ COMMA :: m ++ COMMA :: z)
  = trimStart a ++ COMMA :: m ++ COMMA :: trimEnd z.
Proof.
  unfold trim. rewrite trimStart_app_stop by reflexivity.
  rewrite trimEnd_app_stop by reflexivity.
  now rewrite trimEnd_app_stop by reflexivity.
Qed.


Lemma splitLines_line (l rest : jsstring) :
  LF ∉ l ->
  DataManager.splitLines (l ++ LF :: rest) = l :: DataManager.splitLines rest.
Proof.
  induction l as [|c l IH]; intros Hl; cbn.
  - reflexivity.
  - apply not_elem_of_cons in Hl as [Hc Hl].
    destruct (N.eqb_spec c LF) as [-> | _]; [congruence |].
    now rewrite (IH Hl).
Qed.

Lemma splitLines_single (l : jsstring) :
  LF ∉ l -> DataManager.splitLines l = [l].
Proof.
  induction l as [|c l IH]; intros Hl; cbn; [reflexivity |].
  apply not_elem_of_cons in Hl as [Hc Hl].
  destruct (N.eqb_spec c LF) as [-> | _]; [congruence |].
  now rewrite (IH Hl).
Qed.

Lemma splitLines_join (ls : list jsstring) :
  ls <> [] -> Forall (fun l => LF ∉ l) ls ->
  DataManager.splitLines (join [LF] ls) = ls.
Proof.
  induction ls as [|l ls IH]; intros Hne Hall; [congruence |].
  inversion Hall as [|? ? Hl Hls]; subst.
  destruct ls as [|l' ls].
  - cbn. now apply splitLines_single.
  - change (join [LF] (l :: l' :: ls)) with (l ++ LF :: join [LF] (l' :: ls)).
    rewrite splitLines_line by exact Hl.
    now rewrite IH.
Qed.

Lemma join_app_cons (sep : jsstring) (xs : list jsstring) (y : jsstring)
    (ys : list jsstring) :
  join sep (xs ++ y :: ys)
  = foldr (fun c acc => c ++ sep ++ acc) (join sep (y :: ys)) xs.
Proof.
  induction xs as [|x xs IH]; [reflexivity |].
  cbn [foldr]. rewrite <- IH.
  destruct xs; reflexivity.
Qed.

Lemma insideQuotes_no_quote (s : jsstring) :
  DQUOTE ∉ s -> insideQuotes s = false.
Proof.
  induction s as [|c s IH]; intros Hs; [reflexivity |].
  apply not_elem_of_cons in Hs as [Hc Hs].
  rewrite insideQuotes_cons.
  destruct (N.eqb_spec c DQUOTE); [congruence | now apply IH].
Qed.

Lemma dropQuotes_no_quote (s : jsstring) :
  DQUOTE ∉ s -> dropQuotes s = s.
Proof.
  induction s as [|c s IH]; intros Hs; [reflexivity |].
  apply not_elem_of_cons in Hs as [Hc Hs].
  unfold dropQuotes in *. cbn.
  destruct (N.eqb_spec c DQUOTE); [congruence |].
  cbn. now rewrite IH.
Qed.

Lemma atomic_plain (c : jsstring) : plain c -> atomic c c.
Proof.
  intros (Hcomma & Hquote & _). split.
  - now apply insideQuotes_no_quote.
  - rewrite fieldsFrom_one.
    + now rewrite dropQuotes_no_quote.
    + intros a b ->. exfalso. apply Hcomma.
      apply elem_of_app. right. left.
Qed.

Lemma insideQuotes_app (a b : jsstring) :
  insideQuotes (a ++ b) = xorb (insideQuotes a) (insideQuotes b).
Proof.
  induction a as [|c a IH]; [reflexivity |].
  cbn [app]. rewrite !insideQuotes_cons, IH.
  destruct (c =? DQUOTE)%N; [| reflexivity].
  now destruct (insideQuotes a), (insideQuotes b).
Qed.

Lemma insideQuotes_doubleQuotes (v : jsstring) :
  insideQuotes (DataManager.doubleQuotes v) = false.
Proof.
  induction v as [|c v IH]; [reflexivity |].
  unfold DataManager.doubleQuotes in *. cbn [flat_map].
  rewrite insideQuotes_app, IH, xorb_false_r.
  destruct (N.eqb_spec c DQUOTE) as [-> | Hc]; [reflexivity |].
  rewrite insideQuotes_cons.
  destruct (N.eqb_spec c DQUOTE); [congruence | reflexivity].
Qed.

Lemma fieldsFrom_quoted_body (v : jsstring) :
  fieldsFrom (DataManager.doubleQuotes v ++ [DQUOTE]) true = [dropQuotes v].
Proof.
  induction v as [|c v IH]; [reflexivity |].
  unfold DataManager.doubleQuotes, dropQuotes in *. cbn [flat_map List.filter].
  destruct (N.eqb_spec c DQUOTE) as [-> | Hc].
  - cbn [negb app]. cbn [fieldsFrom]. cbn. exact IH.
  - cbn [negb app]. cbn [fieldsFrom].
    destruct (N.eqb_spec c DQUOTE); [congruence |].
    rewrite andb_false_r. now rewrite IH.
Qed.

Lemma atomic_quoted (v : jsstring) :
  atomic ([DQUOTE] ++ DataManager.doubleQuotes v ++ [DQUOTE]) (dropQuotes v).
Proof.
  split.
  - rewrite !insideQuotes_app, insideQuotes_doubleQuotes. reflexivity.
  - cbn. apply fieldsFrom_quoted_body.
Qed.

Lemma dropQuotes_doubleQuotes (v : jsstring) :
  dropQuotes (DataManager.doubleQuotes v) = dropQuotes v.
Proof.
  induction v as [|c v IH]; [reflexivity |].
  unfold DataManager.doubleQuotes, dropQuotes in *. cbn [flat_map List.filter].
  rewrite List.filter_app, IH.
  destruct (N.eqb_spec c DQUOTE) as [-> | Hc]; [reflexivity |].
  cbn. destruct (N.eqb_spec c DQUOTE); [congruence | reflexivity].
Qed.

Lemma dropQuotes_quoted (v : jsstring) :
  dropQuotes ([DQUOTE] ++ DataManager.doubleQuotes v ++ [DQUOTE])
  = dropQuotes v.
Proof.
  unfold dropQuotes. rewrite !List.filter_app. cbn. rewrite app_nil_r.
  apply dropQuotes_doubleQuotes.
Qed.

Lemma dropQuotes_no_quotes_left (s : jsstring) : DQUOTE ∉ dropQuotes s.
Proof.
  unfold dropQuotes. intros Hin. apply list_elem_of_In in Hin.
  apply filter_In in Hin as [_ Hin]. now rewrite N.eqb_refl in Hin.
Qed.

Lemma doubleQuotes_no_LF (v : jsstring) :
  LF ∉ v -> LF ∉ DataManager.doubleQuotes v.
Proof.
  induction v as [|c v IH]; intros Hv; [exact Hv |].
  apply not_elem_of_cons in Hv as [Hc Hv].
  unfold DataManager.doubleQuotes in *. cbn [flat_map].
  rewrite elem_of_app. intros [Hin | Hin]; [| now apply IH].
  destruct (c =? DQUOTE)%N.
  - rewrite !elem_of_cons in Hin.
    destruct Hin as [Hin | [Hin | Hin]]; [discriminate | discriminate |].
    inversion Hin.
  - apply list_elem_of_singleton in Hin. congruence.
Qed.

Lemma fieldsFrom_cellsThen (cells vals : list jsstring) (rest : jsstring) :
  Forall2 atomic cells vals ->
  fieldsFrom (cellsThen cells rest) false = vals ++ fieldsFrom rest false.
Proof.
  induction 1 as [|c v cells vals [Hq Hc] _ IH]; [reflexivity |].
  cbn [cellsThen foldr]. rewrite fieldsFrom_split by now rewrite Hq.
  fold (cellsThen cells rest). now rewrite Hc, IH.
Qed.

Lemma find_unique {A B : Type} `{EqDecision B} (phi : A -> B) (l : list A)
    (x : A) :
  NoDup (phi <$> l) -> x ∈ l ->
  List.find (fun y => bool_decide (phi y = phi x)) l = Some x.
Proof.
  induction l as [|a l IH]; intros Hnd Hx; [inversion Hx |].
  cbn in Hnd. apply NoDup_cons in Hnd as [Ha Hnd].
  cbn. apply elem_of_cons in Hx as [-> | Hx].
  - now rewrite bool_decide_eq_true_2.
  - rewrite bool_decide_eq_false_2; [now apply IH |].
    intros Heq. apply Ha. rewrite Heq. now apply list_elem_of_fmap_2.
Qed.

Lemma find_none {A : Type} (p : A -> bool) (l : list A) :
  (forall y, y ∈ l -> p y = false) -> List.find p l = None.
Proof.
  induction l as [|a l IH]; intros Hall; [reflexivity |].
  cbn. rewrite (Hall a) by left. apply IH. intros y Hy. apply Hall. now right.
Qed.

Lemma stripQuotes_no_quote (s : jsstring) :
  DQUOTE ∉ s -> DataManager.stripQuotes s = s.
Proof.
  intros Hs. unfold DataManager.stripQuotes.
  assert (Hhead : match s with
                  | c :: s' => if (c =? DQUOTE)%N then s' else s
                  | [] => []
                  end = s).
  { destruct s as [|c s']; [reflexivity |].
    apply not_elem_of_cons in Hs as [Hc _].
    destruct (N.eqb_spec c DQUOTE); [congruence | reflexivity]. }
  rewrite Hhead.
  destruct (reverse s) as [|c r] eqn:Hrev; [reflexivity |].
  destruct (N.eqb_spec c DQUOTE) as [-> | _]; [| reflexivity].
  exfalso. apply Hs. apply elem_of_reverse. rewrite Hrev. left.
Qed.

Section ImportLemmas.
Context {host : Host}.
Variable projects : list Project.t.
Variable users : list User.t.

Lemma mapHeaders_app (fs : list FieldDefinition.t) (i : nat)
    (hs1 hs2 : list jsstring) :
  DataManager.mapHeaders fs i (hs1 ++ hs2)
  = DataManager.mapHeaders fs i hs1
    ++ DataManager.mapHeaders fs (i + length hs1) hs2.
Proof.
  revert i. induction hs1 as [|h hs1 IH]; intros i; cbn.
  - now rewrite Nat.add_0_r.
  - rewrite IH. replace (S i + length hs1)%nat with (i + S (length hs1))%nat by lia.
    now destruct (List.find _ fs).
Qed.

Lemma mapHeaders_unmatched (fs : list FieldDefinition.t) (i : nat)
    (h : jsstring) (hs : list jsstring) :
  (forall f, f ∈ fs -> toLowerCase (FieldDefinition.name f) <> toLowerCase h) ->
  DataManager.mapHeaders fs i (h :: hs) = DataManager.mapHeaders fs (S i) hs.
Proof.
  intros Hno. cbn. rewrite find_none; [reflexivity |].
  intros f Hf. apply bool_decide_eq_false_2. now apply Hno.
Qed.

Lemma mapHeaders_names (fs sub : list FieldDefinition.t) (i : nat) :
  NoDup ((fun f => toLowerCase (FieldDefinition.name f)) <$> fs) ->
  (forall f, f ∈ sub -> f ∈ fs) ->
  DataManager.mapHeaders fs i (FieldDefinition.name <$> sub)
  = indexedKeys i sub.
Proof.
  intros Hnd. revert i. induction sub as [|f sub IH]; intros i Hsub;
    [reflexivity |].
  cbn [fmap list_fmap DataManager.mapHeaders indexedKeys].
  change (fun f0 => str_eqb (toLowerCase (FieldDefinition.name f0))
                            (toLowerCase (FieldDefinition.name f)))
    with (fun f0 => bool_decide
                      ((fun g => toLowerCase (FieldDefinition.name g)) f0
                       = (fun g => toLowerCase (FieldDefinition.name g)) f)).
  rewrite (find_unique (fun g => toLowerCase (FieldDefinition.name g)) fs f Hnd)
    by (apply Hsub; left).
  f_equal. apply IH. intros g Hg. apply Hsub. now right.
Qed.

Lemma indexedKeys_keys (i : nat) (fs : list FieldDefinition.t) :
  snd <$> indexedKeys i fs = FieldDefinition.key <$> fs.
Proof.
  revert i. induction fs as [|f fs IH]; intros i; [reflexivity |].
  cbn. now rewrite IH.
Qed.


Lemma importCells_other (fs : list FieldDefinition.t) (values : list jsstring)
    (fm : list (nat * jsstring)) (acc : gmap jsstring JsVal) (k : jsstring) :
  k ∉ (snd <$> fm) ->
  DataManager.importCells projects users fs values fm acc !! k = acc !! k.
Proof.
  revert acc. induction fm as [|[idx key] fm IH]; intros acc Hk; [reflexivity |].
  cbn in Hk. apply not_elem_of_cons in Hk as [Hne Hk].
  cbn. destruct (List.find _ fs).
  - rewrite IH by exact Hk. now rewrite lookup_insert_ne.
  - now apply IH.
Qed.

Lemma importCells_last (fs : list FieldDefinition.t) (values : list jsstring)
    (fm1 fm2 : list (nat * jsstring)) (acc : gmap jsstring JsVal)
    (idx : nat) (k : jsstring) (fd : FieldDefinition.t) :
  k ∉ (snd <$> fm2) ->
  DataManager.findFieldByKey fs k = Some fd ->
  DataManager.importCells projects users fs values (fm1 ++ (idx, k) :: fm2) acc
    !! k
  = Some (DataManager.importValue projects users fd
            (DataManager.stripQuotes (trim (default [] (values !! idx))))).
Proof.
  intros Hfresh Hfind. revert acc.
  induction fm1 as [|[idx' key'] fm1 IH]; intros acc.
  - cbn. unfold DataManager.findFieldByKey in Hfind. rewrite Hfind.
    rewrite importCells_other by exact Hfresh.
    apply lookup_insert_eq.
  - cbn. destruct (List.find _ fs); apply IH.
Qed.

Lemma indexedKeys_app (i : nat) (a b : list FieldDefinition.t) :
  indexedKeys i (a ++ b) = indexedKeys i a ++ indexedKeys (i + length a) b.
Proof.
  revert i. induction a as [|f a IH]; intros i; cbn.
  - now rewrite Nat.add_0_r.
  - rewrite IH. now replace (S i + length a)%nat with (i + S (length a))%nat by lia.
Qed.

Lemma indexedKeys_split (i j : nat) (fs : list FieldDefinition.t)
    (f : FieldDefinition.t) :
  NoDup (FieldDefinition.key <$> fs) -> fs !! j = Some f ->
  exists pre post,
    indexedKeys i fs = pre ++ ((i + j)%nat, FieldDefinition.key f) :: post
    /\ FieldDefinition.key f ∉ (snd <$> post).
Proof.
  intros Hnd Hj.
  pose proof (take_drop_middle fs j f Hj) as Hfs.
  exists (indexedKeys i (take j fs)),
         (indexedKeys (S (i + j)) (drop (S j) fs)).
  assert (Hlen : length (take j fs) = j).
  { rewrite length_take. apply lookup_lt_Some in Hj. lia. }
  split.
  - rewrite <- Hfs at 1. rewrite indexedKeys_app, Hlen. reflexivity.
  - rewrite indexedKeys_keys. rewrite <- Hfs in Hnd.
    rewrite fmap_app, fmap_cons in Hnd.
    apply NoDup_app in Hnd as (_ & _ & Hnd).
    now apply NoDup_cons in Hnd as [Hnot _].
Qed.

End ImportLemmas.

Ltac decide_list_fact :=
  match goal with
  | |- ?P => refine (bool_decide_unpack P _); vm_compute; exact I
  end.

Lemma plain_LABEL_YES : plain LABEL_YES.
Proof. repeat split; decide_list_fact. Qed.

Lemma plain_LABEL_NO : plain LABEL_NO.
Proof. repeat split; decide_list_fact. Qed.


Lemma atomic_plain_drop (c : jsstring) : plain c -> atomic c (dropQuotes c).
Proof.
  intros Hc. rewrite dropQuotes_no_quote by apply Hc. now apply atomic_plain.
Qed.

Lemma trimStart_elem (s : jsstring) (x : N) : x ∈ trimStart s -> x ∈ s.
Proof.
  induction s as [|c s IH]; cbn; [trivial |].
  destruct (isWhiteSpace c); [| trivial].
  intros Hx. right. now apply IH.
Qed.

Lemma plain_trimStart (s : jsstring) : plain s -> plain (trimStart s).
Proof.
  intros (H1 & H2 & H3).
  repeat split; intros Hin; apply trimStart_elem in Hin; contradiction.
Qed.

Lemma trim_elem (s : jsstring) (x : N) : x ∈ trim s -> x ∈ s.
Proof.
  unfold trim, trimEnd. rewrite elem_of_reverse. intros Hx.
  apply trimStart_elem in Hx. rewrite elem_of_reverse in Hx.
  now apply trimStart_elem.
Qed.

Lemma cellsThen_app_rest (cells : list jsstring) (x y : jsstring) :
  cellsThen cells (x ++ y) = cellsThen cells x ++ y.
Proof.
  induction cells as [|c cells IH]; [reflexivity |].
  cbn [cellsThen foldr]. fold (cellsThen cells (x ++ y)).
  fold (cellsThen cells x). rewrite IH. now rewrite <- app_assoc.
Qed.

Lemma cellsThen_no_LF (cells : list jsstring) (rest : jsstring) :
  Forall (fun c => LF ∉ c) cells -> LF ∉ rest -> LF ∉ cellsThen cells rest.
Proof.
  induction 1 as [|c cells Hc _ IH]; intros Hrest; [exact Hrest |].
  cbn [cellsThen foldr]. fold (cellsThen cells rest).
  rewrite elem_of_app, elem_of_cons.
  intros [Hin | [Heq | Hin]]; [contradiction | discriminate |].
  now apply IH.
Qed.

Section RoundTrip.
Context {host : Host}.
Variable projects : list Project.t.
Variable users : list User.t.

Lemma exportRow_shape (fs : list FieldDefinition.t) (r : ResourceItem.t) :
  DataManager.exportRow projects users fs r
  = ResourceItem.id r
    ++ COMMA :: cellsThen (cellText projects users r <$> fs)
                  (ResourceItem.createdBy r
                   ++ COMMA :: toLocaleString (ResourceItem.createdAt r)).
Proof.
  unfold DataManager.exportRow, arrayJoin.
  rewrite !fmap_app, app_assoc.
  cbn [fmap list_fmap joinElem ToString].
  rewrite join_app_cons. rewrite <- list_fmap_compose.
  cbn [app foldr]. reflexivity.
Qed.

Lemma exportHeaders_shape (fs : list FieldDefinition.t) :
  join [COMMA] (DataManager.exportHeaders fs)
  = str "ID" ++ COMMA :: cellsThen (FieldDefinition.name <$> fs)
                           (HDR_CREATOR ++ COMMA :: HDR_CREATED).
Proof.
  unfold DataManager.exportHeaders.
  rewrite app_assoc, join_app_cons. reflexivity.
Qed.

Lemma cell_atomic (r : ResourceItem.t) (f : FieldDefinition.t) :
  csv_safe_cell projects users r f ->
  (LF ∉ cellText projects users r f)
  /\ atomic (cellText projects users r f)
            (dropQuotes (cellText projects users r f)).
Proof.
  unfold csv_safe_cell.
  assert (Hplain : plain (cellText projects users r f) ->
            (LF ∉ cellText projects users r f)
            /\ atomic (cellText projects users r f)
                      (dropQuotes (cellText projects users r f))).
  { intros Hp. split; [apply Hp | now apply atomic_plain_drop]. }
  assert (Hquoted : forall v,
            cellText projects users r f
            = [DQUOTE] ++ DataManager.doubleQuotes v ++ [DQUOTE] ->
            (LF ∉ v) ->
            (LF ∉ cellText projects users r f)
            /\ atomic (cellText projects users r f)
                      (dropQuotes (cellText projects users r f))).
  { intros v -> Hl. rewrite dropQuotes_quoted. split.
    - rewrite !elem_of_app, !list_elem_of_singleton.
      intros [Heq | [Hin | Heq]]; [discriminate | | discriminate].
      now apply (doubleQuotes_no_LF v Hl).
    - apply atomic_quoted. }
  unfold cellText in *. unfold DataManager.exportCell in *.
  destruct (FieldDefinition.type f);
    destruct (DataManager.dataValue r (FieldDefinition.key f)) as [| | b | n | v | l];
    intros Hsafe;
    try (apply Hplain; exact Hsafe);
    try (now apply (Hquoted v));
    try (apply Hplain; cbn [joinElem ToString]; apply plain_LABEL_NO).
  apply Hplain. destruct (str_eqb v (str "true")); cbn [joinElem ToString];
    [apply plain_LABEL_YES | apply plain_LABEL_NO].
Qed.

Lemma filter_nonempty_all (ls : list jsstring) :
  Forall (fun l => l <> []) ls ->
  List.filter (fun l => negb (str_eqb l [])) ls = ls.
Proof.
  induction 1 as [|l ls Hl _ IH]; [reflexivity |].
  cbn. unfold str_eqb at 1. rewrite bool_decide_eq_false_2 by exact Hl.
  cbn. now rewrite IH.
Qed.

Lemma trim_exportRow (fs : list FieldDefinition.t) (r : ResourceItem.t) :
  trim (DataManager.exportRow projects users fs r)
  = trimStart (ResourceItem.id r)
    ++ COMMA :: cellsThen (cellText projects users r <$> fs)
                  (ResourceItem.createdBy r
                   ++ COMMA :: trimEnd (toLocaleString (ResourceItem.createdAt r))).
Proof.
  rewrite exportRow_shape.
  rewrite (cellsThen_app_rest _ (ResourceItem.createdBy r)
             (COMMA :: toLocaleString (ResourceItem.createdAt r))).
  rewrite trim_row.
  now rewrite (cellsThen_app_rest _ (ResourceItem.createdBy r)
                 (COMMA :: trimEnd (toLocaleString (ResourceItem.createdAt r)))).
Qed.

Lemma trim_header (fs : list FieldDefinition.t) :
  trim ([BOM] ++ join [COMMA] (DataManager.exportHeaders fs))
  = join [COMMA] (DataManager.exportHeaders fs).
Proof.
  rewrite exportHeaders_shape.
  rewrite (cellsThen_app_rest _ HDR_CREATOR (COMMA :: HDR_CREATED)).
  change ([BOM] ++ str "ID" ++ COMMA :: cellsThen (FieldDefinition.name <$> fs) HDR_CREATOR
            ++ COMMA :: HDR_CREATED)
    with ((BOM :: str "ID") ++ COMMA :: cellsThen (FieldDefinition.name <$> fs) HDR_CREATOR
            ++ COMMA :: HDR_CREATED).
  rewrite trim_row. reflexivity.
Qed.

Lemma parse_header (cat : Category.t) :
  csv_safe_category cat ->
  (fun h => DataManager.stripQuotes (trim h))
    <$> DataManager.parseCSVLine
          (join [COMMA] (DataManager.exportHeaders (Category.fields cat)))
  = DataManager.exportHeaders (Category.fields cat).
Proof.
  intros Hcat. rewrite exportHeaders_shape, parseCSVLine_fieldsFrom.
  rewrite fieldsFrom_split by reflexivity.
  rewrite (fieldsFrom_cellsThen _ (FieldDefinition.name <$> Category.fields cat)).
  2:{ apply Forall2_fmap, Forall2_same_length_lookup_2; [reflexivity |].
      intros i f g Hf Hg. rewrite Hf in Hg. injection Hg as <-.
      apply atomic_plain, (names_plain cat Hcat).
      apply list_elem_of_lookup. eauto. }
  change (fieldsFrom (str "ID") false) with [str "ID"].
  change (fieldsFrom (HDR_CREATOR ++ COMMA :: HDR_CREATED) false)
    with [HDR_CREATOR; HDR_CREATED].
  unfold DataManager.exportHeaders. rewrite !fmap_app. f_equal. f_equal.
  rewrite <- list_fmap_compose.
  apply list_fmap_ext. intros i f Hf. cbn.
  destruct (names_plain cat Hcat f) as [(_ & Hq & _) Htrim].
  { apply list_elem_of_lookup. eauto. }
  rewrite Htrim. now apply stripQuotes_no_quote.
Qed.

Lemma mapHeaders_export (cat : Category.t) :
  csv_safe_category cat ->
  DataManager.mapHeaders (Category.fields cat) 0
    (DataManager.exportHeaders (Category.fields cat))
  = DataManager.mapHeaders (Category.fields cat) 0 [str "ID"]
    ++ indexedKeys 1 (Category.fields cat).
Proof.
  intros Hcat. unfold DataManager.exportHeaders.
  rewrite mapHeaders_app. f_equal. cbn [length Nat.add].
  rewrite mapHeaders_app.
  rewrite mapHeaders_names; [| apply (names_distinct cat Hcat) | trivial].
  rewrite mapHeaders_unmatched
    by (intros f Hf; apply (names_not_fixed cat Hcat f Hf)).
  rewrite mapHeaders_unmatched
    by (intros f Hf; apply (names_not_fixed cat Hcat f Hf)).
  cbn. now rewrite app_nil_r.
Qed.

Lemma parse_row (cat : Category.t) (r : ResourceItem.t) :
  csv_safe_resource projects users cat r ->
  exists rest,
    DataManager.parseCSVLine
      (trim (DataManager.exportRow projects users (Category.fields cat) r))
    = trimStart (ResourceItem.id r)
      :: ((fun f => dropQuotes (cellText projects users r f))
            <$> Category.fields cat)
      ++ rest.
Proof.
  intros (Hid & _ & _ & Hcells).
  rewrite trim_exportRow, parseCSVLine_fieldsFrom.
  destruct (atomic_plain _ (plain_trimStart _ Hid)) as [Hq Hone].
  rewrite fieldsFrom_split by now rewrite Hq.
  rewrite Hone.
  erewrite fieldsFrom_cellsThen.
  - cbn [app]. eexists. reflexivity.
  - apply Forall2_fmap, Forall2_same_length_lookup_2; [reflexivity |].
    intros i f g Hf Hg. rewrite Hf in Hg. injection Hg as <-.
    apply cell_atomic, Hcells. apply list_elem_of_lookup. eauto.
Qed.

Lemma exportRow_no_LF (cat : Category.t) (r : ResourceItem.t) :
  csv_safe_resource projects users cat r ->
  LF ∉ DataManager.exportRow projects users (Category.fields cat) r.
Proof.
  intros ((_ & _ & Hid) & Hcb & Hts & Hcells).
  rewrite exportRow_shape, elem_of_app, elem_of_cons.
  intros [Hin | [Heq | Hin]]; [contradiction | discriminate |].
  revert Hin. apply cellsThen_no_LF.
  - apply Forall_fmap, Forall_forall. intros f Hf. cbn.
    now apply cell_atomic, Hcells.
  - rewrite elem_of_app, elem_of_cons.
    intros [Hin | [Heq | Hin]]; [contradiction | discriminate | contradiction].
Qed.

Lemma exportHeaders_no_LF (cat : Category.t) :
  csv_safe_category cat ->
  LF ∉ [BOM] ++ join [COMMA] (DataManager.exportHeaders (Category.fields cat)).
Proof.
  intros Hcat. rewrite exportHeaders_shape.
  rewrite elem_of_app, list_elem_of_singleton.
  intros [Heq | Hin]; [discriminate |]. revert Hin.
  rewrite elem_of_app, elem_of_cons.
  intros [Hin | [Heq | Hin]]; [| discriminate |].
  - revert Hin. decide_list_fact.
  - revert Hin. apply cellsThen_no_LF; [| decide_list_fact].
    apply Forall_fmap, Forall_forall. intros f Hf. cbn.
    apply (names_plain cat Hcat f Hf).
Qed.

Lemma importCSV_export (cat : Category.t) (rs : list ResourceItem.t) :
  csv_safe_category cat ->
  Forall (csv_safe_resource projects users cat) rs ->
  rs <> [] -> Category.fields cat <> [] ->
  DataManager.importCSV projects users cat
    (DataManager.exportCSV projects users cat rs)
  = DataManager.ImportRows
      ((fun r =>
          DataManager.importCells projects users (Category.fields cat)
            (DataManager.parseCSVLine
               (trim (DataManager.exportRow projects users
                        (Category.fields cat) r)))
            (DataManager.mapHeaders (Category.fields cat) 0 [str "ID"]
             ++ indexedKeys 1 (Category.fields cat)) ∅) <$> rs).
Proof.
  intros Hcat Hrs Hne Hfs.
  destruct rs as [|r0 rs']; [congruence |].
  unfold DataManager.exportCSV, DataManager.importCSV.
  set (fs := Category.fields cat) in *.
  set (hdr := join [COMMA] (DataManager.exportHeaders fs)).
  set (rows := DataManager.exportRow projects users fs <$> (r0 :: rs')).
  assert (Htext : [BOM] ++ join [LF] (hdr :: rows)
                  = join [LF] (([BOM] ++ hdr) :: rows)) by reflexivity.
  rewrite Htext. clear Htext.
  rewrite splitLines_join.
  2: discriminate.
  2:{ constructor; [apply (exportHeaders_no_LF cat Hcat) |].
      subst rows. apply Forall_fmap. eapply Forall_impl; [exact Hrs |].
      intros r Hr. now apply exportRow_no_LF. }
  cbn [fmap list_fmap]. subst hdr. rewrite trim_header.
  rewrite filter_nonempty_all.
  2:{ constructor.
      - rewrite exportHeaders_shape. discriminate.
      - subst rows. apply Forall_fmap, Forall_fmap, Forall_forall.
        intros r _.
        change (trim (DataManager.exportRow projects users fs r) <> []).
        rewrite trim_exportRow.
        destruct (trimStart (ResourceItem.id r)); discriminate. }
  subst rows. cbn [fmap list_fmap].
  subst fs. rewrite (parse_header cat Hcat), (mapHeaders_export cat Hcat).
  destruct (DataManager.mapHeaders (Category.fields cat) 0 [str "ID"]
            ++ indexedKeys 1 (Category.fields cat)) as [|e fm] eqn:Hfm.
  { apply app_eq_nil in Hfm as [_ Hfm].
    destruct (Category.fields cat); [congruence | discriminate]. }
  f_equal. cbn [fmap list_fmap]. f_equal.
  rewrite <- !list_fmap_compose. reflexivity.
Qed.

Lemma imported_value (r : ResourceItem.t) (f : FieldDefinition.t) :
  toLowerCase LABEL_YES = WORD_CO ->
  toLowerCase LABEL_NO ∉ [str "true"; WORD_CO; WORD_DUNG; str "1"] ->
  csv_safe_cell projects users r f ->
  reads_back f (DataManager.dataValue r (FieldDefinition.key f))
    (Some (DataManager.importValue projects users f
             (DataManager.stripQuotes
                (trim (dropQuotes (cellText projects users r f)))))).
Proof.
  intros Hyes Hno Hsafe.
  unfold reads_back, cellText, DataManager.exportCell,
    DataManager.importValue.
  assert (Htext : forall v,
            DataManager.stripQuotes
              (trim (dropQuotes
                       (joinElem (VStr ([DQUOTE] ++ DataManager.doubleQuotes v
                                        ++ [DQUOTE])))))
            = trim (dropQuotes v)).
  { intros v. cbn [joinElem ToString]. rewrite dropQuotes_quoted.
    apply stripQuotes_no_quote. intros Hin. apply trim_elem in Hin.
    now apply (dropQuotes_no_quotes_left v). }
  destruct (FieldDefinition.type f) eqn:Htype; try exact I.
  - intros v Hv. rewrite Hv. now rewrite Htext.
  - intros v Hv. rewrite Hv. now rewrite Htext.
  - assert (Hcell : cellText projects users r f
                    = dateText (DataManager.dataValue r (FieldDefinition.key f))).
    { unfold cellText, DataManager.exportCell, dateText. rewrite Htype.
      now destruct (truthy _). }
    assert (Hplain : plain (dateText (DataManager.dataValue r
                                        (FieldDefinition.key f)))).
    { rewrite <- Hcell. unfold csv_safe_cell in Hsafe.
      rewrite Htype in Hsafe. exact Hsafe. }
    destruct Hplain as (_ & Hq & _).
    transitivity
      (Some (VStr (DataManager.stripQuotes
                     (trim (dropQuotes
                              (dateText (DataManager.dataValue r
                                           (FieldDefinition.key f)))))))).
    { unfold dateText. now destruct (truthy _). }
    rewrite (dropQuotes_no_quote _ Hq).
    rewrite stripQuotes_no_quote; [reflexivity |].
    intros Hin. now apply trim_elem in Hin.
  - intros [Hv | Hv]; rewrite Hv.
    + change (str_eqb (str "true") (str "true")) with true.
      cbn [joinElem ToString].
      change (DataManager.stripQuotes (trim (dropQuotes LABEL_YES)))
        with LABEL_YES.
      rewrite Hyes. reflexivity.
    + change (str_eqb (str "false") (str "true")) with false.
      cbn [joinElem ToString].
      change (DataManager.stripQuotes (trim (dropQuotes LABEL_NO)))
        with LABEL_NO.
      rewrite !not_elem_of_cons in Hno.
      destruct Hno as (H1 & H2 & H3 & H4 & _).
      unfold str_eqb. now rewrite !bool_decide_eq_false_2.
  - intros v Hv. rewrite Hv. now rewrite Htext.
  - intros v Hv. rewrite Hv. now rewrite Htext.
  - intros v Hv. rewrite Hv. now rewrite Htext.
Qed.

End RoundTrip.

Lemma reads_back_plain {host : Host} (f : FieldDefinition.t) (orig : JsVal)
    (back : option JsVal) :
  reads_back f orig back ->
  (compared_as_text f = true ->
   forall v, orig = VStr v -> (DQUOTE ∉ v) /\ trim v = v) ->
  (FieldDefinition.type f = FieldType.date -> truthy orig = true ->
   trim (toLocaleDateString orig) = toLocaleDateString orig) ->
  round_trips f orig back.
Proof.
  unfold reads_back, round_trips, compared_as_text, dateText.
  intros Hback Hplain Hdate.
  destruct (FieldDefinition.type f); try exact Hback; try exact I.
  - intros v Hv; destruct (Hplain eq_refl v Hv) as [Hq Htrim];
      rewrite (Hback v Hv), (dropQuotes_no_quote v Hq), Htrim; reflexivity.
  - intros v Hv; destruct (Hplain eq_refl v Hv) as [Hq Htrim];
      rewrite (Hback v Hv), (dropQuotes_no_quote v Hq), Htrim; reflexivity.
  - split.
    + intros Ht. rewrite Hback, Ht. now rewrite (Hdate eq_refl Ht).
    + intros ->. exact Hback.
  - intros v Hv; destruct (Hplain eq_refl v Hv) as [Hq Htrim];
      rewrite (Hback v Hv), (dropQuotes_no_quote v Hq), Htrim; reflexivity.
Qed.

(** C3 (amended). For a category whose header line reads back as its
    fields, and records whose ids and cells do not disturb their rows,
    exporting the records and importing the text back into the category
    gives, row by row, every stored [true] or [false] of a boolean field
    as it was; every stored string of a text, number, image or file
    field without its quotes and without the white space at its ends:
    the string itself, commas included, when it holds no quote and no
    white space at either end; and for every date field the text of the
    stored date in the format of the locale, without the white space at
    its ends, the empty string for a date that is not set: the date as
    the locale writes it, when that text has no white space at its
    ends. The host is asked to lower the label of [true] to the word
    the import knows, and the label of [false] to a word it does not
    know. *)
Theorem csv_round_trip_plain_values {host : Host} (projects : list Project.t)
    (users : list User.t) (cat : Category.t) (rs : list ResourceItem.t) :
  toLowerCase LABEL_YES = WORD_CO ->
  toLowerCase LABEL_NO ∉ [str "true"; WORD_CO; WORD_DUNG; str "1"] ->
  csv_safe_category cat ->
  Forall (csv_safe_resource projects users cat) rs ->
  round_trip_with reads_back projects users cat rs
  /\ ((forall r f v, r ∈ rs -> f ∈ Category.fields cat ->
         compared_as_text f = true ->
         DataManager.dataValue r (FieldDefinition.key f) = VStr v ->
         (DQUOTE ∉ v) /\ trim v = v) ->
      (forall r f, r ∈ rs -> f ∈ Category.fields cat ->
         FieldDefinition.type f = FieldType.date ->
         truthy (DataManager.dataValue r (FieldDefinition.key f)) = true ->
         trim (toLocaleDateString
                 (DataManager.dataValue r (FieldDefinition.key f)))
         = toLocaleDateString
             (DataManager.dataValue r (FieldDefinition.key f))) ->
      round_trip_at projects users cat rs).
Proof.
  intros Hyes Hno Hcat Hrs.
  assert (Hback : round_trip_with reads_back projects users cat rs).
  { intros i r f Hi Hf.
    assert (Hne : rs <> []) by (intros ->; inversion Hi).
    assert (Hfs : Category.fields cat <> [])
      by (intros Heq; rewrite Heq in Hf; inversion Hf).
    rewrite (importCSV_export projects users cat rs Hcat Hrs Hne Hfs).
    cbn [importedRows]. rewrite list_lookup_fmap, Hi.
    cbn [fmap option_fmap option_map mbind option_bind].
    assert (Hr : csv_safe_resource projects users cat r).
    { rewrite Forall_forall in Hrs. apply Hrs.
      apply list_elem_of_lookup. eauto. }
    pose proof (proj2 (proj2 (proj2 Hr)) f Hf) as Hsafe.
    apply list_elem_of_lookup in Hf as [j Hj].
    destruct (indexedKeys_split 1 j (Category.fields cat) f
                (keys_distinct cat Hcat) Hj) as (pre & post & -> & Hpost).
    rewrite app_assoc.
    rewrite (importCells_last projects users (Category.fields cat) _ _ post ∅
               (1 + j) (FieldDefinition.key f) f Hpost).
    - destruct (parse_row projects users cat r Hr) as [rest ->].
      cbn [Nat.add]. rewrite lookup_cons.
      rewrite lookup_app_l
        by (rewrite length_fmap; eapply lookup_lt_Some; exact Hj).
      rewrite list_lookup_fmap, Hj. cbn [fmap option_fmap option_map default].
      now apply imported_value.
    - unfold DataManager.findFieldByKey, str_eqb.
      apply (find_unique FieldDefinition.key).
      + apply (keys_distinct cat Hcat).
      + apply list_elem_of_lookup. eauto. }
  split; [exact Hback |].
  intros Hplain Hdates i r f Hi Hf.
  assert (Hr : r ∈ rs) by (apply list_elem_of_lookup; eauto).
  apply reads_back_plain; [now apply Hback | |].
  - intros Htext v Hv. now apply (Hplain r f v).
  - intros Htype Htruthy. now apply (Hdates r f).
Qed.

Lemma cat_dated_notes_csv_safe :
  csv_safe_category (host := refHost 0) cat_dated_notes.
Proof.
  split.
  - intros f Hf. cbn in Hf. rewrite !elem_of_cons in Hf.
    destruct Hf as [-> | [-> | [-> | Hf]]]; [| | | inversion Hf];
      (split; [repeat split; decide_list_fact | reflexivity]).
  - decide_list_fact.
  - decide_list_fact.
  - intros f Hf. cbn in Hf. rewrite !elem_of_cons in Hf.
    destruct Hf as [-> | [-> | [-> | Hf]]]; [| | | inversion Hf];
      repeat split; vm_compute; discriminate.
Qed.

Lemma res_dated_note_csv_safe :
  csv_safe_resource (host := refHost 0) [] [] cat_dated_notes res_dated_note.
Proof.
  repeat split; try decide_list_fact.
  intros f Hf. cbn in Hf. rewrite !elem_of_cons in Hf.
  destruct Hf as [-> | [-> | [-> | Hf]]]; [| | | inversion Hf].
  - assert (Hv : DataManager.dataValue res_dated_note
                   (FieldDefinition.key fld_note) = VStr (str "red, blue"))
      by reflexivity.
    unfold csv_safe_cell. rewrite Hv.
    change (FieldDefinition.type fld_note) with FieldType.text.
    decide_list_fact.
  - exact I.
  - change (plain (cellText (host := refHost 0) [] [] res_dated_note fld_due)).
    repeat split; decide_list_fact.
Qed.

Lemma res_dated_note_values (f : FieldDefinition.t) (v : jsstring) :
  f ∈ Category.fields cat_dated_notes ->
  DataManager.dataValue res_dated_note (FieldDefinition.key f) = VStr v ->
  (DQUOTE ∉ v) /\ trim v = v.
Proof.
  intros Hf. cbn in Hf. rewrite !elem_of_cons in Hf.
  destruct Hf as [-> | [-> | [-> | Hf]]]; [| | | inversion Hf];
    intros [= <-]; (split; [decide_list_fact | reflexivity]).
Qed.

Lemma csv_round_trip_plain_values_witness :
  round_trip_with (host := refHost 0) (reads_back (host := refHost 0)) [] []
    cat_dated_notes [res_dated_note]
  /\ round_trip_at (host := refHost 0) [] [] cat_dated_notes [res_dated_note].
Proof.
  destruct (csv_round_trip_plain_values (host := refHost 0) [] []
              cat_dated_notes [res_dated_note]) as [Hback Hexact].
  - reflexivity.
  - decide_list_fact.
  - exact cat_dated_notes_csv_safe.
  - constructor; [exact res_dated_note_csv_safe | constructor].
  - split; [exact Hback |]. apply Hexact.
    + intros r f v Hr Hf _ Hv. apply list_elem_of_singleton in Hr as ->.
      now apply (res_dated_note_values f v).
    + intros r f Hr Hf Htype _. apply list_elem_of_singleton in Hr as ->.
      cbn in Hf. rewrite !elem_of_cons in Hf.
      destruct Hf as [-> | [-> | [-> | Hf]]];
        [discriminate Htype | discriminate Htype | reflexivity | inversion Hf].
Defined.

(** * Further properties *)

(** ** The multi-selects *)

Lemma arrIncludes_false_filter (l : list JsVal) (id : jsstring) :
  arrIncludes l id = false ->
  List.filter (fun v => DataManager.notStrictEq v id) l = l.
Proof.
  induction l as [|v l IH]; intros Hl; [reflexivity |].
  cbn in Hl. apply orb_false_elim in Hl as [Hv Hl].
  cbn. rewrite (IH Hl).
  destruct v; cbn in *; try reflexivity. now rewrite Hv.
Qed.

Lemma elem_of_filter_notStrictEq (l : list JsVal) (id id' : jsstring) :
  VStr id' ∈ List.filter (fun v => DataManager.notStrictEq v id) l
  <-> id' <> id /\ VStr id' ∈ l.
Proof.
  rewrite !list_elem_of_In, filter_In. cbn.
  rewrite negb_true_iff. unfold str_eqb. rewrite bool_decide_eq_false.
  tauto.
Qed.

(** X1. A click on an option of a multi-select flips that option and
    no other: afterwards the clicked id is selected exactly when it was
    not before, and every other id is selected exactly when it was. *)
Theorem toggleOption_flips_membership (value : JsVal) (id id' : jsstring) :
  arrIncludes (DataManager.selectedIds (DataManager.toggleOption value id)) id'
  = if decide (id' = id)
    then negb (arrIncludes (DataManager.selectedIds value) id)
    else arrIncludes (DataManager.selectedIds value) id'.
Proof.
  unfold DataManager.toggleOption.
  set (l := DataManager.selectedIds value).
  apply Bool.eq_iff_eq_true.
  destruct (arrIncludes l id) eqn:Hin; cbn [DataManager.selectedIds].
  - rewrite arrIncludes_elem, elem_of_filter_notStrictEq.
    destruct (decide (id' = id)) as [-> | Hne]; cbn.
    + split; [intros [Hne _]; congruence | discriminate].
    + rewrite arrIncludes_elem. tauto.
  - rewrite arrIncludes_elem, elem_of_app, list_elem_of_singleton.
    destruct (decide (id' = id)) as [-> | Hne]; cbn.
    + split; [reflexivity | intros _; now right].
    + rewrite arrIncludes_elem. split; [| tauto].
      intros [Hl | [= Heq]]; [exact Hl | congruence].
Qed.

(** X2. Selecting an option that was not selected and clicking it again
    gives back the selection as it was, in the same order. *)
Theorem toggleOption_twice_restores (value : JsVal) (id : jsstring) :
  arrIncludes (DataManager.selectedIds value) id = false ->
  DataManager.toggleOption (DataManager.toggleOption value id) id
  = VArr (DataManager.selectedIds value).
Proof.
  intros Hout. unfold DataManager.toggleOption at 2. rewrite Hout.
  unfold DataManager.toggleOption. cbn [DataManager.selectedIds].
  assert (Hin : arrIncludes (DataManager.selectedIds value ++ [VStr id]) id = true).
  { apply arrIncludes_elem, elem_of_app. right. left. }
  rewrite Hin. rewrite List.filter_app.
  rewrite (arrIncludes_false_filter _ _ Hout). cbn.
  unfold str_eqb. rewrite bool_decide_eq_true_2 by reflexivity.
  cbn. now rewrite app_nil_r.
Qed.

Lemma toggleOption_twice_restores_witness :
  DataManager.toggleOption
    (DataManager.toggleOption (VArr [VStr (str "u1"); VStr (str "u2")]) (str "u3"))
    (str "u3")
  = VArr [VStr (str "u1"); VStr (str "u2")].
Proof.
  apply (toggleOption_twice_restores (VArr [VStr (str "u1"); VStr (str "u2")])
           (str "u3")).
  reflexivity.
Defined.

Lemma filter_notStrictEq_nil (l : list JsVal) (id : jsstring) :
  List.filter (fun v => DataManager.notStrictEq v id) l = []
  <-> Forall (fun v => v = VStr id) l.
Proof.
  induction l as [|v l IH]; cbn; [split; [constructor | reflexivity] |].
  destruct (DataManager.notStrictEq v id) eqn:Hv.
  - split; [discriminate |]. intros Hall. inversion Hall as [|? ? Heq _]; subst.
    cbn in Hv. unfold str_eqb in Hv.
    now rewrite bool_decide_eq_true_2 in Hv by reflexivity.
  - rewrite IH. destruct v; try discriminate.
    cbn in Hv. apply negb_false_iff, bool_decide_eq_true in Hv. subst.
    split; [now constructor | intros Hall; now inversion Hall].
Qed.

(** X3. A click empties the field exactly when the field held nothing
    but the clicked id; when the field is required, and no required
    field before it is missing, the save of the form after such a click
    is refused with the toast that names the field, and nothing is
    written. *)
Theorem deselecting_only_id_blocks_save {store : Store}
    (selectedCategory : option Category.t) (categories : list Category.t)
    (currentResource : PartialResource.t) (formData : gmap jsstring JsVal)
    (currentUser : User.t) (uuid : jsstring) (now : Z) (cat : Category.t)
    (pre post : list FieldDefinition.t) (f : FieldDefinition.t)
    (id : jsstring) :
  let value := DataManager.fieldInputValue formData (FieldDefinition.key f) in
  let formData' := DataManager.toggleField formData (FieldDefinition.key f) id in
  (DataManager.isMissing (DataManager.toggleOption value id) = true
   <-> DataManager.selectedIds value <> []
       /\ Forall (fun v => v = VStr id) (DataManager.selectedIds value))
  /\ (DataManager.catToUse selectedCategory categories currentResource = Some cat ->
      Category.fields cat = pre ++ f :: post ->
      FieldDefinition.required f = true ->
      DataManager.selectedIds value <> [] ->
      Forall (fun v => v = VStr id) (DataManager.selectedIds value) ->
      (forall g, g ∈ pre -> FieldDefinition.required g = true ->
         ~ missing_or_empty (getProp formData' (FieldDefinition.key g))) ->
      trace (DataManager.handleSave selectedCategory categories currentResource
               formData' currentUser uuid now)
      = [ShowToast (MSG_PLEASE_ENTER ++ FieldDefinition.name f) error]).
Proof.
  intros value formData'.
  assert (Hiff : DataManager.isMissing (DataManager.toggleOption value id) = true
                 <-> DataManager.selectedIds value <> []
                     /\ Forall (fun v => v = VStr id) (DataManager.selectedIds value)).
  { unfold DataManager.toggleOption.
    destruct (arrIncludes (DataManager.selectedIds value) id) eqn:Hin.
    - transitivity (List.filter (fun v => DataManager.notStrictEq v id)
                      (DataManager.selectedIds value) = []).
      + cbn. destruct (List.filter _ _); [tauto | split; discriminate].
      + rewrite filter_notStrictEq_nil. split; [| tauto].
        intros Hall. split; [| exact Hall].
        intros Hnil. rewrite Hnil in Hin. discriminate.
    - split.
      + cbn. destruct (DataManager.selectedIds value); discriminate.
      + intros [Hne Hall]. exfalso.
        destruct (DataManager.selectedIds value) as [|v l]; [congruence |].
        inversion Hall; subst. cbn in Hin. unfold str_eqb in Hin.
        now rewrite bool_decide_eq_true_2 in Hin by reflexivity. }
  split; [exact Hiff |].
  intros Hcat Hfields Hreq Hne Hall Hpre.
  unfold DataManager.handleSave. rewrite Hcat, Hfields.
  rewrite (requiredLoop_first pre post f formData' Hreq); [reflexivity | | exact Hpre].
  apply isMissing_spec. subst formData'.
  unfold DataManager.toggleField, getProp. rewrite lookup_insert_eq. cbn [default].
  apply Hiff. now split.
Qed.

Lemma deselecting_only_id_blocks_save_witness :
  trace (DataManager.handleSave (store := emptyStore) (Some cat_equipment) []
           new_resource
           (DataManager.toggleField
              {[ str "field_1" := VStr (str "Laptop");
                 str "field_2" := VArr [VStr (str "u1")] ]}
              (str "field_2") (str "u1"))
           usr_manager (str "id-1") 1700000000000)
  = [ShowToast (MSG_PLEASE_ENTER ++ str "Owner") error].
Proof.
  refine (proj2 (deselecting_only_id_blocks_save (store := emptyStore)
            (Some cat_equipment) [] new_resource
            {[ str "field_1" := VStr (str "Laptop");
               str "field_2" := VArr [VStr (str "u1")] ]}
            usr_manager (str "id-1") 1700000000000 cat_equipment
            [fld_name] [fld_done] fld_owner (str "u1"))
            eq_refl eq_refl eq_refl _ _ _).
  - discriminate.
  - repeat constructor.
  - intros g Hg _ Hm. apply list_elem_of_singleton in Hg as ->.
    apply isMissing_spec in Hm. vm_compute in Hm. discriminate.
Defined.

(** X4. Once the option [all] has been ticked in the multi-select of a
    user or project field, the stored value passes the filter of that
    field whatever id is looked for. *)
Theorem selecting_all_passes_relation_filter {host : Host} (cat : Category.t)
    (r : ResourceItem.t) (key filterVal : jsstring)
    (fieldDef : FieldDefinition.t) (value : JsVal) :
  filterVal <> [] ->
  DataManager.findFieldByKey (Category.fields cat) key = Some fieldDef ->
  FieldDefinition.type fieldDef = FieldType.user
  \/ FieldDefinition.type fieldDef = FieldType.project ->
  arrIncludes (DataManager.selectedIds value) (str "all") = false ->
  DataManager.itemValue r key = DataManager.toggleOption value (str "all") ->
  DataManager.fieldFilterStep cat r key filterVal = ReturnTrue.
Proof.
  intros Hf Hfind Htype Hout Hval.
  unfold DataManager.fieldFilterStep. unfold str_eqb at 1.
  rewrite bool_decide_eq_false_2 by exact Hf.
  rewrite Hval, Hfind. unfold DataManager.toggleOption. rewrite Hout.
  assert (Hin : arrIncludes (DataManager.selectedIds value ++ [VStr (str "all")])
                  (str "all") = true).
  { apply arrIncludes_elem, elem_of_app. right. left. }
  destruct Htype as [-> | ->]; unfold DataManager.relationStep; now rewrite Hin.
Qed.

Lemma selecting_all_passes_relation_filter_witness :
  DataManager.fieldFilterStep (host := refHost 0) cat_equipment
    (res_with {[ str "field_2" :=
                   DataManager.toggleOption (VArr [VStr (str "u7")]) (str "all") ]})
    (str "field_2") (str "u1")
  = ReturnTrue.
Proof.
  apply (selecting_all_passes_relation_filter (host := refHost 0) cat_equipment
           _ (str "field_2") (str "u1") fld_owner (VArr [VStr (str "u7")])).
  - discriminate.
  - reflexivity.
  - left. reflexivity.
  - reflexivity.
  - reflexivity.
Defined.

(** ** Pages of the list *)

Lemma slice_forward {A : Type} (l : list A) (a b : Z) :
  0 <= a <= b ->
  slice l a b = take (Z.to_nat (b - a)) (drop (Z.to_nat a) l).
Proof.
  intros Hab. unfold slice, sliceIndex.
  rewrite (proj2 (Z.ltb_ge a 0)) by lia.
  rewrite (proj2 (Z.ltb_ge b 0)) by lia.
  destruct (Z.le_gt_cases (Z.of_nat (length l)) a) as [Hlen | Hlen].
  - rewrite !drop_ge by lia. now rewrite !take_nil.
  - rewrite (Z.min_l a) by lia.
    destruct (Z.le_gt_cases b (Z.of_nat (length l))) as [Hb | Hb].
    + rewrite (Z.min_l b) by lia. now rewrite Z.max_l by lia.
    + rewrite (Z.min_r b) by lia. rewrite Z.max_l by lia.
      rewrite !take_ge; [reflexivity | |]; rewrite length_drop; lia.
Qed.

Lemma totalPages_bounds (n : nat) (p : Z) :
  0 < p ->
  (DataManager.totalPages n p - 1) * p < Z.of_nat n
  <= DataManager.totalPages n p * p.
Proof.
  intros Hp. unfold DataManager.totalPages.
  pose proof (Z.mul_div_le (- Z.of_nat n) p Hp).
  pose proof (Z.mul_succ_div_gt (- Z.of_nat n) p Hp).
  nia.
Qed.

Lemma currentItems_take_drop {A : Type} (l : list A) (i : nat) (p : Z) :
  0 < p ->
  DataManager.currentItems l (Z.of_nat (S i)) p
  = take (Z.to_nat p) (drop (i * Z.to_nat p) l).
Proof.
  intros Hp. unfold DataManager.currentItems.
  rewrite slice_forward by nia.
  f_equal; [f_equal; nia |]. f_equal. nia.
Qed.

Lemma concat_pages {A : Type} (l : list A) (P k : nat) :
  concat ((fun i => take P (drop (i * P) l)) <$> seq 0 k) = take (k * P) l.
Proof.
  induction k as [|k IH]; [reflexivity |].
  rewrite seq_S, fmap_app, concat_app, IH. cbn [fmap list_fmap concat Nat.add].
  rewrite app_nil_r, take_take_drop. f_equal. lia.
Qed.

(** X5. The pages cover the list: for a positive page size, the items
    shown on the pages 1 to [totalPages], put end to end, are the whole
    list, each item once and in order. *)
Theorem pages_cover_the_list {A : Type} (l : list A) (itemsPerPage : Z) :
  0 < itemsPerPage ->
  concat ((fun i : nat =>
             DataManager.currentItems l (Z.of_nat (S i)) itemsPerPage)
            <$> seq 0 (Z.to_nat (DataManager.totalPages (length l) itemsPerPage)))
  = l.
Proof.
  intros Hp.
  erewrite list_fmap_ext; [| intros i x _; now apply currentItems_take_drop].
  rewrite concat_pages. apply take_ge.
  pose proof (totalPages_bounds (length l) itemsPerPage Hp). nia.
Qed.

Lemma pages_cover_the_list_witness :
  concat ((fun i : nat =>
             DataManager.currentItems [1; 2; 3; 4; 5; 6; 7]%nat
               (Z.of_nat (S i)) 5)
            <$> seq 0 (Z.to_nat (DataManager.totalPages 7 5)))
  = [1; 2; 3; 4; 5; 6; 7]%nat.
Proof.
  apply (pages_cover_the_list [1; 2; 3; 4; 5; 6; 7]%nat 5). lia.
Defined.

(** X6. The page shown is never past the end: for a positive page size
    and a list that is not empty, after the effect that follows a
    change of the list the current page lies between 1 and
    [totalPages], it shows at least one item and at most a page of
    them, and the previous and next buttons keep it in that range. *)
Theorem current_page_in_range {A : Type} (l : list A)
    (currentPage itemsPerPage : Z) :
  0 < itemsPerPage -> l <> [] -> 1 <= currentPage ->
  let total := DataManager.totalPages (length l) itemsPerPage in
  let page := DataManager.clampPage (length l) currentPage itemsPerPage in
  1 <= page <= total
  /\ DataManager.currentItems l page itemsPerPage <> []
  /\ (length (DataManager.currentItems l page itemsPerPage)
      <= Z.to_nat itemsPerPage)%nat
  /\ 1 <= DataManager.clickPrevious page <= total
  /\ 1 <= DataManager.clickNext (length l) page itemsPerPage <= total.
Proof.
  intros Hp Hne Hcp total page.
  pose proof (totalPages_bounds (length l) itemsPerPage Hp) as Hb.
  fold total in Hb.
  assert (Hlen : (0 < length l)%nat) by (destruct l; [congruence | cbn; lia]).
  assert (Htotal : 1 <= total) by nia.
  assert (Hpage : 1 <= page <= total).
  { subst page. unfold DataManager.clampPage. fold total.
    destruct (Z.gtb_spec currentPage total); destruct (Z.gtb_spec total 0);
      cbn; lia. }
  split; [exact Hpage |].
  assert (Hitems : DataManager.currentItems l page itemsPerPage
                   = take (Z.to_nat itemsPerPage)
                       (drop (Z.to_nat (page - 1) * Z.to_nat itemsPerPage) l)).
  { replace page with (Z.of_nat (S (Z.to_nat (page - 1)))) at 1 by lia.
    now apply currentItems_take_drop. }
  rewrite Hitems. repeat split.
  - intros Hnil. apply (f_equal length) in Hnil.
    rewrite length_take, length_drop in Hnil. cbn in Hnil. nia.
  - rewrite length_take. lia.
  - unfold DataManager.clickPrevious. destruct (Z.eqb_spec page 1); lia.
  - unfold DataManager.clickPrevious. destruct (Z.eqb_spec page 1); lia.
  - unfold DataManager.clickNext. fold total.
    destruct (Z.eqb_spec page total); lia.
  - unfold DataManager.clickNext. fold total.
    destruct (Z.eqb_spec page total); lia.
Qed.

Lemma current_page_in_range_witness :
  1 <= DataManager.clampPage 7 4 5 <= DataManager.totalPages 7 5
  /\ DataManager.currentItems [1; 2; 3; 4; 5; 6; 7]%nat
       (DataManager.clampPage 7 4 5) 5 <> [].
Proof.
  destruct (current_page_in_range [1; 2; 3; 4; 5; 6; 7]%nat 4 5
              ltac:(lia) ltac:(discriminate) ltac:(lia)) as (H1 & H2 & _).
  exact (conj H1 H2).
Defined.

(** ** More on the CSV import and export *)

Lemma join_cons_char (c : N) (f : jsstring) (fs : list jsstring) :
  join [COMMA] ((c :: f) :: fs) = c :: join [COMMA] (f :: fs).
Proof. destruct fs; reflexivity. Qed.

Lemma join_fieldsFrom (s : jsstring) (q : bool) :
  join [COMMA] (fieldsFrom s q) = dropQuotes s.
Proof.
  revert q. induction s as [|c s IH]; intros q; [reflexivity |].
  assert (Hdrop : dropQuotes (c :: s)
                  = if (c =? DQUOTE)%N then dropQuotes s else c :: dropQuotes s).
  { unfold dropQuotes. cbn. now destruct (c =? DQUOTE)%N. }
  rewrite Hdrop. cbn [fieldsFrom].
  destruct (c =? DQUOTE)%N; [apply IH |].
  specialize (IH q). pose proof (fieldsFrom_nonempty s q).
  destruct (fieldsFrom s q) as [|f fs]; [congruence |].
  destruct ((c =? COMMA)%N && negb q) eqn:Hc.
  - apply andb_true_iff in Hc as [Hc _]. apply N.eqb_eq in Hc. subst c.
    change (join [COMMA] ([] :: f :: fs)) with (COMMA :: join [COMMA] (f :: fs)).
    now rewrite IH.
  - now rewrite join_cons_char, IH.
Qed.

(** X7. The line parser loses nothing but quotes: the fields it
    returns, joined again with commas, are the line without its
    quotes. *)
Theorem parseCSVLine_keeps_all_but_quotes (s : jsstring) :
  join [COMMA] (DataManager.parseCSVLine s) = dropQuotes s.
Proof. rewrite parseCSVLine_fieldsFrom. apply join_fieldsFrom. Qed.

Section ImportRows.
Context {host : Host}.
Variable projects : list Project.t.
Variable users : list User.t.

Lemma importCSV_lines (cat : Category.t) (text : jsstring) :
  DataManager.importCSV projects users cat text
  = match importLines text with
    | [] | [_] => DataManager.ImportNoData
    | _ :: dataLines =>
        match DataManager.mapHeaders (Category.fields cat) 0 (importHeaders text) with
        | [] => DataManager.ImportNoColumns
        | _ :: _ =>
            DataManager.ImportRows
              ((fun line =>
                  DataManager.importCells projects users (Category.fields cat)
                    (DataManager.parseCSVLine line)
                    (DataManager.mapHeaders (Category.fields cat) 0
                       (importHeaders text)) ∅) <$> dataLines)
        end
    end.
Proof.
  unfold DataManager.importCSV, importHeaders, importLines.
  destruct (List.filter _ _) as [|line0 [|d ds]]; reflexivity.
Qed.

Lemma importCells_keys (fs : list FieldDefinition.t) (values : list jsstring)
    (fm : list (nat * jsstring)) (acc : gmap jsstring JsVal) (k : jsstring) :
  is_Some (DataManager.importCells projects users fs values fm acc !! k) ->
  is_Some (acc !! k) \/ k ∈ (snd <$> fm).
Proof.
  revert acc. induction fm as [|[idx key] fm IH]; intros acc Hk; [now left |].
  cbn in Hk. cbn [fmap list_fmap snd]. rewrite elem_of_cons.
  destruct (List.find _ fs).
  - apply IH in Hk as [Hk | Hk]; [| tauto].
    destruct (decide (key = k)) as [-> | Hne]; [tauto |].
    rewrite lookup_insert_ne in Hk by exact Hne. tauto.
  - apply IH in Hk. tauto.
Qed.

Lemma importCells_values (fs : list FieldDefinition.t) (values : list jsstring)
    (fm : list (nat * jsstring)) (acc : gmap jsstring JsVal) :
  (forall k v, acc !! k = Some v ->
     exists fd raw, DataManager.findFieldByKey fs k = Some fd
                    /\ v = DataManager.importValue projects users fd raw) ->
  forall k v,
    DataManager.importCells projects users fs values fm acc !! k = Some v ->
    exists fd raw, DataManager.findFieldByKey fs k = Some fd
                   /\ v = DataManager.importValue projects users fd raw.
Proof.
  revert acc. induction fm as [|[idx key] fm IH]; intros acc Hacc k v Hk;
    [now apply Hacc |].
  cbn in Hk. destruct (List.find _ fs) as [fd|] eqn:Hfind.
  - apply (IH _) in Hk; [exact Hk |].
    intros k' v' Hk'. destruct (decide (key = k')) as [<- | Hne].
    + rewrite lookup_insert_eq in Hk'. injection Hk' as <-. eauto.
    + rewrite lookup_insert_ne in Hk' by exact Hne. now apply Hacc.
  - now apply (IH acc).
Qed.

End ImportRows.

(** X8. What an import stores has the shape of its field: every value
    of an imported row belongs to a field of the category, and it is
    the text [true] or [false] for a boolean field, an array of at most
    one id for a user or project field, and a string for any other
    field. *)
Theorem imported_values_are_typed {host : Host} (projects : list Project.t)
    (users : list User.t) (cat : Category.t) (text : jsstring)
    (rows : list (gmap jsstring JsVal)) (d : gmap jsstring JsVal)
    (k : jsstring) (v : JsVal) :
  DataManager.importCSV projects users cat text = DataManager.ImportRows rows ->
  d ∈ rows -> d !! k = Some v ->
  exists fd,
    DataManager.findFieldByKey (Category.fields cat) k = Some fd
    /\ match FieldDefinition.type fd with
       | FieldType.boolean => v = VStr (str "true") \/ v = VStr (str "false")
       | FieldType.user | FieldType.project =>
           exists l, v = VArr l /\ (length l <= 1)%nat
       | _ => exists s, v = VStr s
       end.
Proof.
  intros Himp Hd Hk. rewrite importCSV_lines in Himp.
  destruct (importLines text) as [|line0 [|l ls]]; try discriminate.
  destruct (DataManager.mapHeaders _ _ _) as [|e fm] eqn:Hfm; [discriminate |].
  assert (Hrows : rows
                  = (fun line =>
                       DataManager.importCells projects users (Category.fields cat)
                         (DataManager.parseCSVLine line) (e :: fm) ∅)
                      <$> (l :: ls)) by congruence.
  rewrite Hrows in Hd. clear Himp Hrows.
  apply list_elem_of_fmap in Hd as (line & -> & _).
  apply importCells_values in Hk as (fd & raw & Hfind & ->).
  2:{ intros k' v' Hk'. now rewrite lookup_empty in Hk'. }
  exists fd. split; [exact Hfind |].
  unfold DataManager.importValue.
  destruct (FieldDefinition.type fd); eauto.
  - destruct (_ || _); [now left | now right].
  - destruct (List.find _ projects); [eexists; split; [reflexivity | cbn; lia] |].
    destruct (str_eqb raw []); eexists; (split; [reflexivity | cbn; lia]).
  - destruct (List.find _ users); [eexists; split; [reflexivity | cbn; lia] |].
    destruct (str_eqb raw []); eexists; (split; [reflexivity | cbn; lia]).
Qed.

Lemma imported_values_are_typed_witness :
  exists fd,
    DataManager.findFieldByKey (Category.fields cat_notes) (str "field_3") = Some fd
    /\ match FieldDefinition.type fd with
       | FieldType.boolean =>
           VStr (str "true") = VStr (str "true")
           \/ VStr (str "true") = VStr (str "false")
       | FieldType.user | FieldType.project =>
           exists l, VStr (str "true") = VArr l /\ (length l <= 1)%nat
       | _ => exists s, VStr (str "true") = VStr s
       end.
Proof.
  eapply (imported_values_are_typed (host := refHost 0) [] [] cat_notes
            (DataManager.exportCSV (host := refHost 0) [] [] cat_notes
               [res_note_comma])).
  - vm_compute. reflexivity.
  - left.
  - vm_compute. reflexivity.
Defined.

(** X9. What an import reads, and that it checks no required field: a
    file with fewer than two lines that are not blank gives nothing to
    import; a file with two or more such lines whose first line names
    no field of the category gives nothing either, and is refused for
    having no matching column; in every other case every line after the
    first gives one row, and a row holds values only under the keys of
    the fields that a header names, so that a field without a column,
    required or not, is left out of every row. *)
Theorem import_keeps_only_mapped_columns {host : Host}
    (projects : list Project.t) (users : list User.t) (cat : Category.t)
    (text : jsstring) :
  ((length (importLines text) < 2)%nat ->
   DataManager.importCSV projects users cat text = DataManager.ImportNoData)
  /\ ((2 <= length (importLines text))%nat -> mappedKeys cat text = [] ->
      DataManager.importCSV projects users cat text
      = DataManager.ImportNoColumns)
  /\ ((2 <= length (importLines text))%nat -> mappedKeys cat text <> [] ->
      exists rows,
        DataManager.importCSV projects users cat text
        = DataManager.ImportRows rows
        /\ length rows = (length (importLines text) - 1)%nat
        /\ forall d k, d ∈ rows -> is_Some (d !! k) ->
             k ∈ mappedKeys cat text).
Proof.
  rewrite importCSV_lines. unfold mappedKeys.
  destruct (importLines text) as [|line0 [|l ls]].
  - split; [reflexivity |]. split; cbn; intros Hlen; lia.
  - split; [reflexivity |]. split; cbn; intros Hlen; lia.
  - split; [cbn; intros Hlen; lia |].
    destruct (DataManager.mapHeaders _ _ _) as [|e fm] eqn:Hfm.
    + split; [reflexivity |]. intros _ Hne. now destruct Hne.
    + split; [intros _ [=] |]. intros _ _.
      eexists. split; [reflexivity |]. split.
      * rewrite length_fmap. cbn. lia.
      * intros d k Hd Hk.
        apply list_elem_of_fmap in Hd as (line & -> & _).
        apply importCells_keys in Hk as [Hk | Hk]; [| exact Hk].
        rewrite lookup_empty in Hk. now destruct Hk.
Qed.

Lemma import_keeps_only_mapped_columns_witness :
  (exists rows,
     DataManager.importCSV (host := refHost 0) [] [] cat_notes csv_two_notes
     = DataManager.ImportRows rows
     /\ length rows = (length (importLines csv_two_notes) - 1)%nat
     /\ forall d k, d ∈ rows -> is_Some (d !! k) ->
          k ∈ mappedKeys (host := refHost 0) cat_notes csv_two_notes)
  /\ DataManager.importCSV (host := refHost 0) [] [] cat_equipment csv_no_match
     = DataManager.ImportNoColumns.
Proof.
  split.
  - apply (proj2 (proj2 (import_keeps_only_mapped_columns (host := refHost 0)
                           [] [] cat_notes csv_two_notes))).
    + vm_compute. lia.
    + vm_compute. discriminate.
  - apply (proj1 (proj2 (import_keeps_only_mapped_columns (host := refHost 0)
                           [] [] cat_equipment csv_no_match))).
    + vm_compute. lia.
    + vm_compute. reflexivity.
Defined.

(** ** Filters left blank *)

Lemma fieldFiltersLoop_blank {host : Host} (cat : Category.t)
    (r : ResourceItem.t) (entries : list (jsstring * jsstring)) :
  Forall (fun e => e.2 = []) entries ->
  DataManager.fieldFiltersLoop cat r entries = true.
Proof.
  induction 1 as [|[k v] es Hv _ IH]; [reflexivity |].
  cbn in Hv. subst v. cbn [DataManager.fieldFiltersLoop].
  unfold DataManager.fieldFilterStep, str_eqb.
  now rewrite bool_decide_eq_true_2 by reflexivity.
Qed.

Lemma filter_all {A : Type} (f : A -> bool) (l : list A) :
  (forall x, f x = true) -> List.filter f l = l.
Proof.
  intros Hf. induction l as [|x l IH]; [reflexivity |].
  cbn. now rewrite Hf, IH.
Qed.

(** X10. Filters left blank hide nothing: when the creator and both
    dates are empty and every field filter is empty, the list shows
    every loaded record, in order; this is the state [resetFilters]
    leaves, whatever the filters were before. *)
Theorem blank_filters_keep_every_record {host : Host} (F : Filters)
    (resources : list ResourceItem.t) :
  (filterCreator F = [] -> filterDateFrom F = [] -> filterDateTo F = [] ->
   Forall (fun e => e.2 = []) (fieldFilters F) ->
   DataManager.filteredResources F resources = resources)
  /\ DataManager.filteredResources (DataManager.resetFilters F) resources
     = resources.
Proof.
  assert (Hblank : forall F' : Filters,
            filterCreator F' = [] -> filterDateFrom F' = [] ->
            filterDateTo F' = [] ->
            Forall (fun e => e.2 = []) (fieldFilters F') ->
            DataManager.filteredResources F' resources = resources).
  { intros F' Hc Hf Ht Hff. apply filter_all. intros r.
    unfold DataManager.filterCallback. rewrite Hc, Hf, Ht.
    unfold str_eqb. rewrite bool_decide_eq_true_2 by reflexivity.
    cbn [negb andb].
    destruct (selectedCategory F'); [| reflexivity].
    now apply fieldFiltersLoop_blank. }
  split; [apply Hblank |].
  apply Hblank; try reflexivity. constructor.
Qed.

Lemma blank_filters_keep_every_record_witness :
  DataManager.filteredResources (host := refHost 0)
    {| filterCreator := []; filterDateFrom := []; filterDateTo := [];
       fieldFilters := [(str "field_2", []); (str "field_3", [])];
       selectedCategory := Some cat_equipment |}
    [res_all_done; res_laptop]
  = [res_all_done; res_laptop].
Proof.
  apply (proj1 (blank_filters_keep_every_record (host := refHost 0)
                  {| filterCreator := []; filterDateFrom := [];
                     filterDateTo := [];
                     fieldFilters := [(str "field_2", []); (str "field_3", [])];
                     selectedCategory := Some cat_equipment |}
                  [res_all_done; res_laptop])); try reflexivity.
  repeat constructor.
Defined.

(** ** The run of a save *)

(** X11. What a save that passes the checks does depends on the answer
    of the store alone: when the store accepts the record, the run is
    the write, its audit entry, the closing of the form and the success
    toast; when the store refuses it, the run is the write and the error
    toast, the form stays open and no audit entry is made. Neither run
    throws. *)
Theorem handleSave_store_answer {store : Store}
    (selectedCategory : option Category.t) (categories : list Category.t)
    (currentResource : PartialResource.t) (formData : gmap jsstring JsVal)
    (currentUser : User.t) (uuid : jsstring) (now : Z) (cat : Category.t) :
  DataManager.catToUse selectedCategory categories currentResource = Some cat ->
  DataManager.requiredLoop (Category.fields cat) formData = None ->
  let r := DataManager.resourceToSave cat currentResource formData currentUser
             uuid now in
  DataManager.handleSave selectedCategory categories currentResource formData
    currentUser uuid now
  = match resources_upsert r with
    | None =>
        ([ResourcesUpsert r;
          AuditLog UPDATE (str "Resource")
            (MSG_AUDIT_SAVE_RESOURCE ++ Category.id cat);
          SetIsModalOpen false;
          ShowToast MSG_SAVE_OK success], inr tt)
    | Some _ =>
        ([ResourcesUpsert r; ShowToast MSG_SAVE_ERROR error], inr tt)
    end.
Proof.
  intros Hcat Hloop r. unfold DataManager.handleSave. rewrite Hcat, Hloop.
  fold r. unfold dataService.saveResource.
  destruct (resources_upsert r) as [message|]; reflexivity.
Qed.

Lemma handleSave_store_answer_witness :
  DataManager.handleSave (store := rejectingStore (str "id-1"))
    (Some cat_strict) [] new_resource form_null_zero_false usr_manager
    (str "id-1") 5
  = ([ResourcesUpsert
        (DataManager.resourceToSave cat_strict new_resource
           form_null_zero_false usr_manager (str "id-1") 5);
      ShowToast MSG_SAVE_ERROR error], inr tt).
Proof.
  apply (handleSave_store_answer (store := rejectingStore (str "id-1"))
           (Some cat_strict) [] new_resource form_null_zero_false usr_manager
           (str "id-1") 5 cat_strict); reflexivity.
Defined.

(** ** Opening the form and saving it *)

Lemma findCategory_id (categories : list Category.t) (id : jsstring)
    (cat : Category.t) :
  DataManager.findCategory categories id = Some cat -> Category.id cat = id.
Proof.
  intros Hfind. apply find_some in Hfind as [_ Heq].
  now apply bool_decide_eq_true in Heq.
Qed.

Lemma categoryIdAfter_record (st : DataManager.FormState) (r : ResourceItem.t) :
  DataManager.selectedCategoryId st = []
  \/ DataManager.selectedCategoryId st = ResourceItem.categoryId r ->
  DataManager.categoryIdAfter st r = ResourceItem.categoryId r.
Proof.
  unfold DataManager.categoryIdAfter, str_eqb.
  intros [Hsel | Hsel]; rewrite Hsel.
  - now rewrite bool_decide_eq_true_2.
  - now destruct (bool_decide _).
Qed.

(** X12. An edit keeps the record's identity: when a record with an id,
    a creator and a creation time is opened from the list of all
    categories or of its own, by a user who may edit it, a save of the
    form that passes the required check writes a record of the same id,
    category, creator and creation time, whoever saves it, with the
    form as its data. *)
Theorem edit_then_save_keeps_identity {store : Store} (currentUser : User.t)
    (categories : list Category.t) (r : ResourceItem.t)
    (st : DataManager.FormState) (cat : Category.t)
    (formData' : gmap jsstring JsVal) (uuid : jsstring) (now : Z) :
  PERMISSIONS.canEditResource currentUser r = true ->
  DataManager.findCategory categories (ResourceItem.categoryId r) = Some cat ->
  DataManager.selectedCategoryId st = []
  \/ DataManager.selectedCategoryId st = ResourceItem.categoryId r ->
  ResourceItem.id r <> [] -> ResourceItem.createdBy r <> [] ->
  ResourceItem.createdAt r <> 0 ->
  DataManager.requiredLoop (Category.fields cat) formData' = None ->
  exists st',
    DataManager.handleOpenModal currentUser categories (Some r) st
    = ([SetIsModalOpen true], inr st')
    /\ DataManager.formData st' = DataManager.copyData r
    /\ exists rest,
         trace (DataManager.submitForm categories currentUser uuid now
                  (DataManager.withFormData st' formData'))
         = ResourcesUpsert
             (ResourceItem.mk (ResourceItem.id r) (ResourceItem.categoryId r)
                (Some formData') (ResourceItem.createdBy r)
                (ResourceItem.createdAt r))
           :: rest.
Proof.
  intros Hperm Hfind Hsel Hid Hby Hat Hloop.
  unfold DataManager.handleOpenModal. rewrite Hperm, Hfind. cbn [negb].
  eexists. split; [reflexivity |]. split; [reflexivity |].
  unfold DataManager.submitForm, DataManager.withFormData.
  cbn [DataManager.selectedCategoryId DataManager.currentResource
       DataManager.formData].
  rewrite (categoryIdAfter_record st r Hsel), Hfind.
  destruct (handleSave_proceeds (Some cat) categories (DataManager.asPartial r)
              formData' currentUser uuid now cat eq_refl Hloop) as [rest ->].
  exists rest. f_equal. f_equal.
  unfold DataManager.resourceToSave, DataManager.asPartial, orString.
  cbn [PartialResource.id PartialResource.createdBy PartialResource.createdAt].
  rewrite (findCategory_id _ _ _ Hfind).
  destruct (ResourceItem.id r) as [|c s]; [congruence |].
  destruct (ResourceItem.createdBy r) as [|c' s']; [congruence |].
  destruct (Z.eqb_spec (ResourceItem.createdAt r) 0); [congruence | reflexivity].
Qed.

Lemma edit_then_save_keeps_identity_witness :
  exists st',
    DataManager.handleOpenModal usr_manager [cat_equipment] (Some res_laptop)
      st_all
    = ([SetIsModalOpen true], inr st')
    /\ DataManager.formData st' = DataManager.copyData res_laptop
    /\ exists rest,
         trace (DataManager.submitForm (store := emptyStore) [cat_equipment]
                  usr_manager (str "id-9") 1800000000000
                  (DataManager.withFormData st'
                     {[ str "field_1" := VStr (str "Desktop");
                        str "field_2" := VArr [VStr (str "u1")] ]}))
         = ResourcesUpsert
             (ResourceItem.mk (str "r7") (str "c1")
                (Some {[ str "field_1" := VStr (str "Desktop");
                         str "field_2" := VArr [VStr (str "u1")] ]})
                (str "binh") 1700000000000)
           :: rest.
Proof.
  apply (edit_then_save_keeps_identity (store := emptyStore) usr_manager
           [cat_equipment] res_laptop st_all cat_equipment
           {[ str "field_1" := VStr (str "Desktop");
              str "field_2" := VArr [VStr (str "u1")] ]}
           (str "id-9") 1800000000000).
  - reflexivity.
  - reflexivity.
  - left. reflexivity.
  - discriminate.
  - discriminate.
  - discriminate.
  - vm_compute. reflexivity.
Defined.

(** X13. A copy is a new record of the one who copies: when a user who
    may create records duplicates a record from the list of all
    categories or of its own, a save of the form that passes the
    required check writes a record with the fresh id, the category of
    the original, the current user as creator and the time of the save,
    whatever the original's id, creator and time were. *)
Theorem duplicate_then_save_is_new_record {store : Store} (currentUser : User.t)
    (categories : list Category.t) (r : ResourceItem.t)
    (st : DataManager.FormState) (cat : Category.t)
    (formData' : gmap jsstring JsVal) (uuid : jsstring) (now : Z) :
  PERMISSIONS.canCreateResource currentUser = true ->
  DataManager.findCategory categories (ResourceItem.categoryId r) = Some cat ->
  DataManager.selectedCategoryId st = []
  \/ DataManager.selectedCategoryId st = ResourceItem.categoryId r ->
  DataManager.requiredLoop (Category.fields cat) formData' = None ->
  exists st',
    DataManager.handleDuplicate currentUser categories r st
    = ([SetIsModalOpen true; ShowToast MSG_COPIED success], inr st')
    /\ DataManager.formData st' = DataManager.copyData r
    /\ exists rest,
         trace (DataManager.submitForm categories currentUser uuid now
                  (DataManager.withFormData st' formData'))
         = ResourcesUpsert
             (ResourceItem.mk uuid (ResourceItem.categoryId r)
                (Some formData') (User.username currentUser) now)
           :: rest.
Proof.
  intros Hperm Hfind Hsel Hloop.
  unfold DataManager.handleDuplicate. rewrite Hperm, Hfind. cbn [negb].
  eexists. split; [reflexivity |]. split; [reflexivity |].
  unfold DataManager.submitForm, DataManager.withFormData.
  cbn [DataManager.selectedCategoryId DataManager.currentResource
       DataManager.formData].
  rewrite (categoryIdAfter_record st r Hsel), Hfind.
  destruct (handleSave_proceeds (Some cat) categories
              (PartialResource.mk None (Some (ResourceItem.categoryId r))
                 None None)
              formData' currentUser uuid now cat eq_refl Hloop) as [rest ->].
  exists rest. f_equal. f_equal.
  unfold DataManager.resourceToSave, orString.
  cbn [PartialResource.id PartialResource.createdBy PartialResource.createdAt].
  now rewrite (findCategory_id _ _ _ Hfind).
Qed.

Lemma duplicate_then_save_is_new_record_witness :
  exists st',
    DataManager.handleDuplicate usr_manager [cat_equipment] res_laptop st_all
    = ([SetIsModalOpen true; ShowToast MSG_COPIED success], inr st')
    /\ DataManager.formData st' = DataManager.copyData res_laptop
    /\ exists rest,
         trace (DataManager.submitForm (store := emptyStore) [cat_equipment]
                  usr_manager (str "id-9") 1800000000000
                  (DataManager.withFormData st'
                     (DataManager.copyData res_laptop)))
         = ResourcesUpsert
             (ResourceItem.mk (str "id-9") (str "c1")
                (Some (DataManager.copyData res_laptop))
                (str "lan") 1800000000000)
           :: rest.
Proof.
  apply (duplicate_then_save_is_new_record (store := emptyStore) usr_manager
           [cat_equipment] res_laptop st_all cat_equipment
           (DataManager.copyData res_laptop) (str "id-9") 1800000000000).
  - reflexivity.
  - reflexivity.
  - left. reflexivity.
  - vm_compute. reflexivity.
Defined.

(** X14. The form opens only for those who may: on a record it opens
    exactly when the user may edit the record and its category is
    loaded; for a new record exactly when a category is selected and
    the user may create; for a copy exactly when the user may create
    and the category is loaded. A deletion is armed exactly when the
    user may delete the record, and the file dialog of the import opens
    exactly when a category is selected and the user may create. A
    refusal leaves the state as it was. *)
Theorem form_opens_only_with_permission (currentUser : User.t)
    (categories : list Category.t) (st : DataManager.FormState) :
  (forall r,
     let run := DataManager.handleOpenModal currentUser categories (Some r) st in
     (SetIsModalOpen true ∈ trace run
      <-> PERMISSIONS.canEditResource currentUser r = true
          /\ is_Some (DataManager.findCategory categories
                        (ResourceItem.categoryId r)))
     /\ (SetIsModalOpen true ∉ trace run -> outcome run = inr st))
  /\ (let run := DataManager.handleOpenModal currentUser categories None st in
      (SetIsModalOpen true ∈ trace run
       <-> DataManager.selectedCategoryId st <> []
           /\ PERMISSIONS.canCreateResource currentUser = true)
      /\ (SetIsModalOpen true ∉ trace run -> outcome run = inr st))
  /\ (forall r,
        let run := DataManager.handleDuplicate currentUser categories r st in
        (SetIsModalOpen true ∈ trace run
         <-> PERMISSIONS.canCreateResource currentUser = true
             /\ is_Some (DataManager.findCategory categories
                           (ResourceItem.categoryId r)))
        /\ (SetIsModalOpen true ∉ trace run -> outcome run = inr st))
  /\ (forall r,
        let run := DataManager.handleDeleteClick currentUser r st in
        if PERMISSIONS.canDeleteResource currentUser r
        then exists st', run = ([], inr st')
                         /\ DataManager.resourceToDelete st' = Some r
        else run = ([Toast MSG_NO_DELETE_RIGHT error], inr st))
  /\ (outcome (DataManager.handleImportClick currentUser
                 (DataManager.selectedCategoryId st)) = inr true
      <-> DataManager.selectedCategoryId st <> []
          /\ PERMISSIONS.canCreateResource currentUser = true).
Proof.
  assert (Hno : forall msg, SetIsModalOpen true ∈ [ShowToast msg error] -> False).
  { intros msg Hin. apply list_elem_of_singleton in Hin. discriminate. }
  assert (Hyes : forall rest, SetIsModalOpen true ∈ SetIsModalOpen true :: rest)
    by (intros rest; left).
  split; [| split; [| split; [| split]]].
  - intros r run. subst run. unfold DataManager.handleOpenModal.
    destruct (PERMISSIONS.canEditResource currentUser r); cbn [negb].
    + destruct (DataManager.findCategory _ _) as [cat|]; eff_simpl; cbn.
      * split; [split; [eauto | intros _; apply Hyes] |].
        intros Hout. exfalso. apply Hout, Hyes.
      * split; [| reflexivity].
        split; [intros Hin; now apply Hno in Hin | intros [_ [? [=]]]].
    + eff_simpl; cbn. split; [| reflexivity].
      split; [intros Hin; now apply Hno in Hin | intros [[=] _]].
  - intros run. subst run. unfold DataManager.handleOpenModal.
    destruct (str_eqb (DataManager.selectedCategoryId st) []) eqn:Hsel;
      unfold str_eqb in Hsel.
    + apply bool_decide_eq_true in Hsel.
      eff_simpl; cbn. split; [| reflexivity].
      split; [intros Hin; now apply Hno in Hin | intros [Hne _]; congruence].
    + apply bool_decide_eq_false in Hsel.
      destruct (PERMISSIONS.canCreateResource currentUser); cbn [negb];
        eff_simpl; cbn.
      * split; [split; [eauto | intros _; apply Hyes] |].
        intros Hout. exfalso. apply Hout, Hyes.
      * split; [| reflexivity].
        split; [intros Hin; now apply Hno in Hin | intros [_ [=]]].
  - intros r run. subst run. unfold DataManager.handleDuplicate.
    destruct (PERMISSIONS.canCreateResource currentUser); cbn [negb].
    + destruct (DataManager.findCategory _ _) as [cat|]; eff_simpl; cbn.
      * split; [split; [eauto | intros _; apply Hyes] |].
        intros Hout. exfalso. apply Hout, Hyes.
      * split; [| reflexivity].
        split; [intros Hin; now apply Hno in Hin | intros [_ [? [=]]]].
    + eff_simpl; cbn. split; [| reflexivity].
      split; [intros Hin; now apply Hno in Hin | intros [[=] _]].
  - intros r run. subst run. unfold DataManager.handleDeleteClick.
    destruct (PERMISSIONS.canDeleteResource currentUser r); cbn [negb];
      [| reflexivity].
    eexists. split; reflexivity.
  - unfold DataManager.handleImportClick.
    destruct (str_eqb (DataManager.selectedCategoryId st) []) eqn:Hsel;
      unfold str_eqb in Hsel.
    + apply bool_decide_eq_true in Hsel. eff_simpl; cbn.
      split; [discriminate | intros [Hne _]; congruence].
    + apply bool_decide_eq_false in Hsel.
      destruct (PERMISSIONS.canCreateResource currentUser); cbn [negb];
        eff_simpl; cbn; [tauto |].
      split; [discriminate | intros [_ [=]]].
Qed.

(** ** Saving the rows of an import *)

Section UploadLemmas.
Context {store : Store}.
Variable cat : Category.t.
Variable u : User.t.
Variable uuid : nat -> jsstring.
Variable now : nat -> Z.


Lemma saveRows_rejected (pre post : list (gmap jsstring JsVal))
    (d : gmap jsstring JsVal) (message : jsstring) (i n : nat) :
  (forall j d', pre !! j = Some d' ->
     resources_upsert (DataManager.importedResource cat u uuid now (j + i) d')
     = None) ->
  resources_upsert
    (DataManager.importedResource cat u uuid now (length pre + i) d)
  = Some message ->
  DataManager.saveRows cat u uuid now i (pre ++ d :: post) n
  = (savedFrom cat u uuid now i pre
     ++ [ResourcesUpsert
           (DataManager.importedResource cat u uuid now (length pre + i) d)],
     inl message).
Proof.
  revert i n. induction pre as [|d0 pre IH]; intros i n Hok Hbad.
  - cbn [app DataManager.saveRows savedFrom length Nat.add] in *.
    unfold dataService.saveResource. rewrite Hbad. reflexivity.
  - cbn [app DataManager.saveRows savedFrom length].
    unfold dataService.saveResource.
    pose proof (Hok 0%nat d0 eq_refl) as H0. cbn [Nat.add] in H0.
    rewrite H0. rewrite IH.
    + eff_simpl. cbn [Nat.add]. now rewrite Nat.add_succ_r.
    + intros j d' Hj. rewrite Nat.add_succ_r. now apply (Hok (S j)).
    + rewrite Nat.add_succ_r. exact Hbad.
Qed.

End UploadLemmas.



(** X16. An import is not all or nothing: when the store refuses the
    record of a line, the lines before it have been saved and stay
    saved, the lines after it are never sent, and the run ends with the
    error toast that carries the store's message instead of a count. *)
Theorem import_stops_at_first_rejection {host : Host} {store : Store}
    (projects : list Project.t) (users : list User.t) (cat : Category.t)
    (currentUser : User.t) (uuid : nat -> jsstring) (now : nat -> Z)
    (text : jsstring) (pre post : list (gmap jsstring JsVal))
    (d : gmap jsstring JsVal) (message : jsstring) :
  DataManager.importCSV projects users cat text
  = DataManager.ImportRows (pre ++ d :: post) ->
  (forall j d', pre !! j = Some d' ->
     resources_upsert
       (DataManager.importedResource cat currentUser uuid now (S j) d')
     = None) ->
  resources_upsert
    (DataManager.importedResource cat currentUser uuid now (S (length pre)) d)
  = Some message ->
  DataManager.handleFileUpload projects users (Some cat) currentUser uuid now
    text
  = (savedFrom cat currentUser uuid now 1 pre
     ++ [ResourcesUpsert
           (DataManager.importedResource cat currentUser uuid now
              (S (length pre)) d);
         ShowToast (MSG_IMPORT_ERROR ++ message) error],
     inr tt).
Proof.
  intros Himp Hok Hbad. unfold DataManager.handleFileUpload. rewrite Himp.
  rewrite (saveRows_rejected cat currentUser uuid now pre post d message).
  - eff_simpl. rewrite Nat.add_1_r, <- app_assoc. reflexivity.
  - intros j d' Hj. rewrite Nat.add_1_r. now apply Hok.
  - rewrite Nat.add_1_r. exact Hbad.
Qed.

Lemma import_stops_at_first_rejection_witness :
  DataManager.handleFileUpload (host := refHost 0)
    (store := rejectingStore (str "id-2")) [] []
    (Some cat_notes) usr_manager uuid_by_line now_by_line csv_two_notes
  = (savedFrom cat_notes usr_manager uuid_by_line now_by_line 1
       [ {[ str "field_6" := VStr (str "first") ]} ]
     ++ [ResourcesUpsert
           (DataManager.importedResource cat_notes usr_manager uuid_by_line
              now_by_line 2 {[ str "field_6" := VStr (str "second") ]});
         ShowToast (MSG_IMPORT_ERROR ++ str "row rejected") error],
     inr tt).
Proof.
  apply (import_stops_at_first_rejection (host := refHost 0)
           (store := rejectingStore (str "id-2")) [] []
           cat_notes usr_manager uuid_by_line now_by_line csv_two_notes
           [ {[ str "field_6" := VStr (str "first") ]} ] []
           {[ str "field_6" := VStr (str "second") ]} (str "row rejected")).
  - vm_compute. reflexivity.
  - intros [|j] d' Hj; [reflexivity | destruct j; discriminate].
  - reflexivity.
Defined.

(** ** The run of a project save *)

Lemma checkCodeExists_run {store : Store} (code : jsstring)
    (excludeId : option jsstring) :
  projectService.checkCodeExists code excludeId
  = ([ProjectsSelectId code (projectService.neqFilter excludeId)],
     outcome (projectService.checkCodeExists code excludeId)).
Proof.
  unfold projectService.checkCodeExists.
  destruct (Response.error _); [reflexivity |].
  destruct (Response.data _); reflexivity.
Qed.

(** X17. A project form with a blank code or a blank name is refused
    before the store is asked anything: the run is one error toast,
    about the code when the code is blank and about the name
    otherwise. *)
Theorem blank_project_is_not_sent {store : Store} (p : PartialProject.t) :
  trim (default [] (PartialProject.code p)) = []
  \/ trim (default [] (PartialProject.name p)) = [] ->
  SystemSettings.handleSave p
  = ([ShowToast (if decide (trim (default [] (PartialProject.code p)) = [])
                 then MSG_CODE_EMPTY else MSG_NAME_EMPTY) error],
     inr tt).
Proof.
  intros Hblank. unfold SystemSettings.handleSave.
  destruct (PartialProject.code p) as [code|]; [| reflexivity].
  change (default [] (Some code)) with code in *. unfold str_eqb.
  destruct (decide (trim code = [])) as [Hc | Hc].
  - now rewrite bool_decide_eq_true_2 by exact Hc.
  - rewrite bool_decide_eq_false_2 by exact Hc.
    destruct Hblank as [Hb | Hb]; [congruence |].
    now rewrite bool_decide_eq_true_2 by exact Hb.
Qed.

Lemma blank_project_is_not_sent_witness :
  SystemSettings.handleSave (store := emptyStore)
    (PartialProject.mk None (Some (str "  ")) (Some (str "PRJ-009")) None None)
  = ([ShowToast MSG_NAME_EMPTY error], inr tt).
Proof.
  apply (blank_project_is_not_sent (store := emptyStore)
           (PartialProject.mk None (Some (str "  ")) (Some (str "PRJ-009"))
              None None)).
  right. reflexivity.
Defined.

(** X18. A project with a code and a name, whose code the check does
    not report as taken, is sent to the store as it stands in the form,
    after the one query of the check. When the store accepts it the
    audit entry says UPDATE for a project that has an id and CREATE
    for one that has none, the form closes and the success toast is
    shown; when the store refuses it there is no audit entry, the form
    stays open and the error toast is shown. *)
Theorem project_save_store_answer {store : Store} (p : PartialProject.t)
    (code : jsstring) :
  PartialProject.code p = Some code ->
  trim code <> [] ->
  trim (default [] (PartialProject.name p)) <> [] ->
  outcome (projectService.checkCodeExists code (PartialProject.id p))
  = inr false ->
  SystemSettings.handleSave p
  = match projects_upsert p with
    | None =>
        ([ProjectsSelectId code (projectService.neqFilter (PartialProject.id p));
          ProjectsUpsert p;
          AuditLog (if decide (default [] (PartialProject.id p) = [])
                    then CREATE else UPDATE)
            (str "Project") (MSG_AUDIT_SAVE_PROJECT ++ code);
          SetIsModalOpen false;
          ShowToast MSG_PROJECT_OK success], inr tt)
    | Some _ =>
        ([ProjectsSelectId code (projectService.neqFilter (PartialProject.id p));
          ProjectsUpsert p;
          ShowToast MSG_PROJECT_ERROR error], inr tt)
    end.
Proof.
  intros Hcode Hc Hn Hex. unfold SystemSettings.handleSave. rewrite Hcode.
  unfold str_eqb. rewrite !bool_decide_eq_false_2 by assumption.
  rewrite checkCodeExists_run, Hex. unfold projectService.save.
  rewrite Hcode. change (default (str "undefined") (Some code)) with code.
  destruct (projects_upsert p) as [message|]; [reflexivity |].
  destruct (PartialProject.id p) as [[|c s]|]; reflexivity.
Qed.

Lemma project_save_store_answer_witness :
  SystemSettings.handleSave (store := emptyStore) prj_new
  = ([ProjectsSelectId (str "PRJ-001") None;
      ProjectsUpsert prj_new;
      AuditLog CREATE (str "Project") (MSG_AUDIT_SAVE_PROJECT ++ str "PRJ-001");
      SetIsModalOpen false;
      ShowToast MSG_PROJECT_OK success], inr tt).
Proof.
  apply (project_save_store_answer (store := emptyStore) prj_new
           (str "PRJ-001")).
  - reflexivity.
  - vm_compute. discriminate.
  - vm_compute. discriminate.
  - reflexivity.
Defined.

(** ** The project list and the board *)

(** X19. The board loses and repeats no project: the columns of the
    board, put side by side, hold the projects of the filtered list,
    each of them once, and a project stands in the column of its
    status and in no other. *)
Theorem board_columns_partition (filteredProjects : list Project.t) :
  concat (SystemSettings.colProjects filteredProjects
            <$> SystemSettings.kanbanColumns)
  ≡ₚ filteredProjects
  /\ forall p col,
       p ∈ SystemSettings.colProjects filteredProjects col
       <-> p ∈ filteredProjects
           /\ SystemSettings.statusText (Project.status p) = col.
Proof.
  split.
  - unfold SystemSettings.kanbanColumns.
    cbn [fmap list_fmap concat]. rewrite app_nil_r.
    induction filteredProjects as [|p l IH]; [reflexivity |].
    unfold SystemSettings.colProjects in *. cbn [List.filter].
    destruct (Project.status p); cbn [SystemSettings.statusText];
      repeat match goal with
             | |- context [str_eqb ?a ?b] =>
                 let v := eval vm_compute in (str_eqb a b) in
                 change (str_eqb a b) with v
             end; cbn iota.
    + cbn [app]. now constructor.
    + rewrite app_assoc.
      etransitivity; [symmetry; apply Permutation_middle |].
      rewrite <- app_assoc. now constructor.
    + cbn [app].
      etransitivity; [symmetry; apply Permutation_middle |].
      now constructor.
  - intros p col. unfold SystemSettings.colProjects.
    rewrite !list_elem_of_In, filter_In. unfold str_eqb.
    now rewrite bool_decide_eq_true.
Qed.

(** ** User and project fields through CSV *)

Lemma readBack_value {host : Host} (projects : list Project.t)
    (users : list User.t) (cat : Category.t) (rs : list ResourceItem.t)
    (i : nat) (r : ResourceItem.t) (f : FieldDefinition.t) :
  csv_safe_category cat ->
  Forall (csv_safe_resource projects users cat) rs ->
  rs !! i = Some r -> f ∈ Category.fields cat ->
  readBack projects users cat rs i f
  = Some (DataManager.importValue projects users f
            (DataManager.stripQuotes
               (trim (dropQuotes (cellText projects users r f))))).
Proof.
  intros Hcat Hrs Hi Hf. unfold readBack.
  assert (Hne : rs <> []) by (intros ->; inversion Hi).
  assert (Hfs : Category.fields cat <> [])
    by (intros Heq; rewrite Heq in Hf; inversion Hf).
  rewrite (importCSV_export projects users cat rs Hcat Hrs Hne Hfs).
  cbn [importedRows]. rewrite list_lookup_fmap, Hi.
  cbn [fmap option_fmap option_map mbind option_bind].
  assert (Hr : csv_safe_resource projects users cat r).
  { rewrite Forall_forall in Hrs. apply Hrs.
    apply list_elem_of_lookup. eauto. }
  apply list_elem_of_lookup in Hf as [j Hj].
  destruct (indexedKeys_split 1 j (Category.fields cat) f
              (keys_distinct cat Hcat) Hj) as (pre & post & -> & Hpost).
  rewrite app_assoc.
  rewrite (importCells_last projects users (Category.fields cat) _ _ post ∅
             (1 + j) (FieldDefinition.key f) f Hpost).
  - destruct (parse_row projects users cat r Hr) as [rest ->].
    cbn [Nat.add]. rewrite lookup_cons.
    rewrite lookup_app_l
      by (rewrite length_fmap; eapply lookup_lt_Some; exact Hj).
    rewrite list_lookup_fmap, Hj. reflexivity.
  - unfold DataManager.findFieldByKey, str_eqb.
    apply (find_unique FieldDefinition.key).
    + apply (keys_distinct cat Hcat).
    + apply list_elem_of_lookup. eauto.
Qed.

Lemma raw_of_plain (s : jsstring) :
  plain s -> trim s = s ->
  DataManager.stripQuotes (trim (dropQuotes s)) = s.
Proof.
  intros (_ & Hq & _) Htrim.
  rewrite (dropQuotes_no_quote s Hq), Htrim.
  now apply stripQuotes_no_quote.
Qed.

Lemma displayName_matches (u : User.t) :
  str_eqb (User.username u) (DataManager.displayName u)
  || bool_decide (User.fullName u = Some (DataManager.displayName u))
  || str_eqb (User.email u) (DataManager.displayName u)
  || str_eqb (User.id u) (DataManager.displayName u) = true.
Proof.
  unfold DataManager.displayName, orString, str_eqb.
  destruct (User.fullName u) as [[|c s]|].
  - now rewrite (bool_decide_eq_true_2 (User.username u = User.username u)).
  - rewrite (bool_decide_eq_true_2 (Some (c :: s) = Some (c :: s))) by reflexivity.
    now rewrite orb_true_r.
  - now rewrite (bool_decide_eq_true_2 (User.username u = User.username u)).
Qed.

(** X20. One known user survives the round trip: for a category and
    records that are safe for CSV, a user field that holds the id of
    one loaded user, whose displayed name has no white space at its
    ends and names no loaded user of another id by login, full name,
    email or id, is read back after an export and an import as the
    array of that same id. *)
Theorem csv_round_trip_keeps_known_user {host : Host}
    (projects : list Project.t) (users : list User.t) (cat : Category.t)
    (rs : list ResourceItem.t) (i : nat) (r : ResourceItem.t)
    (f : FieldDefinition.t) (id : jsstring) (u : User.t) :
  csv_safe_category cat ->
  Forall (csv_safe_resource projects users cat) rs ->
  rs !! i = Some r -> f ∈ Category.fields cat ->
  FieldDefinition.type f = FieldType.user ->
  DataManager.dataValue r (FieldDefinition.key f) = VArr [VStr id] ->
  id <> str "all" ->
  List.find (fun usr => str_eqb (User.id usr) id) users = Some u ->
  trim (DataManager.displayName u) = DataManager.displayName u ->
  (forall u', u' ∈ users ->
     User.username u' = DataManager.displayName u
     \/ User.fullName u' = Some (DataManager.displayName u)
     \/ User.email u' = DataManager.displayName u
     \/ User.id u' = DataManager.displayName u ->
     User.id u' = id) ->
  readBack projects users cat rs i f = Some (VArr [VStr id]).
Proof.
  intros Hcat Hrs Hi Hf Htype Hval Hid Hu Htrim Huniq.
  rewrite (readBack_value projects users cat rs i r f Hcat Hrs Hi Hf).
  assert (Hcell : cellText projects users r f = DataManager.displayName u).
  { unfold cellText, DataManager.exportCell. rewrite Htype, Hval.
    unfold DataManager.getUserName. cbn [fmap list_fmap].
    unfold str_eqb at 1. rewrite bool_decide_eq_false_2 by exact Hid.
    rewrite Hu. reflexivity. }
  assert (Hplain : plain (DataManager.displayName u)).
  { rewrite <- Hcell.
    assert (Hr : csv_safe_resource projects users cat r).
    { rewrite Forall_forall in Hrs. apply Hrs.
      apply list_elem_of_lookup. eauto. }
    destruct Hr as (_ & _ & _ & Hcells). specialize (Hcells f Hf).
    unfold csv_safe_cell in Hcells. rewrite Htype in Hcells. exact Hcells. }
  rewrite Hcell, (raw_of_plain _ Hplain Htrim).
  unfold DataManager.importValue. rewrite Htype.
  destruct (List.find (fun usr => str_eqb (User.username usr) _ || _ || _ || _)
              users) as [u'|] eqn:Hfind.
  - apply find_some in Hfind as [Hin Hmatch].
    rewrite (Huniq u'); [reflexivity | now apply list_elem_of_In |].
    unfold str_eqb in Hmatch.
    rewrite !orb_true_iff, !bool_decide_eq_true in Hmatch. tauto.
  - apply find_some in Hu as [Hin _].
    pose proof (List.find_none _ _ Hfind u Hin) as Hno. cbn beta in Hno.
    now rewrite displayName_matches in Hno.
Qed.

Lemma cat_owned_notes_csv_safe :
  csv_safe_category (host := refHost 0) cat_owned_notes.
Proof.
  split.
  - intros f Hf. cbn in Hf. rewrite !elem_of_cons in Hf.
    destruct Hf as [-> | [-> | Hf]]; [| | inversion Hf];
      (split; [repeat split; decide_list_fact | reflexivity]).
  - decide_list_fact.
  - decide_list_fact.
  - intros f Hf. cbn in Hf. rewrite !elem_of_cons in Hf.
    destruct Hf as [-> | [-> | Hf]]; [| | inversion Hf];
      repeat split; vm_compute; discriminate.
Qed.

Lemma owned_note_csv_safe (users : list User.t) (owner note : jsstring) :
  plain (cellText (host := refHost 0) [] users
           (res_with {[ str "field_2" := VArr [VStr owner];
                        str "field_6" := VStr note ]}) fld_owner) ->
  LF ∉ note ->
  csv_safe_resource (host := refHost 0) [] users cat_owned_notes
    (res_with {[ str "field_2" := VArr [VStr owner];
                 str "field_6" := VStr note ]}).
Proof.
  intros Howner Hnote. repeat split; try decide_list_fact.
  intros f Hf. cbn in Hf. rewrite !elem_of_cons in Hf.
  destruct Hf as [-> | [-> | Hf]]; [| | inversion Hf].
  - exact Howner.
  - exact Hnote.
Qed.

Lemma csv_round_trip_keeps_known_user_witness :
  readBack (host := refHost 0) [] [usr_manager; usr_binh] cat_owned_notes
    [res_one_owner] 0 fld_owner
  = Some (VArr [VStr (str "u1")]).
Proof.
  apply (csv_round_trip_keeps_known_user (host := refHost 0) []
           [usr_manager; usr_binh] cat_owned_notes [res_one_owner] 0
           res_one_owner fld_owner (str "u1") usr_manager).
  - exact cat_owned_notes_csv_safe.
  - constructor; [| constructor].
    apply owned_note_csv_safe; repeat split; decide_list_fact.
  - reflexivity.
  - left.
  - reflexivity.
  - reflexivity.
  - discriminate.
  - reflexivity.
  - reflexivity.
  - intros u' Hu'. rewrite !elem_of_cons in Hu'.
    destruct Hu' as [-> | [-> | Hu']]; [reflexivity | | inversion Hu'].
    vm_compute. intros [H | [H | [H | H]]]; discriminate.
Defined.

(** X21. The wildcard does not survive the round trip: for a category
    and records that are safe for CSV, a user or project field that
    holds the wildcard [all] is exported as its label, and, unless a
    loaded user or project goes by that label, is read back as an
    array that holds the label as if it were an id. The value read back
    is no wildcard: it fails the filter of the field for every id
    looked for other than the label, where the stored value passed for
    all of them. *)
Theorem csv_round_trip_loses_wildcard {host : Host}
    (projects : list Project.t) (users : list User.t) (cat : Category.t)
    (rs : list ResourceItem.t) (i : nat) (r : ResourceItem.t)
    (f : FieldDefinition.t) :
  csv_safe_category cat ->
  Forall (csv_safe_resource projects users cat) rs ->
  rs !! i = Some r -> f ∈ Category.fields cat ->
  DataManager.dataValue r (FieldDefinition.key f) = VArr [VStr (str "all")] ->
  match FieldDefinition.type f with
  | FieldType.user =>
      forall u, u ∈ users ->
        User.username u <> LABEL_ALL /\ User.fullName u <> Some LABEL_ALL
        /\ User.email u <> LABEL_ALL /\ User.id u <> LABEL_ALL
  | FieldType.project =>
      forall p, p ∈ projects ->
        Project.code p <> LABEL_ALL /\ Project.name p <> LABEL_ALL
        /\ Project.id p <> LABEL_ALL
  | _ => False
  end ->
  readBack projects users cat rs i f = Some (VArr [VStr LABEL_ALL])
  /\ forall filterVal, filterVal <> LABEL_ALL ->
       DataManager.relationStep (VArr [VStr (str "all")]) filterVal = ReturnTrue
       /\ DataManager.relationStep (VArr [VStr LABEL_ALL]) filterVal
          = ReturnFalse.
Proof.
  intros Hcat Hrs Hi Hf Hval Hnone. split.
  - rewrite (readBack_value projects users cat rs i r f Hcat Hrs Hi Hf).
    assert (Hraw : DataManager.stripQuotes (trim (dropQuotes LABEL_ALL))
                   = LABEL_ALL) by reflexivity.
    unfold cellText, DataManager.exportCell, DataManager.importValue.
    rewrite Hval.
    destruct (FieldDefinition.type f); try contradiction.
    + change (joinElem (DataManager.getProjectName projects
                          (VArr [VStr (str "all")]))) with LABEL_ALL.
      rewrite Hraw.
      destruct (List.find _ projects) as [p|] eqn:Hfind; [| reflexivity].
      exfalso. apply find_some in Hfind as [Hin Hmatch].
      apply list_elem_of_In in Hin.
      destruct (Hnone p Hin) as (H1 & H2 & H3).
      unfold str_eqb in Hmatch.
      rewrite !orb_true_iff, !bool_decide_eq_true in Hmatch. tauto.
    + change (joinElem (DataManager.getUserName users
                          (VArr [VStr (str "all")]))) with LABEL_ALL.
      rewrite Hraw.
      destruct (List.find _ users) as [u|] eqn:Hfind; [| reflexivity].
      exfalso. apply find_some in Hfind as [Hin Hmatch].
      apply list_elem_of_In in Hin.
      destruct (Hnone u Hin) as (H1 & H2 & H3 & H4).
      unfold str_eqb in Hmatch.
      rewrite !orb_true_iff, !bool_decide_eq_true in Hmatch. tauto.
  - intros filterVal Hne. split; [reflexivity |].
    unfold DataManager.relationStep.
    change (arrIncludes [VStr LABEL_ALL] (str "all")) with false.
    cbn [arrIncludes existsb]. unfold str_eqb.
    rewrite bool_decide_eq_false_2 by congruence. reflexivity.
Qed.

Lemma csv_round_trip_loses_wildcard_witness :
  readBack (host := refHost 0) [] [usr_manager; usr_binh] cat_owned_notes
    [res_open_note] 0 fld_owner
  = Some (VArr [VStr LABEL_ALL]).
Proof.
  apply (csv_round_trip_loses_wildcard (host := refHost 0) []
           [usr_manager; usr_binh] cat_owned_notes [res_open_note] 0
           res_open_note fld_owner).
  - exact cat_owned_notes_csv_safe.
  - constructor; [| constructor].
    apply owned_note_csv_safe; repeat split; decide_list_fact.
  - reflexivity.
  - left.
  - reflexivity.
  - intros u Hu. rewrite !elem_of_cons in Hu.
    destruct Hu as [-> | [-> | Hu]]; [| | inversion Hu];
      repeat split; discriminate.
Defined.

(** ** The menu and the pages *)

Ltac page_case page s :=
  let H := fresh "Hp" in
  destruct (str_eqb page (str s)) eqn:H; unfold str_eqb in H;
  [apply bool_decide_eq_true in H; subst page
  | apply bool_decide_eq_false in H].

(** X22. The menu offers no page that turns the user away: every entry
    of the menu of a signed-in user leads to a view, and the notice that
    a page is not for this user is shown exactly for the schema, member,
    activity and settings pages to a user who is no admin, pages that
    the menu of such a user does not hold. *)
Theorem menu_leads_to_allowed_pages (user : User.t) :
  (forall page, page ∈ Layout.menuItems user ->
     App.renderContent (Some user) page <> App.NoAccess
     /\ App.renderContent (Some user) page <> App.Nothing)
  /\ (forall page,
        App.renderContent (Some user) page = App.NoAccess
        <-> User.role user <> Role.admin
            /\ page ∈ [str "schema"; str "users"; str "activity";
                       str "settings"]).
Proof.
  destruct user as [i n e fn av role]. split.
  - intros page Hin.
    unfold Layout.menuItems, PERMISSIONS.canManageSchema in Hin.
    cbn [User.role] in Hin.
    destruct role; cbn [app] in Hin;
      repeat (apply elem_of_cons in Hin as [-> | Hin]);
      try (now inversion Hin); vm_compute; split; discriminate.
  - intros page. unfold App.renderContent, App.adminOnly. cbn [User.role].
    page_case page "dashboard".
    { split; [discriminate |]. intros [_ Hin]. rewrite !elem_of_cons in Hin.
      repeat (destruct Hin as [Hin | Hin];
              [vm_compute in Hin; discriminate Hin |]).
      inversion Hin. }
    page_case page "schema".
    { destruct role; split; try discriminate; try (intros [Hr _]; congruence);
        intros _; (split; [discriminate | decide_list_fact]). }
    page_case page "users".
    { destruct role; split; try discriminate; try (intros [Hr _]; congruence);
        intros _; (split; [discriminate | decide_list_fact]). }
    page_case page "activity".
    { destruct role; split; try discriminate; try (intros [Hr _]; congruence);
        intros _; (split; [discriminate | decide_list_fact]). }
    page_case page "settings".
    { destruct role; split; try discriminate; try (intros [Hr _]; congruence);
        intros _; (split; [discriminate | decide_list_fact]). }
    assert (Hout : page ∉ [str "schema"; str "users"; str "activity";
                           str "settings"]).
    { rewrite !not_elem_of_cons. repeat split; try assumption.
      intros Hin. inversion Hin. }
    page_case page "data"; [split; [discriminate | tauto] |].
    page_case page "projects"; [split; [discriminate | tauto] |].
    page_case page "profile"; split; solve [discriminate | tauto].
Qed.

(** ** Deleting a member and deleting a record *)

Ltac run_simpl :=
  cbv [mbind mret Run_bind Run_ret perform raise try_run toast audit calls
       result fst snd] in *.

Lemma userClick_not_self (currentUser user : User.t) (s s' : option User.t) :
  (forall u, s = Some u -> User.id u <> User.id currentUser) ->
  result (UserManager.handleDeleteClick currentUser user s) = inr s' ->
  forall u, s' = Some u -> User.id u <> User.id currentUser.
Proof.
  intros Hs. unfold UserManager.handleDeleteClick.
  destruct (str_eqb (User.id user) (User.id currentUser)) eqn:Heq;
    unfold str_eqb in Heq; run_simpl; intros [= <-].
  - exact Hs.
  - apply bool_decide_eq_false in Heq. intros u [= <-]. exact Heq.
Qed.

Lemma afterUserClicks_not_self (currentUser : User.t) (clicked : list User.t)
    (s : option User.t) :
  (forall u, s = Some u -> User.id u <> User.id currentUser) ->
  forall u, afterUserClicks currentUser clicked s = Some u ->
            User.id u <> User.id currentUser.
Proof.
  revert s. induction clicked as [|user rest IH]; intros s Hs; [exact Hs |].
  cbn [afterUserClicks].
  destruct (result (UserManager.handleDeleteClick currentUser user s))
    as [msg | s'] eqn:Hres; [exact Hs |].
  apply IH. now apply (userClick_not_self currentUser user s s').
Qed.

Lemma afterUserClicks_last (currentUser user : User.t) (clicked : list User.t)
    (s : option User.t) :
  User.id user <> User.id currentUser ->
  afterUserClicks currentUser (clicked ++ [user]) s = Some user.
Proof.
  intros Hne. revert s. induction clicked as [|c rest IH]; intros s.
  - cbn. unfold UserManager.handleDeleteClick, str_eqb.
    now rewrite bool_decide_eq_false_2 by exact Hne.
  - cbn [app afterUserClicks].
    destruct (result (UserManager.handleDeleteClick currentUser c s))
      as [msg | s'] eqn:Hres; [| apply IH].
    exfalso. revert Hres. unfold UserManager.handleDeleteClick.
    destruct (str_eqb _ _); run_simpl; discriminate.
Qed.

(** X23. Nobody deletes the own account from the member view: whatever
    delete buttons have been clicked and in whatever order, confirming
    the deletion never asks the store to delete the profile of the
    current user; after a click on another user, confirming asks for
    the deletion of that user. *)
Theorem own_account_is_never_deleted {backend : Backend} (currentUser : User.t)
    (clicked : list User.t) :
  (ProfilesDelete (User.id currentUser)
     ∉ calls (UserManager.confirmDelete
                (afterUserClicks currentUser clicked None)))
  /\ forall user, User.id user <> User.id currentUser ->
       exists rest,
         calls (UserManager.confirmDelete
                  (afterUserClicks currentUser (clicked ++ [user]) None))
         = ProfilesDelete (User.id user) :: rest.
Proof.
  split.
  - pose proof (afterUserClicks_not_self currentUser clicked None) as Hself.
    destruct (afterUserClicks currentUser clicked None) as [u|].
    + assert (Hne : User.id u <> User.id currentUser)
        by (apply Hself; [discriminate | reflexivity]).
      unfold UserManager.confirmDelete, authService.deleteUser.
      destruct (profiles_delete (User.id u)); run_simpl; cbn;
        rewrite !elem_of_cons; intros Hin;
        repeat (destruct Hin as [Hin | Hin]; [congruence |]);
        inversion Hin.
    + cbn. intros Hin. inversion Hin.
  - intros user Hne. rewrite (afterUserClicks_last _ _ _ _ Hne).
    unfold UserManager.confirmDelete, authService.deleteUser.
    destruct (profiles_delete (User.id user)); run_simpl; cbn; eauto.
Qed.

Lemma deleteClick_armed (currentUser : User.t) (r : ResourceItem.t)
    (clicked : list ResourceItem.t) (st s' : DataManager.FormState) :
  (forall x, DataManager.resourceToDelete st = Some x ->
     x ∈ clicked /\ PERMISSIONS.canDeleteResource currentUser x = true) ->
  result (DataManager.handleDeleteClick currentUser r st) = inr s' ->
  forall x, DataManager.resourceToDelete s' = Some x ->
    x ∈ r :: clicked /\ PERMISSIONS.canDeleteResource currentUser x = true.
Proof.
  intros Hst. unfold DataManager.handleDeleteClick.
  destruct (PERMISSIONS.canDeleteResource currentUser r) eqn:Hperm;
    run_simpl; cbn [negb]; intros [= <-] x Hx.
  - cbn in Hx. injection Hx as <-. split; [left | exact Hperm].
  - destruct (Hst x Hx) as [Hin Hp]. split; [now right | exact Hp].
Qed.

Lemma afterDeleteClicks_armed (currentUser : User.t)
    (clicked seen : list ResourceItem.t) (st : DataManager.FormState) :
  (forall x, DataManager.resourceToDelete st = Some x ->
     x ∈ seen /\ PERMISSIONS.canDeleteResource currentUser x = true) ->
  forall x,
    DataManager.resourceToDelete (afterDeleteClicks currentUser clicked st)
    = Some x ->
    x ∈ seen ++ clicked /\ PERMISSIONS.canDeleteResource currentUser x = true.
Proof.
  revert seen st. induction clicked as [|r rest IH]; intros seen st Hst x Hx.
  - rewrite app_nil_r. now apply Hst.
  - cbn [afterDeleteClicks] in Hx.
    destruct (result (DataManager.handleDeleteClick currentUser r st))
      as [msg | s'] eqn:Hres.
    + destruct (Hst x Hx) as [Hin Hp]. split; [| exact Hp].
      apply elem_of_app. now left.
    + destruct (IH (r :: seen) s'
                  (deleteClick_armed currentUser r seen st s' Hst Hres) x Hx)
        as [Hin Hp].
      split; [| exact Hp].
      rewrite elem_of_app, elem_of_cons in *. tauto.
Qed.

(** X24. Only a record that the user may delete is deleted: from a
    view with no deletion armed, whatever delete buttons have been
    clicked, a deletion that the confirmation sends to the store is that
    of a clicked record for which [canDeleteResource] holds. *)
Theorem only_permitted_records_are_deleted {backend : Backend}
    (currentUser : User.t) (clicked : list ResourceItem.t)
    (st : DataManager.FormState) (id : jsstring) :
  DataManager.resourceToDelete st = None ->
  ResourcesDelete id
    ∈ calls (DataManager.confirmDelete
               (afterDeleteClicks currentUser clicked st)) ->
  exists r, r ∈ clicked /\ ResourceItem.id r = id
            /\ PERMISSIONS.canDeleteResource currentUser r = true.
Proof.
  intros Hnone Hin.
  pose proof (afterDeleteClicks_armed currentUser clicked [] st) as Harmed.
  unfold DataManager.confirmDelete in Hin.
  destruct (DataManager.resourceToDelete
              (afterDeleteClicks currentUser clicked st)) as [r|] eqn:Hr.
  - destruct (Harmed ltac:(intros x Hx; congruence) r eq_refl) as [Hr_in Hperm].
    exists r. split; [exact Hr_in |]. split; [| exact Hperm].
    unfold dataService.deleteResource in Hin.
    destruct (resources_delete (ResourceItem.id r)); run_simpl; cbn in Hin;
      rewrite !elem_of_cons in Hin;
      repeat (destruct Hin as [Hin | Hin]; [congruence |]);
      inversion Hin.
  - cbn in Hin. inversion Hin.
Qed.

Lemma only_permitted_records_are_deleted_witness :
  exists r, r ∈ [res_all_done; res_laptop]
            /\ ResourceItem.id r = str "r7"
            /\ PERMISSIONS.canDeleteResource usr_binh r = true.
Proof.
  apply (only_permitted_records_are_deleted (backend := okBackend) usr_binh
           [res_all_done; res_laptop] st_all (str "r7")).
  - reflexivity.
  - vm_compute. left.
Defined.

(** ** Building a category *)

Lemma existsb_blank_false (fields : list FieldDefinition.t) :
  existsb (fun f => str_eqb (trim (FieldDefinition.name f)) []) fields = false ->
  Forall (fun f => trim (FieldDefinition.name f) <> []) fields.
Proof.
  induction fields as [|f fields IH]; intros Hex; [constructor |].
  cbn in Hex. apply orb_false_elim in Hex as [Hf Hex].
  constructor; [| now apply IH].
  unfold str_eqb in Hf. now apply bool_decide_eq_false in Hf.
Qed.

(** X25. What the builder sends to the store is a well-formed category:
    a category that [handleSaveCategory] writes has a name that is not
    blank and at least one field, every field has a name that is not
    blank, and the fields are those of the builder. With a fresh id
    that is not empty the category written has an id, so that its audit
    entry says UPDATE also for a category that is new. *)
Theorem saved_category_is_well_formed {backend : Backend} (uuid : jsstring)
    (now : Z) (st : SchemaBuilder.State) (c : Category.t) (icon : jsstring) :
  CategoriesUpsert c icon ∈ calls (SchemaBuilder.handleSaveCategory uuid now st) ->
  trim (Category.name c) <> []
  /\ Category.fields c <> []
  /\ Forall (fun f => trim (FieldDefinition.name f) <> []) (Category.fields c)
  /\ PartialCategory.fields (SchemaBuilder.currentCategory st)
     = Some (Category.fields c)
  /\ (uuid <> [] ->
      Category.id c <> []
      /\ forall a t d,
           Audit a t d ∈ calls (SchemaBuilder.handleSaveCategory uuid now st) ->
           a = UPDATE).
Proof.
  unfold SchemaBuilder.handleSaveCategory.
  destruct (str_eqb (trim (default [] (PartialCategory.name
                                         (SchemaBuilder.currentCategory st)))) [])
    eqn:Hname; unfold str_eqb in Hname.
  { run_simpl; cbn. intros Hin. apply list_elem_of_singleton in Hin.
    discriminate. }
  apply bool_decide_eq_false in Hname.
  destruct (PartialCategory.fields (SchemaBuilder.currentCategory st))
    as [[|f fields]|] eqn:Hfields;
    try (run_simpl; cbn; intros Hin; apply list_elem_of_singleton in Hin;
         discriminate).
  destruct (existsb _ (f :: fields)) eqn:Hblank.
  { run_simpl; cbn. intros Hin. apply list_elem_of_singleton in Hin.
    discriminate. }
  apply existsb_blank_false in Hblank.
  set (cat := SchemaBuilder.categoryToSave _ _ _ _).
  set (ic := orString _ ICON_FOLDER).
  assert (Hid : uuid <> [] -> Category.id cat <> []).
  { intros Huuid. subst cat. unfold SchemaBuilder.categoryToSave, orString.
    cbn [Category.id].
    destruct (PartialCategory.id _) as [[|x s]|]; congruence. }
  assert (Hshape : forall rest,
            CategoriesUpsert c icon ∈ CategoriesUpsert cat ic :: rest ->
            (forall x, x ∈ rest -> forall c' i', x <> CategoriesUpsert c' i') ->
            c = cat).
  { intros rest Hin Hrest. apply elem_of_cons in Hin as [[= -> ->] | Hin];
      [reflexivity |].
    exfalso. now apply (Hrest _ Hin c icon). }
  unfold dataService.saveCategory.
  destruct (categories_upsert cat ic) as [message|]; run_simpl; cbn;
    intros Hin; apply Hshape in Hin;
    try (intros x Hx c' i'; rewrite !elem_of_cons in Hx;
         repeat (destruct Hx as [-> | Hx]; [discriminate |]); inversion Hx);
    subst c; (split; [exact Hname |]); (split; [discriminate |]);
    (split; [exact Hblank |]); (split; [reflexivity |]);
    intros Huuid; (split; [now apply Hid |]);
    intros a t d Ha; rewrite !elem_of_cons in Ha.
  - repeat (destruct Ha as [[=] | Ha]). inversion Ha.
  - destruct Ha as [[=] | [[= -> _ _] | [[=] | Ha]]]; [| inversion Ha].
    unfold str_eqb. rewrite bool_decide_eq_false_2; [reflexivity |].
    now apply Hid.
Qed.

Lemma saved_category_is_well_formed_witness :
  trim (str "Assets") <> []
  /\ [fld_name] <> []
  /\ Forall (fun f => trim (FieldDefinition.name f) <> []) [fld_name]
  /\ PartialCategory.fields draft_category = Some [fld_name]
  /\ (str "id-5" <> [] ->
      str "id-5" <> []
      /\ forall a t d,
           Audit a t d
             ∈ calls (SchemaBuilder.handleSaveCategory (backend := okBackend)
                        (str "id-5") 1700000000000
                        {| SchemaBuilder.currentCategory := draft_category;
                           SchemaBuilder.isEditing := true |}) ->
           a = UPDATE).
Proof.
  apply (saved_category_is_well_formed (backend := okBackend) (str "id-5")
           1700000000000
           {| SchemaBuilder.currentCategory := draft_category;
              SchemaBuilder.isEditing := true |}
           (Category.mk (str "id-5") (str "Assets") [] [fld_name]
              1700000000000 public)
           ICON_FOLDER).
  vm_compute. left.
Defined.

Lemma filter_id_fresh (fields : list FieldDefinition.t) (id : jsstring) :
  Forall (fun f => FieldDefinition.id f <> id) fields ->
  List.filter (fun f => negb (str_eqb (FieldDefinition.id f) id)) fields = fields.
Proof.
  induction 1 as [|f fields Hf _ IH]; [reflexivity |].
  cbn. unfold str_eqb at 1. rewrite bool_decide_eq_false_2 by exact Hf.
  cbn. now rewrite IH.
Qed.

Lemma update_keeps_ids_keys (id : jsstring) (updates : PartialField.t)
    (fields : list FieldDefinition.t) :
  PartialField.id updates = None -> PartialField.key updates = None ->
  let fields' :=
    (fun f => if str_eqb (FieldDefinition.id f) id
              then SchemaBuilder.merge f updates else f) <$> fields in
  FieldDefinition.id <$> fields' = FieldDefinition.id <$> fields
  /\ FieldDefinition.key <$> fields' = FieldDefinition.key <$> fields.
Proof.
  intros Hid Hkey fields'. subst fields'. rewrite <- !list_fmap_compose.
  split; apply list_fmap_ext; intros j f _; cbn;
    destruct (str_eqb (FieldDefinition.id f) id); try reflexivity;
    unfold SchemaBuilder.merge; cbn; [now rewrite Hid | now rewrite Hkey].
Qed.

(** X26. Editing the fields of the builder: a field just added has no
    name, so that a category with a name cannot be saved until the
    field is named, and nothing is sent to the store; removing the
    field just added, when its id is fresh, gives back the fields as
    they were; an update of the name, type or required flag of a field
    keeps the number, the order, the ids and the keys of the fields. *)
Theorem field_edits_of_the_builder {backend : Backend} (uuid : jsstring)
    (now : Z) (prev : PartialCategory.t) :
  (forall uuid' now' isEditing,
     trim (default [] (PartialCategory.name prev)) <> [] ->
     let st := {| SchemaBuilder.currentCategory :=
                    SchemaBuilder.handleAddField uuid now prev;
                  SchemaBuilder.isEditing := isEditing |} in
     SchemaBuilder.handleSaveCategory uuid' now' st
     = ([Toast MSG_FIELD_NAME_EMPTY error], inr st))
  /\ (Forall (fun f => FieldDefinition.id f <> uuid)
        (default [] (PartialCategory.fields prev)) ->
      PartialCategory.fields
        (SchemaBuilder.handleRemoveField uuid
           (SchemaBuilder.handleAddField uuid now prev))
      = Some (default [] (PartialCategory.fields prev)))
  /\ (forall id updates,
        PartialField.id updates = None -> PartialField.key updates = None ->
        let fields := default [] (PartialCategory.fields prev) in
        let fields' := default [] (PartialCategory.fields
                                     (SchemaBuilder.handleUpdateField id updates
                                        prev)) in
        FieldDefinition.id <$> fields' = FieldDefinition.id <$> fields
        /\ FieldDefinition.key <$> fields' = FieldDefinition.key <$> fields).
Proof.
  split; [| split].
  - intros uuid' now' isEditing Hname st. subst st.
    unfold SchemaBuilder.handleSaveCategory.
    cbn [SchemaBuilder.currentCategory SchemaBuilder.handleAddField
         SchemaBuilder.withFields PartialCategory.name PartialCategory.fields].
    unfold str_eqb at 1. rewrite bool_decide_eq_false_2 by exact Hname.
    assert (Hblank : existsb
                       (fun f => str_eqb (trim (FieldDefinition.name f)) [])
                       (default [] (PartialCategory.fields prev)
                        ++ [SchemaBuilder.newField uuid now]) = true).
    { rewrite existsb_app. apply orb_true_iff. right. reflexivity. }
    destruct (default [] (PartialCategory.fields prev)
              ++ [SchemaBuilder.newField uuid now]) as [|f fields] eqn:Hfs.
    { now apply app_eq_nil in Hfs as [_ [=]]. }
    now rewrite Hblank.
  - intros Hfresh.
    unfold SchemaBuilder.handleRemoveField, SchemaBuilder.handleAddField.
    cbn [SchemaBuilder.withFields PartialCategory.fields fmap option_fmap
         option_map].
    f_equal. rewrite List.filter_app, (filter_id_fresh _ _ Hfresh). cbn.
    unfold str_eqb. rewrite bool_decide_eq_true_2 by reflexivity.
    cbn. apply app_nil_r.
  - intros id updates Hid Hkey fields fields'. subst fields fields'.
    unfold SchemaBuilder.handleUpdateField.
    cbn [SchemaBuilder.withFields PartialCategory.fields].
    destruct (PartialCategory.fields prev) as [fields|]; [| split; reflexivity].
    exact (update_keeps_ids_keys id updates fields Hid Hkey).
Qed.

(** ** Changing the password *)

(** X27. The password is changed only after every check: the store is
    asked to set a password exactly when the new password and its
    confirmation are the same string of at least six code units and
    the sign-in with the old password succeeds, and the password it is
    asked to set is the new one; the attempt to sign in is made only
    after the two checks of the form. *)
Theorem password_changes_only_after_checks {backend : Backend}
    (currentUser : User.t) (form : UserProfile.PasswordForm) :
  let run := UserProfile.handleChangePassword currentUser form in
  let formOk :=
    UserProfile.newPassword form = UserProfile.confirmPassword form
    /\ (6 <= length (UserProfile.newPassword form))%nat in
  (forall password,
     UpdateUserPassword password ∈ calls run
     <-> password = UserProfile.newPassword form
         /\ formOk
         /\ sign_in_with_password (User.email currentUser)
              (UserProfile.oldPassword form) = None)
  /\ (forall email password,
        SignInWithPassword email password ∈ calls run
        <-> email = User.email currentUser
            /\ password = UserProfile.oldPassword form /\ formOk)
  /\ (Toast MSG_PASSWORD_OK success ∈ calls run ->
      result run = inr {| UserProfile.oldPassword := [];
                          UserProfile.newPassword := [];
                          UserProfile.confirmPassword := [] |})
  /\ (Toast MSG_PASSWORD_OK success ∉ calls run -> result run = inr form).
Proof.
  intros run formOk. subst run.
  assert (Hok : formOk
                <-> str_eqb (UserProfile.newPassword form)
                            (UserProfile.confirmPassword form) = true
                    /\ (length (UserProfile.newPassword form) <? 6)%nat = false).
  { subst formOk. unfold str_eqb. rewrite bool_decide_eq_true, Nat.ltb_ge.
    tauto. }
  clearbody formOk.
  unfold UserProfile.handleChangePassword, authService.changePassword.
  destruct (str_eqb _ _) eqn:E1; cbn [negb];
    [destruct (_ <? 6)%nat eqn:E2;
     [| destruct (sign_in_with_password _ _) eqn:E3;
        [| destruct (update_user_password _) eqn:E4]] |];
    run_simpl; cbn [app];
    (split; [intros password | split; [intros email password | split]]);
    rewrite ?elem_of_cons, ?elem_of_nil, ?Hok;
    intuition (try discriminate; try congruence).
Qed.


(** ** The dashboard *)

Lemma chartTotal_positive {A : Type} (items : list (A * nat)) :
  chartTotal (List.filter (fun item => (0 <? item.2)%nat) items)
  = chartTotal items.
Proof.
  unfold chartTotal. induction items as [|[a n] items IH]; [reflexivity |].
  cbn [List.filter snd]. destruct n as [|n].
  - change (0 <? 0)%nat with false. cbn iota.
    rewrite fmap_cons. exact IH.
  - change (0 <? S n)%nat with true. cbn iota.
    rewrite !fmap_cons. cbn [sum_list_with]. now rewrite IH.
Qed.

Lemma countStatus_total (projects : list Project.t) :
  (Dashboard.countStatus projects active
   + Dashboard.countStatus projects completed
   + Dashboard.countStatus projects paused)%nat
  = length projects.
Proof.
  unfold Dashboard.countStatus.
  induction projects as [|p projects IH]; [reflexivity |].
  cbn [List.filter length].
  destruct (Project.status p); cbn [SystemSettings.statusText] in *;
    repeat match goal with
           | |- context [str_eqb ?a ?b] =>
               let v := eval vm_compute in (str_eqb a b) in
               change (str_eqb a b) with v
           end; cbn [length]; lia.
Qed.

Lemma count_loaded (ids : list jsstring) (id : jsstring)
    (res : list ResourceItem.t) :
  id ∉ ids ->
  length (List.filter
            (fun r => bool_decide (ResourceItem.categoryId r ∈ id :: ids)) res)
  = (length (List.filter (fun r => str_eqb (ResourceItem.categoryId r) id) res)
     + length (List.filter
                 (fun r => bool_decide (ResourceItem.categoryId r ∈ ids)) res))%nat.
Proof.
  intros Hid. induction res as [|r res IH]; [reflexivity |].
  cbn [List.filter]. unfold str_eqb in *.
  destruct (decide (ResourceItem.categoryId r = id)) as [Heq | Hne].
  - rewrite (bool_decide_eq_true_2 (_ ∈ id :: ids)) by (rewrite Heq; left).
    rewrite (bool_decide_eq_true_2 (_ = id)) by exact Heq.
    rewrite (bool_decide_eq_false_2 (_ ∈ ids)) by now rewrite Heq.
    cbn [length]. lia.
  - rewrite (bool_decide_eq_false_2 (_ = id)) by exact Hne.
    destruct (decide (ResourceItem.categoryId r ∈ ids)) as [Hin | Hout].
    + rewrite (bool_decide_eq_true_2 (_ ∈ id :: ids)) by now right.
      rewrite (bool_decide_eq_true_2 (_ ∈ ids)) by exact Hin.
      cbn [length]. lia.
    + rewrite (bool_decide_eq_false_2 (_ ∈ id :: ids))
        by (rewrite elem_of_cons; tauto).
      rewrite (bool_decide_eq_false_2 (_ ∈ ids)) by exact Hout.
      exact IH.
Qed.

Lemma filter_all_in {A : Type} (f : A -> bool) (l : list A) :
  (forall x, In x l -> f x = true) -> List.filter f l = l.
Proof.
  induction l as [|x l IH]; intros Hf; [reflexivity |].
  cbn. rewrite (Hf x) by now left.
  rewrite IH; [reflexivity |]. intros y Hy. apply Hf. now right.
Qed.

(** X28. The charts of the dashboard add up: the slices of the project
    chart sum to the number of projects; and when the loaded categories
    have distinct ids, the slices of the category chart sum to the
    number of records whose category is loaded, so to the number of
    records when every record's category is. *)
Theorem dashboard_charts_add_up (cats : list Category.t)
    (res : list ResourceItem.t) (projects : list Project.t) :
  NoDup (Category.id <$> cats) ->
  chartTotal (Dashboard.projectStatusData projects) = length projects
  /\ chartTotal (Dashboard.categoryCounts cats res)
     = length (List.filter
                 (fun r => bool_decide (ResourceItem.categoryId r
                                          ∈ Category.id <$> cats)) res)
  /\ ((forall r, r ∈ res -> ResourceItem.categoryId r ∈ Category.id <$> cats) ->
      chartTotal (Dashboard.categoryCounts cats res) = length res).
Proof.
  intros Hnd.
  assert (Hcats : chartTotal (Dashboard.categoryCounts cats res)
                  = length (List.filter
                              (fun r => bool_decide (ResourceItem.categoryId r
                                                       ∈ Category.id <$> cats))
                              res)).
  { unfold Dashboard.categoryCounts. rewrite chartTotal_positive.
    unfold chartTotal, Dashboard.countsByCategory.
    induction cats as [|c cats IH].
    - cbn. induction res as [|r res IHres]; [reflexivity |].
      cbn [List.filter]. rewrite bool_decide_eq_false_2; [exact IHres |].
      intros Hin. inversion Hin.
    - rewrite fmap_cons in Hnd. apply NoDup_cons in Hnd as [Hc Hnd].
      rewrite !fmap_cons. cbn [sum_list_with snd].
      rewrite (count_loaded _ _ res Hc). unfold id. f_equal. now apply IH. }
  split; [| split; [exact Hcats |]].
  - unfold Dashboard.projectStatusData. rewrite chartTotal_positive.
    unfold chartTotal. rewrite !fmap_cons. cbn [sum_list_with snd fmap list_fmap].
    rewrite <- (countStatus_total projects). unfold id. lia.
  - intros Hall. rewrite Hcats. f_equal. apply filter_all_in.
    intros r Hr. apply bool_decide_eq_true_2, Hall, list_elem_of_In, Hr.
Qed.

Lemma dashboard_charts_add_up_witness :
  chartTotal (Dashboard.projectStatusData [prj_alpha; prj_beta]) = 2%nat
  /\ chartTotal (Dashboard.categoryCounts [cat_equipment; cat_notes]
                   [res_laptop; res_at "r8" 5])
     = 2%nat.
Proof.
  destruct (dashboard_charts_add_up [cat_equipment; cat_notes]
              [res_laptop; res_at "r8" 5] [prj_alpha; prj_beta])
    as (H1 & H2 & _).
  - decide_list_fact.
  - split; [exact H1 | exact H2].
Defined.

Lemma insertRecent_perm (a : ResourceItem.t) (l : list ResourceItem.t) :
  Dashboard.insertRecent a l ≡ₚ a :: l.
Proof.
  induction l as [|b l IH]; [reflexivity |]. cbn.
  destruct (ResourceItem.createdAt b <=? ResourceItem.createdAt a)%Z;
    [reflexivity |].
  rewrite IH. apply Permutation_swap.
Qed.

Lemma sortRecent_perm (res : list ResourceItem.t) :
  Dashboard.sortRecent res ≡ₚ res.
Proof.
  induction res as [|a res IH]; [reflexivity |].
  cbn. rewrite insertRecent_perm. now constructor.
Qed.

Lemma insertRecent_sorted (a : ResourceItem.t) (l : list ResourceItem.t) :
  StronglySorted
    (fun a b => ResourceItem.createdAt b <= ResourceItem.createdAt a) l ->
  StronglySorted
    (fun a b => ResourceItem.createdAt b <= ResourceItem.createdAt a)
    (Dashboard.insertRecent a l).
Proof.
  induction 1 as [|b l Hl IH Hb]; cbn; [repeat constructor |].
  destruct (Z.leb_spec (ResourceItem.createdAt b) (ResourceItem.createdAt a))
    as [Hle | Hgt].
  - constructor; [now constructor |]. constructor; [exact Hle |].
    eapply Forall_impl; [exact Hb |]. cbn. intros x Hx. lia.
  - constructor; [exact IH |].
    rewrite insertRecent_perm. constructor; [lia | exact Hb].
Qed.

Lemma sortRecent_sorted (res : list ResourceItem.t) :
  StronglySorted
    (fun a b => ResourceItem.createdAt b <= ResourceItem.createdAt a)
    (Dashboard.sortRecent res).
Proof.
  induction res as [|a res IH]; [constructor |].
  cbn. now apply insertRecent_sorted.
Qed.

Lemma StronglySorted_split {A : Type} (R : A -> A -> Prop) (l : list A)
    (n : nat) :
  StronglySorted R l ->
  StronglySorted R (take n l)
  /\ forall a b, a ∈ take n l -> b ∈ drop n l -> R a b.
Proof.
  intros Hs. revert n. induction Hs as [|x l Hl IH Hx]; intros n.
  - rewrite take_nil. split; [constructor |]. intros a b Ha. inversion Ha.
  - destruct n as [|n]; cbn.
    + split; [constructor |]. intros a b Ha. inversion Ha.
    + destruct (IH n) as [IH1 IH2]. split.
      * constructor; [exact IH1 |].
        rewrite Forall_forall in *. intros y Hy. apply Hx.
        now apply (subseteq_take n l).
      * intros a b Ha Hb. apply elem_of_cons in Ha as [-> | Ha];
          [| now apply IH2].
        rewrite Forall_forall in Hx. apply Hx.
        now apply (subseteq_drop n l).
Qed.

(** X29. The recent activity of the dashboard is the five newest
    records: it holds five records, or all of them when there are
    fewer, by falling creation time, they are records of the list, and
    no record left out is newer than one shown. *)
Theorem recent_activity_is_newest_five (res : list ResourceItem.t) :
  length (Dashboard.recentActivity res) = Nat.min 5 (length res)
  /\ newestFirst (Dashboard.recentActivity res)
  /\ exists older,
       Dashboard.recentActivity res ++ older ≡ₚ res
       /\ forall a b, a ∈ Dashboard.recentActivity res -> b ∈ older ->
            ResourceItem.createdAt b <= ResourceItem.createdAt a.
Proof.
  unfold Dashboard.recentActivity. rewrite slice_forward by lia.
  change (Z.to_nat (5 - 0)) with 5%nat. change (Z.to_nat 0) with 0%nat.
  rewrite drop_0.
  destruct (StronglySorted_split _ (Dashboard.sortRecent res) 5
              (sortRecent_sorted res)) as [Hsorted Hsplit].
  split; [| split].
  - rewrite length_take. now rewrite (Permutation_length (sortRecent_perm res)).
  - now apply StronglySorted_Sorted.
  - exists (drop 5 (Dashboard.sortRecent res)). split.
    + rewrite take_drop. apply sortRecent_perm.
    + exact Hsplit.
Qed.

(** ** Permissions, together *)

(** X30. The rights on records fit together: who may delete a record is who
    may edit it; who may create records may edit and delete every
    record and manage projects; who may manage the schema may do all of
    these; and the list of categories that the record view keeps is
    every loaded category for an admin or a manager, and the public
    ones for any other user. *)
Theorem record_rights_fit_together (u : User.t) (r : ResourceItem.t)
    (allCats : list Category.t) :
  PERMISSIONS.canDeleteResource u r = PERMISSIONS.canEditResource u r
  /\ (PERMISSIONS.canCreateResource u = true ->
      PERMISSIONS.canEditResource u r = true)
  /\ PERMISSIONS.canCreateResource u = PERMISSIONS.canManageProjects u
  /\ (PERMISSIONS.canManageSchema u = true ->
      PERMISSIONS.canCreateResource u = true)
  /\ DataManager.visibleCategories u allCats
     = if PERMISSIONS.canCreateResource u then allCats
       else List.filter
              (fun c => match Category.accessLevel c with
                        | public => true
                        | restricted => false
                        end) allCats.
Proof.
  unfold PERMISSIONS.canDeleteResource, PERMISSIONS.canEditResource,
    PERMISSIONS.canCreateResource, PERMISSIONS.canManageProjects,
    PERMISSIONS.canManageSchema, DataManager.visibleCategories,
    PERMISSIONS.canViewCategory.
  destruct (User.role u); repeat split; try discriminate;
    now apply filter_all.
Qed.
